(** * FemBalance ML service: feature engineering, ensemble inference, validation

    A shallow embedding of the prediction core of the FemBalance ML service
    ([ml/src/models/cycle_prediction_model.py],
    [ml/src/models/pcos_risk_model.py], [ml/src/utils/validation_utils.py],
    [ml/src/utils/constants.py], [ml/src/inference/api_handler.py])
    together with the properties its specification states about it and
    further properties of the same functions.

    Modelling conventions.
    - Python floats are exact rationals ([Q]); a pandas missing value is
      [NaN] of type [num].  Every division in the modelled code is by a
      non-zero constant or by a count that is at least 1.
    - A Python exception is a value of type [exn]; code that can raise
      returns a [result].  [try: ... except Exception as e: raise X(f"...")]
      is [rewrap].
    - [datetime.now()], [datetime.utcnow()] and the square root of the numeric
      library are parameters of the functions that use them.
    - A cycle record carries its start date already parsed (a naive
      timestamp); a field that a record does not supply is [None]. *)

From Stdlib Require Import ZArith QArith Qround Qabs Qminmax Lia Lqa Ascii DecimalString.
From stdpp Require Import base option list gmap strings sorting.

Local Open Scope Z_scope.

(** ** Python primitives *)

Module Py.

Inductive exn :=
| ValueError (msg : string)
| RuntimeError (msg : string)
| KeyError (key : string)
| IndexError (msg : string)
| TypeError (msg : string)
| AttributeError (msg : string)
| OverflowError (msg : string).

(** [str(e)]: a [KeyError] prints the repr of its key. *)
Definition str_exn (e : exn) : string :=
  match e with
  | ValueError m | RuntimeError m | IndexError m | TypeError m
  | AttributeError m | OverflowError m => m
  | KeyError k => "'" +:+ k +:+ "'"
  end.

Inductive result (A : Type) :=
| Ok (a : A)
| Raise (e : exn).
Arguments Ok {A} a.
Arguments Raise {A} e.

Definition bind {A B} (r : result A) (k : A -> result B) : result B :=
  match r with
  | Ok a => k a
  | Raise e => Raise e
  end.

(** [except Exception as e: raise wrap(e)] around a block. *)
Definition rewrap {A} (wrap : exn -> exn) (r : result A) : result A :=
  match r with
  | Ok a => Ok a
  | Raise e => Raise (wrap e)
  end.

Definition is_ok {A} (r : result A) : bool :=
  match r with Ok _ => true | Raise _ => false end.

(** [l[i]] on a sequence. *)
Definition getidx {A} (l : list A) (i : nat) : result A :=
  match l !! i with
  | Some x => Ok x
  | None => Raise (IndexError "index out of bounds")
  end.

(** [d[k]] on a dict. *)
Definition getitem {V} (d : gmap string V) (k : string) : result V :=
  match d !! k with
  | Some v => Ok v
  | None => Raise (KeyError k)
  end.

(** Strict comparison on floats. *)
Definition Qltb (a b : Q) : bool := negb (Qle_bool b a).

(** The builtin [max(a, b)] keeps [a] unless [b > a]; [min(a, b)] keeps
    [a] unless [b < a]. *)
Definition max2 (a b : Q) : Q := if Qltb a b then b else a.
Definition min2 (a b : Q) : Q := if Qltb b a then b else a.
Definition max3 (a b c : Q) : Q := max2 (max2 a b) c.

(** [np.clip(x, lo, hi)] is [minimum(maximum(x, lo), hi)]. *)
Definition clip (x lo hi : Q) : Q :=
  let y := if Qltb x lo then lo else x in
  if Qltb hi y then hi else y.

(** [int(x)] truncates toward zero. *)
Definition int (x : Q) : Z :=
  if Qltb x 0 then Qceiling x else Qfloor x.

(** [round(x)] with no digits: nearest integer, ties to even. *)
Definition round (x : Q) : Z :=
  let f := Qfloor x in
  let d := (x - inject_Z f)%Q in
  if Qltb d (1 # 2) then f
  else if Qltb (1 # 2) d then f + 1
  else if Z.even f then f else f + 1.

(** A float that may be a missing value. *)
Inductive num :=
| Fin (q : Q)
| NaN.

Definition lift1 (f : Q -> Q) (x : num) : num :=
  match x with Fin a => Fin (f a) | NaN => NaN end.

Definition lift2 (f : Q -> Q -> Q) (x y : num) : num :=
  match x, y with
  | Fin a, Fin b => Fin (f a b)
  | _, _ => NaN
  end.

(** Comparisons with a missing value are false. *)
Definition num_ltb (x y : num) : bool :=
  match x, y with
  | Fin a, Fin b => Qltb a b
  | _, _ => false
  end.

(** [max(a, x)] of the builtin, on possibly missing values. *)
Definition num_max2 (a x : num) : num := if num_ltb a x then x else a.

Definition string_of_Z (z : Z) : string :=
  NilZero.string_of_int (Z.to_int z).

End Py.

Export Py.

#[global] Instance result_bind : MBind result := fun _ _ k r => Py.bind r k.
#[global] Instance result_ret : MRet result := fun _ a => Ok a.

(** ** Calendar dates, after the proleptic Gregorian ordinal of [datetime] *)

Module Dates.

Definition is_leap (y : Z) : bool :=
  (y mod 4 =? 0) && (negb (y mod 100 =? 0) || (y mod 400 =? 0)).

Definition days_before_year (y : Z) : Z :=
  let p := y - 1 in p * 365 + p / 4 - p / 100 + p / 400.

Definition days_in_month (y m : Z) : Z :=
  if m =? 2 then (if is_leap y then 29 else 28)
  else if (m =? 4) || (m =? 6) || (m =? 9) || (m =? 11) then 30
  else 31.

(** Days of the year before the first day of month [m] (common year). *)
Definition DAYS_BEFORE_MONTH (m : Z) : Z :=
  match m with
  | 1 => 0 | 2 => 31 | 3 => 59 | 4 => 90 | 5 => 120 | 6 => 151
  | 7 => 181 | 8 => 212 | 9 => 243 | 10 => 273 | 11 => 304 | 12 => 334
  | _ => 0
  end.

Definition days_before_month (y m : Z) : Z :=
  DAYS_BEFORE_MONTH m + (if (2 <? m) && is_leap y then 1 else 0).

Definition ymd2ord (y m d : Z) : Z :=
  days_before_year y + days_before_month y m + d.

Definition DI400Y : Z := 146097.
Definition DI100Y : Z := 36524.
Definition DI4Y : Z := 1461.

Definition ord2ymd (n0 : Z) : Z * Z * Z :=
  let n := n0 - 1 in
  let n400 := n / DI400Y in
  let n := n mod DI400Y in
  let year := n400 * 400 + 1 in
  let n100 := n / DI100Y in
  let n := n mod DI100Y in
  let n4 := n / DI4Y in
  let n := n mod DI4Y in
  let n1 := n / 365 in
  let n := n mod 365 in
  let year := year + n100 * 100 + n4 * 4 + n1 in
  if (n1 =? 4) || (n100 =? 4) then (year - 1, 12, 31)
  else
    let leapyear := (n1 =? 3) && (negb (n4 =? 24) || (n100 =? 3)) in
    let month := Z.shiftr (n + 50) 5 in
    let preceding :=
      DAYS_BEFORE_MONTH month + (if (2 <? month) && leapyear then 1 else 0) in
    if n <? preceding then
      let month' := month - 1 in
      let preceding' :=
        preceding - (days_in_month 1 month'
                     + (if (month' =? 2) && leapyear then 1 else 0)) in
      (year, month', n - preceding' + 1)
    else (year, month, n - preceding + 1).

Definition MAXORDINAL : Z := 3652059.
Definition US_PER_DAY : Z := 86400000000.

(** A naive timestamp: the ordinal of its day and the microseconds into
    that day. *)
Record datetime := { ordinal : Z; usec : Z }.

Definition of_ymd (y m d : Z) : datetime :=
  {| ordinal := ymd2ord y m d; usec := 0 |}.

Definition year_of (t : datetime) : Z := (ord2ymd (ordinal t)).1.1.
Definition month_of (t : datetime) : Z := (ord2ymd (ordinal t)).1.2.
Definition day_of (t : datetime) : Z := (ord2ymd (ordinal t)).2.

Definition total_us (t : datetime) : Z := ordinal t * US_PER_DAY + usec t.

Definition dt_ltb (a b : datetime) : bool := total_us a <? total_us b.
Definition dt_leb (a b : datetime) : bool := total_us a <=? total_us b.

(** [(a - b).days]: the timedelta is normalised with a non-negative
    sub-day part, so its day count is the floor. *)
Definition sub_days (a b : datetime) : Z :=
  (total_us a - total_us b) / US_PER_DAY.

(** [t + timedelta(days=n)]. *)
Definition add_days (t : datetime) (n : Z) : result datetime :=
  if (Z.abs n <=? 999999999) then
    let o := ordinal t + n in
    if (1 <=? o) && (o <=? MAXORDINAL)
    then Ok {| ordinal := o; usec := usec t |}
    else Raise (OverflowError "date value out of range")
  else Raise (OverflowError "days; must have magnitude <= 999999999").

End Dates.

Export Dates.

(** ** Cycle prediction model ([models/cycle_prediction_model.py]) *)

Module Cycle.

(** One entry of the cycle history, [{'start_date': ..., 'cycle_length':
    ..., 'period_length': ...}]. *)
Record CycleRecord := {
  start_date : datetime;
  cycle_length : option Z;
  period_length : option Z
}.

(** The processed frame, column by column. *)
Record DataFrame := {
  col_start_date : list datetime;
  col_cycle_length : list num;
  col_period_length : list num
}.

Definition len (df : DataFrame) : nat := length (col_start_date df).

Definition of_field (o : option Z) : num :=
  match o with
  | Some z => Fin (inject_Z z)
  | None => NaN
  end.

(** A column exists in [pd.DataFrame(cycles)] when some record has the key. *)
Definition in_columns (f : CycleRecord -> option Z) (l : list CycleRecord) : bool :=
  existsb (fun r => match f r with Some _ => true | None => false end) l.

(** [sort_values('start_date')], rows with equal dates keeping their order. *)
Fixpoint insert_sorted (r : CycleRecord) (l : list CycleRecord) : list CycleRecord :=
  match l with
  | [] => [r]
  | x :: t =>
      if dt_leb (start_date r) (start_date x) then r :: x :: t
      else x :: insert_sorted r t
  end.

Definition sort_values (l : list CycleRecord) : list CycleRecord :=
  foldr insert_sorted [] l.

(** [series.diff().dt.days]: missing on the first row. *)
Fixpoint diff_days (prev : option datetime) (l : list datetime) : list num :=
  match l with
  | [] => []
  | t :: rest =>
      match prev with
      | None => NaN
      | Some p => Fin (inject_Z (sub_days t p))
      end :: diff_days (Some t) rest
  end.

Definition fillna (v : Q) (x : num) : num :=
  match x with
  | NaN => Fin v
  | Fin q => Fin q
  end.

Definition process_cycle_data (cycles : list CycleRecord) : result DataFrame :=
  rewrap (fun e => ValueError ("Cycle data processing failed: " +:+ str_exn e))
    (match cycles with
     | [] => Raise (ValueError "No cycle data provided")
     | _ :: _ =>
         let df := sort_values cycles in
         let dates := map start_date df in
         let lengths :=
           if negb (in_columns cycle_length df)
           then map (fillna 28) (diff_days None dates)
           else map (fun r => of_field (cycle_length r)) df in
         let periods :=
           if negb (in_columns period_length df)
           then map (fun _ => Fin 5) df
           else map (fun r => fillna 5 (of_field (period_length r))) df in
         Ok {| col_start_date := dates;
               col_cycle_length := lengths;
               col_period_length := periods |}
     end).

(** Series statistics skip missing values. *)
Fixpoint dropna (l : list num) : list Q :=
  match l with
  | [] => []
  | Fin q :: t => q :: dropna t
  | NaN :: t => dropna t
  end.

Definition qsum (l : list Q) : Q := foldr Qplus 0%Q l.

Definition qlen (l : list Q) : Q := inject_Z (Z.of_nat (length l)).

Definition mean (l : list num) : num :=
  match dropna l with
  | [] => NaN
  | xs => Fin (qsum xs / qlen xs)
  end.

Definition _get_season (date : datetime) : Z :=
  let month := month_of date in
  if (month =? 12) || (month =? 1) || (month =? 2) then 0
  else if (month =? 3) || (month =? 4) || (month =? 5) then 1
  else if (month =? 6) || (month =? 7) || (month =? 8) then 2
  else 3.

Definition of_Z (z : Z) : num := Fin (inject_Z z).
Definition of_nat (n : nat) : num := Fin (inject_Z (Z.of_nat n)).

(** The two regressors of [self.model], as the functions they compute on
    one scaled feature row; each may raise. *)
Record Ensemble := {
  random_forest : list num -> result Q;
  linear_regression : list num -> result Q
}.

Record CyclePredictionModel := {
  model : option Ensemble;
  scaler : list num -> result (list num);
  feature_columns : list string;
  is_trained : bool;
  model_version : string
}.

Record Phase := { phase_start : datetime; phase_end : datetime; description : string }.

Record Phases := {
  menstrual : Phase;
  follicular : Phase;
  ovulation : Phase;
  luteal : Phase
}.

Record FertileWindow := { fw_start : datetime; fw_end : datetime; fw_peak : datetime }.

Record Prediction := {
  predicted_start_date : datetime;
  predicted_cycle_length : Z;
  confidence : num;
  fertile_window : FertileWindow;
  cycle_phase_predictions : Phases;
  result_model_version : string;
  timestamp : datetime
}.

Definition _predict_cycle_phases (start : datetime) (cycle_length : Z) : result Phases :=
  menstrual_end ← add_days start 5;
  follicular_start ← add_days start 6;
  follicular_end ← add_days start 13;
  let ovulation_day := cycle_length - 14 in
  ovulation_start ← add_days start (ovulation_day - 1);
  ovulation_end ← add_days start (ovulation_day + 1);
  luteal_start ← add_days start (ovulation_day + 2);
  luteal_end ← add_days start cycle_length;
  mret {| menstrual := {| phase_start := start; phase_end := menstrual_end;
                          description := "Menstrual bleeding" |};
          follicular := {| phase_start := follicular_start; phase_end := follicular_end;
                           description := "Follicle development" |};
          ovulation := {| phase_start := ovulation_start; phase_end := ovulation_end;
                          description := "Ovulation window" |};
          luteal := {| phase_start := luteal_start; phase_end := luteal_end;
                       description := "Post-ovulation phase" |} |}.

(** [max(cycles, key=start_date)]: the first record with the latest date. *)
Fixpoint max_by_start (best : CycleRecord) (l : list CycleRecord) : CycleRecord :=
  match l with
  | [] => best
  | x :: t =>
      max_by_start (if dt_ltb (start_date best) (start_date x) then x else best) t
  end.

(** The ensemble length: weighted average, then the clamp. *)
Definition ensemble_length (rf_pred lr_pred : Q) : Q :=
  max2 21 (min2 45 (0.7 * rf_pred + 0.3 * lr_pred)%Q).

Definition model_agreement (rf_pred lr_pred : Q) : Q :=
  (1 - Qabs (rf_pred - lr_pred) / max3 rf_pred lr_pred 1)%Q.

(** [max(0, 1 - (cycle_std / 7))]. *)
Definition regularity (cycle_std : num) : num :=
  num_max2 (Fin 0) (lift2 Qminus (Fin 1) (lift2 Qdiv cycle_std (Fin 7))).

Section WithClockAndSqrt.

Context (sqrt : Q -> Q) (now utcnow : datetime).

(** [series.std()]: sample standard deviation of the present values. *)
Definition std (l : list num) : num :=
  let xs := dropna l in
  if (length xs <? 2)%nat then NaN
  else
    let m := (qsum xs / qlen xs)%Q in
    Fin (sqrt (qsum (map (fun x => (x - m) * (x - m))%Q xs) / (qlen xs - 1))%Q).

Definition engineer_features (cycles : list CycleRecord) : result (gmap string num) :=
  rewrap (fun e => ValueError ("Feature engineering failed: " +:+ str_exn e))
    (df ← process_cycle_data cycles;
     if (len df <? 2)%nat then
       mret (<["avg_cycle_length" := Fin 28.0]>
            (<["cycle_regularity" := Fin 0.5]>
            (<["avg_period_length" := Fin 5.0]>
            (<["trend_slope" := Fin 0.0]>
            (<["recent_avg" := Fin 28.0]>
            (<["season" := of_Z (_get_season now)]>
            (<["cycles_count" := of_nat (len df)]> ∅)))))))
     else
       let avg_cycle_length := mean (col_cycle_length df) in
       let avg_period_length := mean (col_period_length df) in
       let cycle_std := std (col_cycle_length df) in
       let cycle_regularity := regularity cycle_std in
       let '(recent_cycles, trend_slope) :=
         if (4 <=? len df)%nat then
           let recent := mean (drop (len df - 3) (col_cycle_length df)) in
           let older := mean (take (len df - 3) (col_cycle_length df)) in
           (recent, lift2 Qdiv (lift2 Qminus recent older) (of_nat (len df)))
         else (avg_cycle_length, Fin 0.0) in
       match last (col_start_date df) with
       | None => Raise (IndexError "single positional indexer is out-of-bounds")
       | Some last_date =>
           let season := _get_season last_date in
           let days_since_last := sub_days now last_date in
           mret (<["avg_cycle_length" := avg_cycle_length]>
                (<["cycle_regularity" := cycle_regularity]>
                (<["avg_period_length" := avg_period_length]>
                (<["trend_slope" := trend_slope]>
                (<["recent_avg" := recent_cycles]>
                (<["season" := of_Z season]>
                (<["cycles_count" := of_nat (len df)]>
                (<["days_since_last" := of_Z days_since_last]>
                (<["cycle_std" := cycle_std]> ∅)))))))))
       end).

Definition predict (self : CyclePredictionModel) (cycles : list CycleRecord)
  : result Prediction :=
  rewrap (fun e => RuntimeError ("Prediction failed: " +:+ str_exn e))
    (match is_trained self, model self with
     | true, Some ensemble =>
         features ← engineer_features cycles;
         f_avg ← getitem features "avg_cycle_length";
         f_reg ← getitem features "cycle_regularity";
         f_per ← getitem features "avg_period_length";
         f_slope ← getitem features "trend_slope";
         f_recent ← getitem features "recent_avg";
         f_season ← getitem features "season";
         f_count ← getitem features "cycles_count";
         f_since ← getitem features "days_since_last";
         f_std ← getitem features "cycle_std";
         X_scaled ← scaler self
           [f_avg; f_reg; f_per; f_slope; f_recent; f_season; f_count; f_since; f_std];
         rf_pred ← random_forest ensemble X_scaled;
         lr_pred ← linear_regression ensemble X_scaled;
         let predicted_length := ensemble_length rf_pred lr_pred in
         match cycles with
         | [] => Raise (ValueError "max() arg is an empty sequence")
         | c :: rest =>
             let last_cycle := max_by_start c rest in
             let last_start := start_date last_cycle in
             let last_length := default 28 (cycle_length last_cycle) in
             predicted_start ← add_days last_start last_length;
             let confidence :=
               lift2 Qdiv
                 (lift2 Qplus (Fin (model_agreement rf_pred lr_pred)) f_reg)
                 (Fin 2) in
             ovulation_date ← add_days predicted_start (Py.int predicted_length - 14);
             fertile_start ← add_days ovulation_date (-5);
             fertile_end ← add_days ovulation_date 1;
             phases ← _predict_cycle_phases predicted_start (Py.int predicted_length);
             mret {| predicted_start_date := predicted_start;
                     predicted_cycle_length := Py.round predicted_length;
                     confidence := lift1 (fun c => clip c 0.0 1.0) confidence;
                     fertile_window := {| fw_start := fertile_start;
                                          fw_end := fertile_end;
                                          fw_peak := ovulation_date |};
                     cycle_phase_predictions := phases;
                     result_model_version := model_version self;
                     timestamp := utcnow |}
         end
     | _, _ => Raise (ValueError "Model is not trained")
     end).

End WithClockAndSqrt.

End Cycle.

(** ** Constants ([utils/constants.py]) *)

Module Constants.

Definition FEATURE_COLUMNS_pcos_risk : list string :=
  ["age"; "bmi"; "cycle_length"; "period_length"; "exercise_frequency";
   "stress_level"; "sleep_quality"; "family_history"; "symptom_count"].

Definition FEATURE_COLUMNS_cycle_prediction : list string :=
  ["previous_cycle_length"; "previous_period_length"; "age"; "bmi";
   "stress_level"; "exercise_frequency"; "season"; "cycle_regularity"].

(** The risk-level table, in its declaration order. *)
Definition PCOS_RISK_LEVELS : list (string * (Q * Q)) :=
  [("low", (0.0, 0.3)); ("moderate", (0.3, 0.6));
   ("high", (0.6, 0.8)); ("very_high", (0.8, 1.0))]%Q.

End Constants.

(** ** PCOS risk model ([models/pcos_risk_model.py]) *)

Module PCOS.

(** A column of a frame: floats (possibly missing) or booleans. *)
Inductive Series :=
| NumCol (cells : list num)
| BoolCol (cells : list bool).

(** A frame is its columns, in order. *)
Definition DataFrame := list (string * Series).

Definition of_bool (b : bool) : num := Fin (if b then 1 else 0)%Q.

Definition values (s : Series) : list num :=
  match s with
  | NumCol l => l
  | BoolCol l => map of_bool l
  end.

Definition columns (df : DataFrame) : list string := map fst df.

Definition nrows (df : DataFrame) : nat :=
  match df with
  | [] => 0
  | (_, s) :: _ => length (values s)
  end.

Fixpoint lookup_col (df : DataFrame) (k : string) : option Series :=
  match df with
  | [] => None
  | (c, s) :: rest => if String.eqb c k then Some s else lookup_col rest k
  end.

(** [df[k]]. *)
Definition getcol (df : DataFrame) (k : string) : result Series :=
  match lookup_col df k with
  | Some s => Ok s
  | None => Raise (KeyError k)
  end.

(** [df[k] = s]: replaces the column in place, or appends it. *)
Fixpoint setcol (df : DataFrame) (k : string) (s : Series) : DataFrame :=
  match df with
  | [] => [(k, s)]
  | (c, s') :: rest =>
      if String.eqb c k then (c, s) :: rest else (c, s') :: setcol rest k s
  end.

(** [pd.cut(x, bins, labels=[0, 1, ...])] on one value: the index of the
    right-closed interval that holds it, missing when none does. *)
Fixpoint cut_from (i : Z) (bins : list Q) (x : Q) : num :=
  match bins with
  | lo :: ((hi :: _) as rest) =>
      if Qltb lo x && Qle_bool x hi then Fin (inject_Z i)
      else cut_from (i + 1) rest x
  | _ => NaN
  end.

Definition cut (bins : list Q) (s : Series) : Series :=
  NumCol (map (fun v => match v with
                        | Fin x => cut_from 0 bins x
                        | NaN => NaN
                        end) (values s)).

(** [series < c] and [series > c], then [.astype(int)]. *)
Definition lt_const (s : Series) (c : Q) : list bool :=
  map (fun v => num_ltb v (Fin c)) (values s).
Definition gt_const (s : Series) (c : Q) : list bool :=
  map (fun v => num_ltb (Fin c) v) (values s).
Definition astype_int (l : list bool) : list Z :=
  map (fun b : bool => if b then 1 else 0) l.
Definition int_col (l : list Z) : Series :=
  NumCol (map (fun z => Fin (inject_Z z)) l).

(** The two classifiers of [self.model] as the class-1 probability they
    give one scaled row; each may raise. *)
Record Ensemble := {
  random_forest : list num -> result Q;
  gradient_boosting : list num -> result Q
}.

Record PCOSRiskModel := {
  model : option Ensemble;
  scaler : list (list num) -> result (list (list num));
  feature_columns : list string;
  is_trained : bool;
  model_version : string
}.

Definition set_feature_columns (self : PCOSRiskModel) (cols : list string) : PCOSRiskModel :=
  {| model := model self;
     scaler := scaler self;
     feature_columns := cols;
     is_trained := is_trained self;
     model_version := model_version self |}.

Definition new_features : list string :=
  ["bmi_category"; "cycle_irregular"; "period_category"; "lifestyle_risk"; "age_group"].

(** The body of the [try] block of [engineer_features], up to the update
    of [self.feature_columns]. *)
Definition engineer_columns (data : DataFrame) : result DataFrame :=
  let d := data in
  bmi ← getcol d "bmi";
  let d := setcol d "bmi_category" (cut [0; 18.5; 25; 30; 100]%Q bmi) in
  cl ← getcol d "cycle_length";
  cl' ← getcol d "cycle_length";
  let d := setcol d "cycle_irregular"
             (int_col (astype_int (zip_with orb (lt_const cl 21) (gt_const cl' 35)))) in
  pl ← getcol d "period_length";
  let d := setcol d "period_category" (cut [0; 3; 7; 15]%Q pl) in
  ex ← getcol d "exercise_frequency";
  st ← getcol d "stress_level";
  sl ← getcol d "sleep_quality";
  let d := setcol d "lifestyle_risk"
             (int_col (zip_with Z.add
                         (zip_with Z.add (astype_int (lt_const ex 2))
                                         (astype_int (gt_const st 3)))
                         (astype_int (lt_const sl 3)))) in
  age ← getcol d "age";
  let d := setcol d "age_group" (cut [0; 18; 25; 35; 100]%Q age) in
  mret d.

(** [engineer_features]: returns the engineered frame and the predictor
    after the call.  The list concatenation builds a new list for
    [self.feature_columns]; the constant it started from is not changed.
    A failure inside the [try] block is logged and the input frame is
    returned unchanged. *)
Definition engineer_features (self : PCOSRiskModel) (data : DataFrame)
  : DataFrame * PCOSRiskModel :=
  match engineer_columns data with
  | Ok engineered_data =>
      (engineered_data,
       set_feature_columns self (feature_columns self ++ new_features))
  | Raise _ => (data, self)
  end.

(** Median of the present values of a column. *)
Fixpoint insert_q (x : Q) (l : list Q) : list Q :=
  match l with
  | [] => [x]
  | y :: t => if Qle_bool x y then x :: y :: t else y :: insert_q x t
  end.

Definition sort_q (l : list Q) : list Q := foldr insert_q [] l.

Definition median (l : list num) : num :=
  let xs := sort_q (Cycle.dropna l) in
  let n := length xs in
  match n with
  | O => NaN
  | _ =>
      if Nat.even n
      then match xs !! (n / 2 - 1)%nat, xs !! (n / 2)%nat with
           | Some a, Some b => Fin ((a + b) / 2)%Q
           | _, _ => NaN
           end
      else match xs !! (n / 2)%nat with
           | Some a => Fin a
           | None => NaN
           end
  end.

Definition fillna_with (m : num) (x : num) : num :=
  match x with
  | NaN => m
  | Fin q => Fin q
  end.

Definition quote (s : string) : string := "'" +:+ s +:+ "'".

Fixpoint join (sep : string) (l : list string) : string :=
  match l with
  | [] => ""
  | [x] => x
  | x :: t => x +:+ sep +:+ join sep t
  end.

Fixpoint dedup (l : list string) : list string :=
  match l with
  | [] => []
  | x :: t => if existsb (String.eqb x) t then dedup t else x :: dedup t
  end.

(** [preprocess_data]: the selected columns, missing values filled with the
    column median, booleans as integers, as rows. *)
Definition preprocess_data (self : PCOSRiskModel) (data : DataFrame)
  : result (list (list num)) :=
  rewrap (fun e => ValueError ("Data preprocessing failed: " +:+ str_exn e))
    (let missing_cols :=
       dedup (List.filter (fun c => negb (existsb (String.eqb c) (columns data)))
                          (feature_columns self)) in
     match missing_cols with
     | _ :: _ =>
         Raise (ValueError ("Missing required columns: {"
                            +:+ join ", " (map quote missing_cols) +:+ "}"))
     | [] =>
         selected ← mapM (getcol data) (feature_columns self);
         let filled :=
           map (fun s => match s with
                         | NumCol l => map (fillna_with (median l)) l
                         | BoolCol l => map of_bool l
                         end) selected in
         mret (map (fun i => map (fun col => default NaN (col !! i)) filled)
                   (seq 0 (nrows data)))
     end).

Definition _get_risk_level (risk_score : Q) : string :=
  default "very_high"
    (fst <$> find (fun entry => Qle_bool (entry.2.1) risk_score
                                && Qltb risk_score (entry.2.2))
                  Constants.PCOS_RISK_LEVELS).

Definition _calculate_confidence (rf_proba gb_proba : Q) : Q :=
  let agreement := (1 - Qabs (rf_proba - gb_proba))%Q in
  let certainty := (Qabs (((rf_proba + gb_proba) / 2) - 0.5) * 2)%Q in
  let confidence := ((agreement + certainty) / 2)%Q in
  clip confidence 0.0 1.0.

(** [sample.get(k, default)] on the row [i] of a frame. *)
Definition sample_get (df : DataFrame) (i : nat) (k : string) (dflt : Q) : num :=
  match lookup_col df k with
  | Some s => default NaN (values s !! i)
  | None => Fin dflt
  end.

Definition num_eqb (x : num) (c : Q) : bool :=
  match x with
  | Fin q => Qeq_bool q c
  | NaN => false
  end.

Definition _get_risk_factors (df : DataFrame) (i : nat) : list string :=
  (if num_ltb (Fin 25) (sample_get df i "bmi" 0) then ["elevated_bmi"] else [])
  ++ (if num_ltb (Fin 35) (sample_get df i "cycle_length" 28)
         || num_ltb (sample_get df i "cycle_length" 28) (Fin 21)
      then ["irregular_cycles"] else [])
  ++ (if num_eqb (sample_get df i "family_history" 0) 1 then ["family_history"] else [])
  ++ (if num_ltb (sample_get df i "exercise_frequency" 3) (Fin 2)
      then ["low_exercise"] else [])
  ++ (if num_ltb (Fin 3) (sample_get df i "stress_level" 2) then ["high_stress"] else [])
  ++ (if num_ltb (sample_get df i "sleep_quality" 3) (Fin 3) then ["poor_sleep"] else []).

Record RiskResult := {
  risk_score : Q;
  risk_level : string;
  confidence : Q;
  factors : list string;
  result_model_version : string;
  timestamp : datetime
}.

Record BatchItem := {
  item_risk_score : Q;
  item_risk_level : string;
  item_confidence : Q
}.

Inductive Output :=
| Single (r : RiskResult)
| Predictions (results : list BatchItem).

Section WithClock.

Context (utcnow : datetime).

(** The [try] block of [predict] once the model is known to be trained,
    on the engineered frame and with the predictor as feature
    engineering left it. *)
Definition predict_engineered (self : PCOSRiskModel) (ensemble : Ensemble)
    (X_engineered : DataFrame) : result Output :=
  X_processed ← preprocess_data self X_engineered;
  X_scaled ← scaler self X_processed;
  rf_proba ← mapM (random_forest ensemble) X_scaled;
  gb_proba ← mapM (gradient_boosting ensemble) X_scaled;
  let risk_scores := zip_with (fun a b => ((a + b) / 2)%Q) rf_proba gb_proba in
  match risk_scores with
  | [score] =>
      rf0 ← getidx rf_proba 0;
      gb0 ← getidx gb_proba 0;
      mret (Single {| risk_score := score;
                      risk_level := _get_risk_level score;
                      confidence := _calculate_confidence rf0 gb0;
                      factors := _get_risk_factors X_engineered 0;
                      result_model_version := model_version self;
                      timestamp := utcnow |})
  | _ =>
      results ← mapM (fun '(i, score) =>
                        rf_i ← getidx rf_proba i;
                        gb_i ← getidx gb_proba i;
                        mret {| item_risk_score := score;
                                item_risk_level := _get_risk_level score;
                                item_confidence := _calculate_confidence rf_i gb_i |})
                     (imap pair risk_scores);
      mret (Predictions results)
  end.

(** [predict]: the outcome of the call and the predictor after it. *)
Definition predict (self : PCOSRiskModel) (X : DataFrame)
  : result Output * PCOSRiskModel :=
  match is_trained self, model self with
  | true, Some ensemble =>
      let '(X_engineered, self') := engineer_features self X in
      (rewrap (fun e => RuntimeError ("Prediction failed: " +:+ str_exn e))
              (predict_engineered self' ensemble X_engineered),
       self')
  | _, _ =>
      (Raise (RuntimeError "Prediction failed: Model is not trained"), self)
  end.

End WithClock.

End PCOS.

(** ** Input validation ([utils/validation_utils.py]) *)

Module Validation.

(** A value of a submitted record. *)
Inductive value :=
| VNone
| VBool (b : bool)
| VInt (z : Z)
| VFloat (q : Q)
| VStr (s : string)
| VOther.

(** A submitted record, a dict from field names to values. *)
Definition record := gmap string value.

Definition required_fields_cycle_prediction : list string :=
  ["start_date"; "cycle_length"].

Definition valid_range_cycle_length : Z * Z := (21, 45).


(** [s.replace('Z', '+00:00')]. *)
Fixpoint replace_Z (s : string) : string :=
  match s with
  | EmptyString => EmptyString
  | String c t =>
      if Ascii.eqb c "Z"%char then "+00:00" +:+ replace_Z t
      else String c (replace_Z t)
  end.

(** [field not in rec or rec[field] is None]. *)
Definition missing (rec : record) (field : string) : bool :=
  match rec !! field with
  | None | Some VNone => true
  | Some _ => false
  end.

Definition required_errors (label : string) (fields : list string) (rec : record)
  : list string :=
  map (fun field => label +:+ "Missing required field: " +:+ field)
      (List.filter (missing rec) fields).

Definition in_range (range : Z * Z) (x : Q) : bool :=
  Qle_bool (inject_Z range.1) x && Qle_bool x (inject_Z range.2).

Definition range_message (label field : string) (range : Z * Z) : string :=
  label +:+ field +:+ " must be between " +:+ string_of_Z range.1
        +:+ " and " +:+ string_of_Z range.2.

Section WithRuntime.

(** The parsers of the Python runtime, the printing of a value in an
    f-string, and the clock.  [fromisoformat] gives the wall-clock fields
    of the parsed value and [utcoffset] the UTC offset the parsed string
    carries, in microseconds: [None] for a naive value, [Some 0] for a
    string ending in [+00:00]. *)
Context (fromisoformat : string -> option datetime)
        (utcoffset : string -> option Z)
        (int_of_str : string -> option Z)
        (float_of_str : string -> option Q)
        (str : value -> string)
        (now : datetime).

(** [datetime.fromisoformat(v.replace('Z', '+00:00'))]. *)
Definition parse_date (v : value) : result datetime :=
  match v with
  | VStr s =>
      match fromisoformat (replace_Z s) with
      | Some d => Ok d
      | None => Raise (ValueError ("Invalid isoformat string: '" +:+ replace_Z s +:+ "'"))
      end
  | _ => Raise (AttributeError "object has no attribute 'replace'")
  end.


(** [int(v)]. *)
Definition to_int (v : value) : result Z :=
  match v with
  | VInt z => Ok z
  | VBool b => Ok (if b then 1 else 0)
  | VFloat q => Ok (Py.int q)
  | VStr s =>
      match int_of_str s with
      | Some z => Ok z
      | None => Raise (ValueError "invalid literal for int() with base 10")
      end
  | VNone | VOther => Raise (TypeError "int() argument must be a string or a real number")
  end.


(** The errors of one cycle record, [label] being ["Cycle {i+1}: "]. *)
Definition cycle_errors (label : string) (cycle : record) : list string :=
  required_errors label required_fields_cycle_prediction cycle
  ++ match cycle !! "start_date" with
     | Some v =>
         match parse_date v with
         | Ok _ => []
         | Raise _ => [label +:+ "Invalid date format for start_date"]
         end
     | None => []
     end
  ++ match cycle !! "cycle_length" with
     | None | Some VNone => []
     | Some v =>
         match to_int v with
         | Ok length =>
             if in_range valid_range_cycle_length (inject_Z length) then []
             else [range_message label "cycle_length" valid_range_cycle_length]
         | Raise _ => [label +:+ "cycle_length must be a valid integer"]
         end
     end.

Definition item_label (kind : string) (i : nat) : string :=
  kind +:+ " " +:+ string_of_Z (Z.of_nat i + 1) +:+ ": ".

Definition validate_cycle_input (data : list record) : bool * list string :=
  match data with
  | [] => (false, ["At least one cycle is required"])
  | _ :: _ =>
      let errors := concat (imap (fun i cycle => cycle_errors (item_label "Cycle" i) cycle) data) in
      (Nat.eqb (length errors) 0, errors)
  end.




End WithRuntime.

End Validation.

(** ** Concrete inputs used by the examples *)

Module Scenarios.

(** A square root on rationals, exact to three decimals. *)
Definition sqrt_milli (q : Q) : Q :=
  (inject_Z (Z.sqrt (Qfloor (q * 1000000))) / 1000)%Q.

Definition now_2023_03_10 : datetime := of_ymd 2023 3 10.

(** Scenario A of the specification. *)
Definition scenario_A : list Cycle.CycleRecord :=
  [ {| Cycle.start_date := of_ymd 2023 1 1;
       Cycle.cycle_length := Some 28; Cycle.period_length := Some 5 |};
    {| Cycle.start_date := of_ymd 2023 1 29;
       Cycle.cycle_length := Some 30; Cycle.period_length := Some 4 |};
    {| Cycle.start_date := of_ymd 2023 2 28;
       Cycle.cycle_length := Some 27; Cycle.period_length := Some 6 |} ].

Definition single_record : Cycle.CycleRecord :=
  {| Cycle.start_date := of_ymd 2023 1 1;
     Cycle.cycle_length := Some 28; Cycle.period_length := Some 5 |}.

(** A history in which only the first record supplies [cycle_length]. *)
Definition mixed_history : list Cycle.CycleRecord :=
  [ {| Cycle.start_date := of_ymd 2023 1 1;
       Cycle.cycle_length := Some 30; Cycle.period_length := Some 5 |};
    {| Cycle.start_date := of_ymd 2023 1 29;
       Cycle.cycle_length := None; Cycle.period_length := None |} ].

(** A history in which no record supplies [cycle_length], out of order. *)
Definition bare_history : list Cycle.CycleRecord :=
  [ {| Cycle.start_date := of_ymd 2023 2 28;
       Cycle.cycle_length := None; Cycle.period_length := None |};
    {| Cycle.start_date := of_ymd 2023 1 1;
       Cycle.cycle_length := None; Cycle.period_length := None |};
    {| Cycle.start_date := of_ymd 2023 1 29;
       Cycle.cycle_length := None; Cycle.period_length := None |} ].

(** A trained cycle predictor whose base models answer [rf] and [lr]
    whatever the features, with the identity as scaler. *)
Definition constant_cycle_model (rf lr : Q) : Cycle.CyclePredictionModel :=
  {| Cycle.model := Some {| Cycle.random_forest := fun _ => Ok rf;
                            Cycle.linear_regression := fun _ => Ok lr |};
     Cycle.scaler := fun row => Ok row;
     Cycle.feature_columns := Constants.FEATURE_COLUMNS_cycle_prediction;
     Cycle.is_trained := true;
     Cycle.model_version := "1.0.0" |}.

Definition one (q : Q) : PCOS.Series := PCOS.NumCol [Fin q].

(** Scenario B of the specification, as a one-row frame. *)
Definition profile_B : PCOS.DataFrame :=
  [("age", one 25); ("bmi", one 22.5); ("cycle_length", one 28);
   ("period_length", one 5); ("exercise_frequency", one 3);
   ("stress_level", one 2); ("family_history", PCOS.BoolCol [false]);
   ("sleep_quality", one 3)].

(** The same profile with a [symptom_count] column. *)
Definition profile_B_counted : PCOS.DataFrame :=
  profile_B ++ [("symptom_count", one 0)].

(** A trained PCOS predictor in its initial column configuration, whose
    classifiers answer [p1] and [p2] on every row. *)
Definition constant_pcos_model (p1 p2 : Q) : PCOS.PCOSRiskModel :=
  {| PCOS.model := Some {| PCOS.random_forest := fun _ => Ok p1;
                           PCOS.gradient_boosting := fun _ => Ok p2 |};
     PCOS.scaler := fun X => Ok X;
     PCOS.feature_columns := Constants.FEATURE_COLUMNS_pcos_risk;
     PCOS.is_trained := true;
     PCOS.model_version := "1.0.0" |}.

(** A trained PCOS predictor as [load_model] leaves it from a bundle whose
    declared columns are the eight fields of a profile. *)
Definition eight_column_pcos_model (p1 p2 : Q) : PCOS.PCOSRiskModel :=
  {| PCOS.model := Some {| PCOS.random_forest := fun _ => Ok p1;
                           PCOS.gradient_boosting := fun _ => Ok p2 |};
     PCOS.scaler := fun X => Ok X;
     PCOS.feature_columns :=
       ["age"; "bmi"; "cycle_length"; "period_length"; "exercise_frequency";
        "stress_level"; "sleep_quality"; "family_history"];
     PCOS.is_trained := true;
     PCOS.model_version := "1.0.0" |}.

(** A parser that knows two date strings. *)
Definition parse_known (s : string) : option datetime :=
  if String.eqb s "2023-01-01" then Some (of_ymd 2023 1 1)
  else if String.eqb s "2999-01-01" then Some (of_ymd 2999 1 1)
  else None.



Definition no_int (s : string) : option Z := None.





End Scenarios.

(** ** The default feature vector in the specification's words *)

Module Documented.

(** The nine defaults the specification lists for a history of fewer
    than two records, [season] being the current calendar season and
    [N] the number of records. *)
Definition default_features (season : Z) (N : nat) : gmap string num :=
  <["avg_cycle_length" := Fin 28.0]>
 (<["cycle_regularity" := Fin 0.5]>
 (<["avg_period_length" := Fin 5.0]>
 (<["trend_slope" := Fin 0.0]>
 (<["recent_avg" := Fin 28.0]>
 (<["season" := Cycle.of_Z season]>
 (<["cycles_count" := Cycle.of_nat N]>
 (<["days_since_last" := Fin 0]>
 (<["cycle_std" := Fin 0]> ∅)))))))).

End Documented.

(** ** Training data and feature importance of the cycle model
    ([models/cycle_prediction_model.py]) *)

Module CycleTraining.

(** The order of the feature array, as [prepare_training_data], [predict]
    and [get_feature_importance] spell it out. *)
Definition feature_names : list string :=
  ["avg_cycle_length"; "cycle_regularity"; "avg_period_length"; "trend_slope";
   "recent_avg"; "season"; "cycles_count"; "days_since_last"; "cycle_std"].

Definition feature_array (features : gmap string num) : result (list num) :=
  mapM (getitem features) feature_names.

Definition target_of (c : Cycle.CycleRecord) : Z :=
  default 28 (Cycle.cycle_length c).

(** [sorted(items, key=value, reverse=True)]: descending, entries of equal
    value keeping their order. *)
Fixpoint insert_desc (x : string * Q) (l : list (string * Q)) : list (string * Q) :=
  match l with
  | [] => [x]
  | y :: t => if Qle_bool y.2 x.2 then x :: y :: t else y :: insert_desc x t
  end.

Definition sorted_desc (l : list (string * Q)) : list (string * Q) :=
  foldr insert_desc [] l.

(** [get_feature_importance]: [rf_importance] is the
    [feature_importances_] of the random forest; an untrained model gives
    the empty dict. *)
Definition get_feature_importance (self : Cycle.CyclePredictionModel)
    (rf_importance : list Q) : list (string * Q) :=
  match Cycle.is_trained self, Cycle.model self with
  | true, Some _ => sorted_desc (zip feature_names rf_importance)
  | _, _ => []
  end.

Section WithClockAndSqrt.

Context (sqrt : Q -> Q) (now : datetime).

(** The inner loop of [prepare_training_data] over one user's cycles:
    for [i] from 2, the features of the first [i] cycles and the length of
    cycle [i]. *)
Definition samples_of (cycles : list Cycle.CycleRecord) : result (list (list num * Z)) :=
  mapM (fun i =>
          let history := take i cycles in
          target_cycle ← getidx cycles i;
          features ← Cycle.engineer_features sqrt now history;
          let target_length := target_of target_cycle in
          row ← feature_array features;
          mret (row, target_length))
       (seq 2 (length cycles - 2)).

Definition prepare_training_data (user_cycles : list (list Cycle.CycleRecord))
  : result (list (list num) * list Z) :=
  rewrap (fun e => ValueError ("Training data preparation failed: " +:+ str_exn e))
    (samples ← mapM (fun cycles =>
                       if (length cycles <? 3)%nat then mret []
                       else samples_of cycles) user_cycles;
     match concat samples with
     | [] => Raise (ValueError "No training data could be prepared")
     | all => mret (map fst all, map snd all)
     end).

End WithClockAndSqrt.

End CycleTraining.

(** ** The inference coordinator ([inference/api_handler.py]) and the
    recommendation templates ([utils/constants.py]) *)

Module Handler.

Definition RECOMMENDATION_TEMPLATES_pcos_risk : list (string * list string) :=
  [("low", ["Maintain your current healthy lifestyle";
            "Continue regular exercise and balanced nutrition";
            "Monitor your cycle patterns regularly"]);
   ("moderate", ["Consider consulting with a healthcare provider";
                 "Focus on stress management and regular exercise";
                 "Monitor symptoms and cycle irregularities"]);
   ("high", ["Consult with a healthcare provider for evaluation";
             "Implement lifestyle changes including diet and exercise";
             "Consider tracking symptoms more closely"]);
   ("very_high", ["Seek immediate consultation with a healthcare provider";
                  "Implement comprehensive lifestyle modifications";
                  "Consider medical evaluation and testing"])].

Fixpoint assoc {V} (l : list (string * V)) (k : string) : option V :=
  match l with
  | [] => None
  | (k', v) :: rest => if String.eqb k' k then Some v else assoc rest k
  end.

(** [RECOMMENDATION_TEMPLATES['pcos_risk'].get(risk_level, ...['moderate'])]
    of [predict_pcos_risk]. *)
Definition recommendations (risk_level : string) : result (list string) :=
  match assoc RECOMMENDATION_TEMPLATES_pcos_risk risk_level with
  | Some r => Ok r
  | None =>
      match assoc RECOMMENDATION_TEMPLATES_pcos_risk "moderate" with
      | Some r => Ok r
      | None => Raise (KeyError "moderate")
      end
  end.

Definition inject_all (l : list Z) : list Q := map inject_Z l.

Definition np_mean (l : list Q) : Q := (Cycle.qsum l / Cycle.qlen l)%Q.

(** [l[-n:]] and [l[:-n]] for a positive [n]. *)
Definition last_n {A} (n : nat) (l : list A) : list A := drop (length l - n) l.
Definition but_last_n {A} (n : nat) (l : list A) : list A := take (length l - n) l.

Section WithSqrt.

Context (sqrt : Q -> Q).

(** [np.std]: the population standard deviation. *)
Definition np_std (l : list Q) : Q :=
  let m := np_mean l in
  sqrt (Cycle.qsum (map (fun x => (x - m) * (x - m))%Q l) / Cycle.qlen l)%Q.

(** [_generate_cycle_insights]; the prediction it is also given is not
    read. *)
Definition _generate_cycle_insights (cycle_history : list Cycle.CycleRecord)
  : list string :=
  if (3 <=? length cycle_history)%nat then
    let lengths := inject_all (map CycleTraining.target_of (last_n 6 cycle_history)) in
    let std_dev := np_std lengths in
    (if Qle_bool std_dev 2 then ["Your cycles are very regular"]
     else if Qle_bool std_dev 5 then ["Your cycles show moderate regularity"]
     else ["Your cycles show some irregularity"])
    ++ (if (4 <=? length lengths)%nat then
          let recent_avg := np_mean (last_n 3 lengths) in
          let older_avg := np_mean (but_last_n 3 lengths) in
          if Qltb (older_avg + 1) recent_avg
          then ["Your recent cycles have been getting longer"]
          else if Qltb recent_avg (older_avg - 1)
          then ["Your recent cycles have been getting shorter"]
          else []
        else [])
  else [].

End WithSqrt.

End Handler.

(** ** Ordering of cycle records by start date *)

Module CycleOrder.

Definition date_key (c : Cycle.CycleRecord) : Z := total_us (Cycle.start_date c).

Definition date_le (a b : Cycle.CycleRecord) : Prop := (date_key a <= date_key b)%Z.

(** No two records of the history start at the same instant. *)
Definition distinct_dates (l : list Cycle.CycleRecord) : Prop :=
  NoDup (map date_key l).

End CycleOrder.

(** ** Frames of a given number of rows *)

Module Frames.

(** A pandas frame of [n] rows: at least one column, every column of
    length [n]. *)
Definition frame_of_rows (n : nat) (df : PCOS.DataFrame) : bool :=
  negb (Nat.eqb (length df) 0)
  && forallb (fun cs => Nat.eqb (length (PCOS.values cs.2)) n) df.

End Frames.

(** ** A predictor as training leaves it *)

Module Fitted.

(** [StandardScaler.transform] after a fit on [n_features] columns: an
    empty matrix and a matrix of another width are refused. *)
Definition fitted_scaler (n_features : nat) (X : list (list num))
  : result (list (list num)) :=
  match X with
  | [] => Raise (ValueError "Found array with 0 sample(s)")
  | _ :: _ =>
      if forallb (fun row => Nat.eqb (length row) n_features) X then Ok X
      else Raise (ValueError "X has a different number of features than StandardScaler is expecting")
  end.

(** The predictor after [_initialize_default_model]: scaler and
    classifiers fitted on as many columns as are declared. *)
Definition default_pcos_model (p1 p2 : Q) : PCOS.PCOSRiskModel :=
  {| PCOS.model := Some {| PCOS.random_forest := fun _ => Ok p1;
                           PCOS.gradient_boosting := fun _ => Ok p2 |};
     PCOS.scaler := fitted_scaler (length Constants.FEATURE_COLUMNS_pcos_risk);
     PCOS.feature_columns := Constants.FEATURE_COLUMNS_pcos_risk;
     PCOS.is_trained := true;
     PCOS.model_version := "1.0.0" |}.

(** The inputs read by [engineer_features]. *)
Definition engineered_inputs : list string :=
  ["bmi"; "cycle_length"; "period_length"; "exercise_frequency";
   "stress_level"; "sleep_quality"; "age"].

(** A predictor whose scaler refuses an empty matrix and a matrix with
    more columns than the predictor declares, and whose declared columns
    include the inputs of feature engineering. *)
Definition fitted_on_declared (self : PCOS.PCOSRiskModel) : Prop :=
  (forall M M', PCOS.scaler self M = Ok M' ->
     M <> []
     /\ Forall (fun row => (length row <= length (PCOS.feature_columns self))%nat) M)
  /\ (forall c, In c engineered_inputs -> In c (PCOS.feature_columns self)).

End Fitted.

(** * Properties *)

Local Open Scope Q_scope.

(** ** Facts about the Python primitives *)

Lemma Qltb_lt (a b : Q) : Qltb a b = true <-> a < b.
Proof.
  unfold Qltb. rewrite negb_true_iff.
  split; intro H.
  - apply Qnot_le_lt. intro Hle. apply Qle_bool_iff in Hle. congruence.
  - destruct (Qle_bool b a) eqn:E; [|reflexivity].
    apply Qle_bool_iff in E. exfalso. apply (Qlt_not_le _ _ H E).
Qed.

Lemma Qltb_ge (a b : Q) : Qltb a b = false <-> b <= a.
Proof.
  unfold Qltb. rewrite negb_false_iff. apply Qle_bool_iff.
Qed.

Ltac case_Qltb :=
  match goal with
  | |- context [Qltb ?a ?b] =>
      let E := fresh "E" in
      destruct (Qltb a b) eqn:E;
      [apply Qltb_lt in E | apply Qltb_ge in E]
  end.

Lemma clip_bounds (x lo hi : Q) : lo <= hi -> lo <= clip x lo hi <= hi.
Proof.
  intros Hlh. unfold clip. repeat case_Qltb; lra.
Qed.

Lemma max2_spec (a b : Q) : max2 a b == Qmax a b.
Proof.
  unfold max2. case_Qltb.
  - symmetry. apply Q.max_r. lra.
  - symmetry. apply Q.max_l. exact E.
Qed.

Lemma min2_spec (a b : Q) : min2 a b == Qmin a b.
Proof.
  unfold min2. case_Qltb.
  - symmetry. apply Q.min_r. lra.
  - symmetry. apply Q.min_l. exact E.
Qed.

Lemma max3_ge_1 (a b : Q) : 1 <= max3 a b 1.
Proof.
  unfold max3, max2. repeat case_Qltb; lra.
Qed.

Lemma round_bounds (x : Q) (a b : Z) :
  inject_Z a <= x -> x <= inject_Z b -> (a <= Py.round x <= b)%Z.
Proof.
  intros Ha Hb.
  assert (Hfa : (a <= Qfloor x)%Z).
  { rewrite <- (Qfloor_Z a). apply Qfloor_resp_le. exact Ha. }
  assert (Hfb : (Qfloor x <= b)%Z).
  { rewrite <- (Qfloor_Z b). apply Qfloor_resp_le. exact Hb. }
  assert (Hup : inject_Z (Qfloor x) < x -> (Qfloor x + 1 <= b)%Z).
  { intro Hlt. assert (Hq : inject_Z (Qfloor x) < inject_Z b) by lra.
    rewrite <- Zlt_Qlt in Hq. lia. }
  unfold Py.round. cbv zeta.
  case_Qltb; [lia|].
  case_Qltb.
  - split; [lia|]. apply Hup. lra.
  - destruct (Z.even (Qfloor x)); [lia|].
    split; [lia|]. apply Hup. lra.
Qed.

Lemma ensemble_length_bounds (rf_pred lr_pred : Q) :
  21 <= Cycle.ensemble_length rf_pred lr_pred <= 45.
Proof.
  unfold Cycle.ensemble_length, max2, min2. repeat case_Qltb; lra.
Qed.

(** ** Facts about results *)

Lemma bind_ok {A B} (r : result A) (k : A -> result B) (b : B) :
  mbind k r = Ok b -> exists a, r = Ok a /\ k a = Ok b.
Proof.
  destruct r as [a|e]; cbn; [eauto | discriminate].
Qed.

Lemma rewrap_ok {A} (w : exn -> exn) (r : result A) (a : A) :
  rewrap w r = Ok a -> r = Ok a.
Proof.
  destruct r; cbn; congruence.
Qed.

Lemma getitem_ok {V} (d : gmap string V) (k : string) (v : V) :
  getitem d k = Ok v -> d !! k = Some v.
Proof.
  unfold getitem. destruct (d !! k); congruence.
Qed.

Ltac inv_bind H :=
  let a := fresh "a" in
  let Ha := fresh "H" a in
  apply bind_ok in H; destruct H as (a & Ha & H).

(** ** The cycle predictor *)

Section CycleFacts.

Import Cycle.

Context (sqrt : Q -> Q) (now utcnow : datetime).

Lemma insert_sorted_length (r : CycleRecord) (l : list CycleRecord) :
  length (insert_sorted r l) = S (length l).
Proof.
  induction l as [|x t IH]; cbn; [reflexivity|].
  destruct (dt_leb _ _); cbn; [reflexivity | now rewrite IH].
Qed.

Lemma sort_values_length (l : list CycleRecord) :
  length (sort_values l) = length l.
Proof.
  induction l as [|x t IH]; [reflexivity|].
  change (sort_values (x :: t)) with (insert_sorted x (sort_values t)).
  rewrite insert_sorted_length, IH. reflexivity.
Qed.

Lemma process_cycle_data_ok (c : CycleRecord) (rest : list CycleRecord) :
  exists df, process_cycle_data (c :: rest) = Ok df
             /\ len df = S (length rest)
             /\ col_start_date df = map start_date (sort_values (c :: rest)).
Proof.
  eexists. split; [reflexivity|]. split; [|reflexivity].
  unfold len. cbn [col_start_date].
  rewrite length_map, sort_values_length. reflexivity.
Qed.

Lemma process_cycle_data_nil :
  process_cycle_data [] =
  Raise (ValueError "Cycle data processing failed: No cycle data provided").
Proof. reflexivity. Qed.

(** The regularity score is a number, never a missing value, and is at
    least 0. *)
Lemma regularity_fin (s : num) : exists q, regularity s = Fin q /\ 0 <= q.
Proof.
  destruct s as [s|]; cbn.
  - unfold regularity, num_max2; cbn. case_Qltb; eexists; split; try reflexivity; lra.
  - exists 0. split; [reflexivity | lra].
Qed.

(** What [engineer_features] returns on a history of at least two
    records. *)
Lemma engineer_features_full (cycles : list CycleRecord) :
  (2 <= length cycles)%nat ->
  exists df f, process_cycle_data cycles = Ok df
    /\ engineer_features sqrt now cycles = Ok f
    /\ (let s := std sqrt (col_cycle_length df) in
        f !! "cycle_std" = Some s
        /\ f !! "cycle_regularity" = Some (regularity s))
    /\ (forall k, In k ["avg_cycle_length"; "cycle_regularity"; "avg_period_length";
                        "trend_slope"; "recent_avg"; "season"; "cycles_count";
                        "days_since_last"; "cycle_std"] -> is_Some (f !! k)).
Proof.
  intros Hlen.
  destruct cycles as [|c rest]; [cbn in Hlen; lia|].
  destruct (process_cycle_data_ok c rest) as (df & Hdf & Hn & Hdates).
  unfold engineer_features. rewrite Hdf. cbn [mbind result_bind Py.bind].
  assert (Hlt : (len df <? 2)%nat = false).
  { apply Nat.ltb_ge. cbn in Hlen. lia. }
  rewrite Hlt.
  destruct (last (col_start_date df)) as [last_date|] eqn:Hlast.
  2:{ apply last_None in Hlast. unfold len in Hn. rewrite Hlast in Hn. discriminate. }
  destruct (if (4 <=? len df)%nat then _ else _) as [recent slope] eqn:Hrs.
  cbn [rewrap mret result_ret].
  exists df. eexists. split; [reflexivity|]. split; [reflexivity|]. split.
  - split; reflexivity.
  - intros k Hk. cbn in Hk.
    repeat (destruct Hk as [<-|Hk]; [eexists; reflexivity|]). destruct Hk.
Qed.

(** On a single record the default features are returned. *)
Lemma engineer_features_single (r : CycleRecord) :
  engineer_features sqrt now [r] =
  Ok (<["avg_cycle_length" := Fin 28.0]>
     (<["cycle_regularity" := Fin 0.5]>
     (<["avg_period_length" := Fin 5.0]>
     (<["trend_slope" := Fin 0.0]>
     (<["recent_avg" := Fin 28.0]>
     (<["season" := of_Z (_get_season now)]>
     (<["cycles_count" := of_nat 1]> ∅))))))).
Proof. reflexivity. Qed.

Lemma engineer_features_nil :
  engineer_features sqrt now [] =
  Raise (ValueError
    "Feature engineering failed: Cycle data processing failed: No cycle data provided").
Proof. reflexivity. Qed.

(** Whenever features are produced, the regularity feature is a number. *)
Lemma engineer_features_regularity (cycles : list CycleRecord)
    (f : gmap string num) (v : num) :
  engineer_features sqrt now cycles = Ok f ->
  f !! "cycle_regularity" = Some v ->
  exists q, v = Fin q /\ 0 <= q.
Proof.
  intros Hf Hv.
  destruct cycles as [|c [|c' rest]].
  - rewrite engineer_features_nil in Hf. discriminate.
  - rewrite engineer_features_single in Hf. injection Hf as <-.
    vm_compute in Hv. injection Hv as <-. exists 0.5. split; [reflexivity | lra].
  - destruct (engineer_features_full (c :: c' :: rest))
      as (df & f' & _ & Hf' & (_ & Hreg) & _).
    { cbn. lia. }
    rewrite Hf' in Hf. injection Hf as <-.
    rewrite Hreg in Hv. injection Hv as <-.
    apply regularity_fin.
Qed.

(** What a successful call of [predict] has computed. *)
Lemma predict_inv (self : CyclePredictionModel) (cycles : list CycleRecord)
    (r : Prediction) :
  predict sqrt now utcnow self cycles = Ok r ->
  exists ensemble features f_reg X rf_pred lr_pred c rest,
    is_trained self = true
    /\ model self = Some ensemble
    /\ engineer_features sqrt now cycles = Ok features
    /\ features !! "cycle_regularity" = Some f_reg
    /\ random_forest ensemble X = Ok rf_pred
    /\ linear_regression ensemble X = Ok lr_pred
    /\ cycles = c :: rest
    /\ add_days (start_date (max_by_start c rest))
                (default 28%Z (cycle_length (max_by_start c rest)))
       = Ok (predicted_start_date r)
    /\ predicted_cycle_length r = Py.round (ensemble_length rf_pred lr_pred)
    /\ confidence r =
       lift1 (fun c => clip c 0.0 1.0)
             (lift2 Qdiv (lift2 Qplus (Fin (model_agreement rf_pred lr_pred)) f_reg)
                         (Fin 2)).
Proof.
  unfold predict. intros H. apply rewrap_ok in H.
  destruct (is_trained self) eqn:Htr; [|discriminate].
  destruct (model self) as [ens|] eqn:Hm; [|discriminate].
  inv_bind H. rename a into features.
  do 9 (inv_bind H).
  apply getitem_ok in Ha1.
  inv_bind H. inv_bind H. inv_bind H.
  destruct cycles as [|c rest]; [discriminate|].
  do 5 (inv_bind H).
  injection H as <-. cbn.
  exists ens, features. do 6 eexists.
  repeat (split; [eassumption || reflexivity|]).
  reflexivity.
Qed.

End CycleFacts.

(** ** The anchor of the predicted start date *)

Section LastCycle.

Import Cycle.

Lemma max_by_start_spec (l : list CycleRecord) : forall best,
  (max_by_start best l = best \/ In (max_by_start best l) l)
  /\ (total_us (start_date best) <= total_us (start_date (max_by_start best l)))%Z
  /\ (forall x, In x l ->
        (total_us (start_date x) <= total_us (start_date (max_by_start best l)))%Z).
Proof.
  induction l as [|x t IH]; intros best; cbn [max_by_start].
  - split; [now left|]. split; [lia|]. intros x [].
  - destruct (IH (if dt_ltb (start_date best) (start_date x) then x else best))
      as (Hin & Hge & Hall).
    unfold dt_ltb in *.
    destruct (Z.ltb_spec (total_us (start_date best)) (total_us (start_date x))).
    + split; [right; destruct Hin as [->|Hin]; [now left | now right]|].
      split; [lia|]. intros y [<-|Hy]; [lia | now apply Hall].
    + split; [destruct Hin as [->|Hin]; [now left | right; now right]|].
      split; [lia|]. intros y [<-|Hy]; [lia | now apply Hall].
Qed.

Lemma max_by_start_latest (c : CycleRecord) (rest : list CycleRecord) :
  In (max_by_start c rest) (c :: rest)
  /\ forall x, In x (c :: rest) ->
       dt_leb (start_date x) (start_date (max_by_start c rest)) = true.
Proof.
  destruct (max_by_start_spec rest c) as (Hin & Hge & Hall).
  split.
  - destruct Hin as [->|Hin]; [now left | now right].
  - intros x [<-|Hx]; unfold dt_leb; apply Z.leb_le; [exact Hge | now apply Hall].
Qed.

Lemma add_days_ok (t t' : datetime) (n : Z) :
  add_days t n = Ok t' -> ordinal t' = (ordinal t + n)%Z /\ usec t' = usec t.
Proof.
  unfold add_days.
  destruct (Z.abs n <=? 999999999)%Z; [|discriminate].
  destruct ((1 <=? ordinal t + n)%Z && (ordinal t + n <=? MAXORDINAL)%Z); [|discriminate].
  intros [= <-]. split; reflexivity.
Qed.

End LastCycle.

(** ** Claims about the cycle predictor *)

(** C1. Whatever the two base models answer, the ensemble length is clamped:
    the [predicted_cycle_length] of every result of [predict] lies in
    [21, 45], and so does the rounded clamp of any pair of outputs. *)
Theorem C1_predicted_cycle_length_in_21_45 :
  (forall rf_pred lr_pred : Q,
      (21 <= Py.round (Cycle.ensemble_length rf_pred lr_pred) <= 45)%Z)
  /\ (forall sqrt now utcnow self cycles r,
        Cycle.predict sqrt now utcnow self cycles = Ok r ->
        (21 <= Cycle.predicted_cycle_length r <= 45)%Z).
Proof.
  assert (Hround : forall rf_pred lr_pred : Q,
             (21 <= Py.round (Cycle.ensemble_length rf_pred lr_pred) <= 45)%Z).
  { intros rf lr. destruct (ensemble_length_bounds rf lr) as [Hlo Hhi].
    apply round_bounds; assumption. }
  split; [exact Hround|].
  intros sqrt now utcnow self cycles r H.
  destruct (predict_inv _ _ _ _ _ _ H)
    as (ens & f & f_reg & X & rf & lr & c & rest & _ & _ & _ & _ & _ & _ & _ & _ & Hlen & _).
  rewrite Hlen. apply Hround.
Qed.

(** With base models answering 100 and 0 on scenario A the raw ensemble is
    70 and the returned length is 45. *)
Lemma C1_witness_extreme_outputs :
  exists r,
    Cycle.predict Scenarios.sqrt_milli Scenarios.now_2023_03_10 Scenarios.now_2023_03_10
      (Scenarios.constant_cycle_model 100 0) Scenarios.scenario_A = Ok r
    /\ Cycle.predicted_cycle_length r = 45%Z
    /\ (21 <= Cycle.predicted_cycle_length r <= 45)%Z.
Proof.
  eexists. split; [reflexivity|]. split; [reflexivity|].
  apply (proj2 C1_predicted_cycle_length_in_21_45
           Scenarios.sqrt_milli Scenarios.now_2023_03_10 Scenarios.now_2023_03_10
           (Scenarios.constant_cycle_model 100 0) Scenarios.scenario_A).
  reflexivity.
Defined.

Lemma regularity_value (s : Q) :
  Cycle.regularity (Fin s) = Fin (if Qltb 0 (1 - s / 7) then 1 - s / 7 else 0).
Proof.
  unfold Cycle.regularity, num_max2. cbn [lift2 num_ltb].
  destruct (Qltb 0 (1 - s / 7)); reflexivity.
Qed.

Lemma div7 (s : Q) : s / 7 == s * (1 # 7).
Proof. reflexivity. Qed.

(** C5. On every history of at least two records [engineer_features]
    returns a [cycle_regularity] equal to [max(0, 1 - std/7)] of the
    standard deviation of the cycle lengths; that value is [Qmax 0 (1 -
    std/7)], does not increase when the standard deviation grows, and is
    never negative (nor missing, even when the deviation is). *)
Theorem C5_cycle_regularity_formula_monotone_nonnegative :
  (forall sqrt now cycles,
      (2 <= length cycles)%nat ->
      exists df f,
        Cycle.process_cycle_data cycles = Ok df
        /\ Cycle.engineer_features sqrt now cycles = Ok f
        /\ f !! "cycle_std" = Some (Cycle.std sqrt (Cycle.col_cycle_length df))
        /\ f !! "cycle_regularity"
           = Some (Cycle.regularity (Cycle.std sqrt (Cycle.col_cycle_length df))))
  /\ (forall s : Q, exists r,
        Cycle.regularity (Fin s) = Fin r /\ r == Qmax 0 (1 - s / 7))
  /\ (forall s1 s2 r1 r2 : Q,
        s1 <= s2 ->
        Cycle.regularity (Fin s1) = Fin r1 ->
        Cycle.regularity (Fin s2) = Fin r2 ->
        r2 <= r1)
  /\ (forall s : num, exists r, Cycle.regularity s = Fin r /\ 0 <= r).
Proof.
  split; [|split; [|split]].
  - intros sqrt now cycles Hlen.
    destruct (engineer_features_full sqrt now cycles Hlen)
      as (df & f & Hdf & Hf & (Hstd & Hreg) & _).
    exists df, f. repeat split; assumption.
  - intros s. eexists. split; [apply regularity_value|].
    case_Qltb.
    + symmetry. apply Q.max_r. lra.
    + symmetry. apply Q.max_l. exact E.
  - intros s1 s2 r1 r2 Hle H1 H2.
    rewrite regularity_value in H1, H2.
    injection H1 as <-. injection H2 as <-.
    pose proof (div7 s1) as D1. pose proof (div7 s2) as D2.
    repeat case_Qltb; lra.
  - apply regularity_fin.
Qed.

Lemma C5_witness_scenario_A :
  (exists df f,
      Cycle.process_cycle_data Scenarios.scenario_A = Ok df
      /\ Cycle.engineer_features Scenarios.sqrt_milli Scenarios.now_2023_03_10
           Scenarios.scenario_A = Ok f
      /\ f !! "cycle_std"
         = Some (Cycle.std Scenarios.sqrt_milli (Cycle.col_cycle_length df))
      /\ f !! "cycle_regularity"
         = Some (Cycle.regularity
                   (Cycle.std Scenarios.sqrt_milli (Cycle.col_cycle_length df))))
  /\ 1 - 1.527 / 7 <= 1 - 0.5 / 7.
Proof.
  split.
  - apply (proj1 C5_cycle_regularity_formula_monotone_nonnegative
             Scenarios.sqrt_milli Scenarios.now_2023_03_10 Scenarios.scenario_A).
    cbn. lia.
  - apply (proj1 (proj2 (proj2 C5_cycle_regularity_formula_monotone_nonnegative))
             0.5 1.527 (1 - 0.5 / 7) (1 - 1.527 / 7)).
    + vm_compute. discriminate.
    + reflexivity.
    + reflexivity.
Defined.

(** Scenario A: the mean cycle length is 85/3, the deviation 1.527 with the
    three-decimal square root, and the regularity 1 - 1.527/7. *)
Lemma scenario_A_features :
  exists f,
    Cycle.engineer_features Scenarios.sqrt_milli Scenarios.now_2023_03_10
      Scenarios.scenario_A = Ok f
    /\ lift1 Qred <$> f !! "avg_cycle_length" = Some (Fin (85 # 3))
    /\ lift1 Qred <$> f !! "cycle_std" = Some (Fin 1.527)
    /\ lift1 Qred <$> f !! "cycle_regularity" = Some (Fin (5473 # 7000)).
Proof.
  eexists. split; [reflexivity|]. repeat split; vm_compute; reflexivity.
Qed.

(** ** Sparse histories *)

(** A single record yields seven features; the two last entries of the
    feature vector are not set. *)
Lemma single_record_features_lack_two_keys (sqrt : Q -> Q) (now : datetime)
    (r : Cycle.CycleRecord) :
  exists f,
    Cycle.engineer_features sqrt now [r] = Ok f
    /\ f !! "days_since_last" = None
    /\ f !! "cycle_std" = None.
Proof.
  eexists. split; [apply engineer_features_single|]. split; reflexivity.
Qed.

(** [predict] on a single record raises, whatever the predictor. *)
Lemma single_record_predict_raises (sqrt : Q -> Q) (now utcnow : datetime)
    (self : Cycle.CyclePredictionModel) (r : Cycle.CycleRecord) :
  Cycle.predict sqrt now utcnow self [r]
  = Raise (RuntimeError
             (if Cycle.is_trained self && bool_decide (is_Some (Cycle.model self))
              then "Prediction failed: 'days_since_last'"
              else "Prediction failed: Model is not trained")).
Proof.
  unfold Cycle.predict.
  destruct (Cycle.is_trained self); [|reflexivity].
  destruct (Cycle.model self); reflexivity.
Qed.

Lemma get_season_range (t : datetime) : (0 <= Cycle._get_season t <= 3)%Z.
Proof.
  unfold Cycle._get_season.
  repeat match goal with |- context [if ?b then _ else _] => destruct b end; lia.
Qed.

(** C2, as the code has it.  On a history of exactly one record
    [engineer_features] returns avg_cycle_length 28.0, cycle_regularity 0.5,
    avg_period_length 5.0, trend_slope 0.0, recent_avg 28.0, the current
    calendar season (an integer from 0 to 3) and cycles_count 1; an empty
    history is rejected with an error. *)
Theorem C2_single_record_default_features :
  (forall sqrt now r, exists f,
      Cycle.engineer_features sqrt now [r] = Ok f
      /\ f !! "avg_cycle_length" = Some (Fin 28.0)
      /\ f !! "cycle_regularity" = Some (Fin 0.5)
      /\ f !! "avg_period_length" = Some (Fin 5.0)
      /\ f !! "trend_slope" = Some (Fin 0.0)
      /\ f !! "recent_avg" = Some (Fin 28.0)
      /\ f !! "season" = Some (Cycle.of_Z (Cycle._get_season now))
      /\ (0 <= Cycle._get_season now <= 3)%Z
      /\ f !! "cycles_count" = Some (Cycle.of_nat 1))
  /\ (forall sqrt now, exists e, Cycle.engineer_features sqrt now [] = Raise e).
Proof.
  split.
  - intros sqrt now r. eexists. split; [apply engineer_features_single|].
    repeat split; try reflexivity; apply get_season_range.
  - intros sqrt now. eexists. apply engineer_features_nil.
Qed.

(** C2 as stated fails on the empty history, which has fewer than two
    records: no feature set is returned for it. *)
Lemma C2_counterexample_empty_history :
  (length (@nil Cycle.CycleRecord) < 2)%nat
  /\ Cycle.engineer_features Scenarios.sqrt_milli Scenarios.now_2023_03_10 []
     = Raise (ValueError
         "Feature engineering failed: Cycle data processing failed: No cycle data provided")
  /\ Cycle.engineer_features Scenarios.sqrt_milli Scenarios.now_2023_03_10 []
     <> Ok (Documented.default_features (Cycle._get_season Scenarios.now_2023_03_10) 0).
Proof.
  split; [cbn; lia|]. split; [reflexivity|]. discriminate.
Qed.

(** On a single record the returned features differ from the documented
    vector in the two entries that are not set. *)
Lemma single_record_differs_from_documented :
  exists f,
    Cycle.engineer_features Scenarios.sqrt_milli Scenarios.now_2023_03_10
      [Scenarios.single_record] = Ok f
    /\ f !! "days_since_last" = None
    /\ Documented.default_features (Cycle._get_season Scenarios.now_2023_03_10) 1
         !! "days_since_last" = Some (Fin 0)
    /\ f <> Documented.default_features (Cycle._get_season Scenarios.now_2023_03_10) 1.
Proof.
  eexists. split; [reflexivity|]. split; [reflexivity|]. split; [reflexivity|].
  intros Heq.
  apply (f_equal (fun m : gmap string num => m !! "days_since_last")) in Heq.
  vm_compute in Heq. discriminate Heq.
Qed.

(** ** Derivation of missing cycle lengths *)

Section DerivedLengths.

Import Cycle.

Lemma in_columns_insert_sorted (f : CycleRecord -> option Z) (r : CycleRecord)
    (l : list CycleRecord) :
  in_columns f (insert_sorted r l) = in_columns f (r :: l).
Proof.
  induction l as [|x t IH]; [reflexivity|].
  cbn [insert_sorted]. destruct (dt_leb _ _); [reflexivity|].
  unfold in_columns in *. cbn [existsb] in *. rewrite IH.
  destruct (f r), (f x); reflexivity.
Qed.

Lemma in_columns_sort_values (f : CycleRecord -> option Z) (l : list CycleRecord) :
  in_columns f (sort_values l) = in_columns f l.
Proof.
  induction l as [|x t IH]; [reflexivity|].
  change (sort_values (x :: t)) with (insert_sorted x (sort_values t)).
  rewrite in_columns_insert_sorted. unfold in_columns in *. cbn [existsb].
  now rewrite IH.
Qed.

(** The cycle-length column of the processed frame: derived from the
    dates only when no record at all supplies a length. *)
Lemma process_cycle_data_cycle_lengths (c : CycleRecord) (rest : list CycleRecord) :
  exists df,
    process_cycle_data (c :: rest) = Ok df
    /\ col_cycle_length df =
       if in_columns cycle_length (c :: rest)
       then map (fun r => of_field (cycle_length r)) (sort_values (c :: rest))
       else map (fillna 28) (diff_days None (map start_date (sort_values (c :: rest)))).
Proof.
  eexists. split; [reflexivity|].
  cbn [col_cycle_length]. rewrite in_columns_sort_values.
  destruct (in_columns cycle_length (c :: rest)); reflexivity.
Qed.

Lemma diff_days_first (d : datetime) (ds : list datetime) :
  map (fillna 28) (diff_days None (d :: ds)) !! 0%nat = Some (Fin 28).
Proof. reflexivity. Qed.

Lemma diff_days_next (ds : list datetime) : forall prev i a b,
  ds !! i = Some a ->
  ds !! S i = Some b ->
  map (fillna 28) (diff_days prev ds) !! S i = Some (Fin (inject_Z (sub_days b a))).
Proof.
  induction ds as [|d ds IH]; intros prev i a b Ha Hb; [discriminate|].
  destruct i as [|i].
  - cbn in Ha. injection Ha as ->.
    destruct ds as [|d' ds]; [discriminate|].
    cbn in Hb. injection Hb as ->. reflexivity.
  - cbn in Ha. change ((d :: ds) !! S (S i)) with (ds !! S i) in Hb.
    cbn [diff_days map].
    change ((?x :: ?l) !! S (S i)) with (l !! S i).
    now apply IH.
Qed.

End DerivedLengths.

(** C9 at a history in which the first record supplies [cycle_length] and
    the second omits it: the second start date is 28 days after the first,
    yet the second cycle length stays missing in the processed frame. *)
Theorem C9_mixed_history_length_stays_missing :
  sub_days (of_ymd 2023 1 29) (of_ymd 2023 1 1) = 28%Z
  /\ exists df,
       Cycle.process_cycle_data Scenarios.mixed_history = Ok df
       /\ Cycle.col_start_date df = [of_ymd 2023 1 1; of_ymd 2023 1 29]
       /\ Cycle.col_cycle_length df = [Fin 30; NaN].
Proof.
  split; [reflexivity|]. eexists. split; [reflexivity|]. split; reflexivity.
Qed.

(** When no record supplies a length, the lengths are derived after the
    sort: 28 for the earliest record, the day difference for the others. *)
Lemma bare_history_lengths_derived :
  exists df,
    Cycle.process_cycle_data Scenarios.bare_history = Ok df
    /\ Cycle.col_start_date df = [of_ymd 2023 1 1; of_ymd 2023 1 29; of_ymd 2023 2 28]
    /\ Cycle.col_cycle_length df = [Fin 28; Fin 28; Fin 30].
Proof.
  eexists. split; [reflexivity|]. split; reflexivity.
Qed.

(** ** [predict] returns a result on histories of two records or more *)

Section PredictReturns.

Import Cycle.

Lemma int_bounds (x : Q) (a b : Z) :
  (0 <= a)%Z -> inject_Z a <= x -> x <= inject_Z b -> (a <= Py.int x <= b)%Z.
Proof.
  intros H0 Ha Hb. unfold Py.int.
  assert (Hx : 0 <= x).
  { assert (H : inject_Z 0 <= inject_Z a) by (rewrite <- Zle_Qle; lia).
    change (inject_Z 0) with 0 in H. lra. }
  case_Qltb; [exfalso; lra|].
  split.
  - rewrite <- (Qfloor_Z a). now apply Qfloor_resp_le.
  - rewrite <- (Qfloor_Z b). now apply Qfloor_resp_le.
Qed.

Lemma add_days_in_range (t : datetime) (n : Z) :
  (Z.abs n <= 999999999)%Z ->
  (1 <= ordinal t + n <= MAXORDINAL)%Z ->
  add_days t n = Ok {| ordinal := ordinal t + n; usec := usec t |}.
Proof.
  intros Hn Ho. unfold add_days.
  destruct (Z.leb_spec (Z.abs n) 999999999); [|lia].
  destruct (Z.leb_spec 1 (ordinal t + n)); [|lia].
  destruct (Z.leb_spec (ordinal t + n) MAXORDINAL); [|lia].
  reflexivity.
Qed.

Lemma predict_cycle_phases_returns (start : datetime) (n : Z) :
  (21 <= n <= 45)%Z ->
  (1 <= ordinal start <= MAXORDINAL - 100)%Z ->
  exists phases, _predict_cycle_phases start n = Ok phases.
Proof.
  intros Hn Hs. unfold _predict_cycle_phases, MAXORDINAL in *.
  repeat (rewrite add_days_in_range by (unfold MAXORDINAL; lia);
          cbn [mbind result_bind Py.bind]).
  eexists. reflexivity.
Qed.

Context (sqrt : Q -> Q) (now utcnow : datetime).

(** A trained predictor whose scaler and regressors answer every row
    returns a prediction for every history of at least two records whose
    dates leave room in the calendar and whose latest record has a
    length of at most 1000 days. *)
Lemma predict_returns (self : CyclePredictionModel) (ensemble : Ensemble)
    (cycles : list CycleRecord) :
  is_trained self = true ->
  model self = Some ensemble ->
  (forall row, exists row', scaler self row = Ok row') ->
  (forall row, exists y, random_forest ensemble row = Ok y) ->
  (forall row, exists y, linear_regression ensemble row = Ok y) ->
  (2 <= length cycles)%nat ->
  (forall c, In c cycles ->
     (1 <= ordinal (start_date c) <= MAXORDINAL - 1100)%Z
     /\ (0 <= default 28 (cycle_length c) <= 1000)%Z) ->
  exists r, predict sqrt now utcnow self cycles = Ok r.
Proof.
  intros Htr Hm Hsc Hrf Hlr Hlen Hdates.
  destruct (engineer_features_full sqrt now cycles Hlen)
    as (df & f & _ & Hf & _ & Hkeys).
  unfold predict. rewrite Htr, Hm, Hf. cbn [mbind result_bind Py.bind].
  repeat match goal with
    | |- context [getitem f ?k] =>
        let v := fresh "v" in
        let Hv := fresh "Hv" in
        destruct (Hkeys k) as [v Hv];
        [cbn; tauto|];
        unfold getitem at 1; rewrite Hv; cbn [mbind result_bind Py.bind]
    end.
  match goal with
  | |- context [scaler self ?row] =>
      destruct (Hsc row) as [X_scaled ->]
  end.
  cbn [mbind result_bind Py.bind].
  destruct (Hrf X_scaled) as [rf_pred ->].
  destruct (Hlr X_scaled) as [lr_pred ->].
  cbn [mbind result_bind Py.bind].
  destruct cycles as [|c rest]; [cbn in Hlen; lia|].
  destruct (max_by_start_latest c rest) as [Hin _].
  destruct (Hdates _ Hin) as [Hord Hlast].
  unfold MAXORDINAL in *.
  rewrite add_days_in_range by (unfold MAXORDINAL; lia).
  cbn [mbind result_bind Py.bind].
  destruct (ensemble_length_bounds rf_pred lr_pred) as [Hlo Hhi].
  pose proof (int_bounds (ensemble_length rf_pred lr_pred) 21 45
                ltac:(lia) Hlo Hhi) as Hint.
  rewrite add_days_in_range by (unfold MAXORDINAL; cbn [ordinal]; lia).
  cbn [mbind result_bind Py.bind].
  rewrite add_days_in_range by (unfold MAXORDINAL; cbn [ordinal]; lia).
  cbn [mbind result_bind Py.bind].
  rewrite add_days_in_range by (unfold MAXORDINAL; cbn [ordinal]; lia).
  cbn [mbind result_bind Py.bind].
  match goal with
  | |- context [_predict_cycle_phases ?s ?n] =>
      destruct (predict_cycle_phases_returns s n) as [phases ->];
      [exact Hint | unfold MAXORDINAL; cbn [ordinal]; lia |]
  end.
  cbn. eexists. reflexivity.
Qed.

End PredictReturns.

(** C4. The predicted start date of every result of [predict] is the start
    date of the most recent record of the history plus that record's own
    [cycle_length], 28 when the record has none, whatever length is
    predicted; on scenario A it is 2023-03-27; and a trained predictor whose
    scaler and regressors answer returns such a result for every history of
    at least two records that leaves room in the calendar. *)
Theorem C4_predicted_start_is_last_start_plus_own_length :
  (forall sqrt now utcnow self cycles r,
      Cycle.predict sqrt now utcnow self cycles = Ok r ->
      exists last,
        In last cycles
        /\ (forall c, In c cycles ->
              dt_leb (Cycle.start_date c) (Cycle.start_date last) = true)
        /\ ordinal (Cycle.predicted_start_date r)
           = (ordinal (Cycle.start_date last) + default 28 (Cycle.cycle_length last))%Z
        /\ usec (Cycle.predicted_start_date r) = usec (Cycle.start_date last))
  /\ (forall sqrt now utcnow self r,
        Cycle.predict sqrt now utcnow self Scenarios.scenario_A = Ok r ->
        Cycle.predicted_start_date r = of_ymd 2023 3 27
        /\ ord2ymd (ordinal (Cycle.predicted_start_date r)) = (2023, 3, 27)%Z
        /\ ordinal (Cycle.predicted_start_date r) = (ymd2ord 2023 2 28 + 27)%Z)
  /\ (forall sqrt now utcnow self ensemble cycles,
        Cycle.is_trained self = true ->
        Cycle.model self = Some ensemble ->
        (forall row, exists row', Cycle.scaler self row = Ok row') ->
        (forall row, exists y, Cycle.random_forest ensemble row = Ok y) ->
        (forall row, exists y, Cycle.linear_regression ensemble row = Ok y) ->
        (2 <= length cycles)%nat ->
        (forall c, In c cycles ->
           (1 <= ordinal (Cycle.start_date c) <= MAXORDINAL - 1100)%Z
           /\ (0 <= default 28 (Cycle.cycle_length c) <= 1000)%Z) ->
        exists r, Cycle.predict sqrt now utcnow self cycles = Ok r).
Proof.
  split; [|split].
  - intros sqrt now utcnow self cycles r H.
    destruct (predict_inv _ _ _ _ _ _ H)
      as (ens & f & f_reg & X & rf & lr & c & rest
          & _ & _ & _ & _ & _ & _ & -> & Hstart & _ & _).
    destruct (max_by_start_latest c rest) as [Hin Hlatest].
    apply add_days_ok in Hstart. destruct Hstart as [Hord Hus].
    exists (Cycle.max_by_start c rest). repeat split; assumption.
  - intros sqrt now utcnow self r H.
    destruct (predict_inv _ _ _ _ _ _ H)
      as (ens & f & f_reg & X & rf & lr & c & rest
          & _ & _ & _ & _ & _ & _ & Hc & Hstart & _ & _).
    injection Hc as <- <-.
    remember (Cycle.predicted_start_date r) as d eqn:Hd. clear Hd.
    vm_compute in Hstart. injection Hstart as <-.
    repeat split; reflexivity.
  - intros sqrt now utcnow self ensemble cycles.
    apply predict_returns.
Qed.

Lemma C4_witness_scenario_A :
  exists r,
    Cycle.predict Scenarios.sqrt_milli Scenarios.now_2023_03_10 Scenarios.now_2023_03_10
      (Scenarios.constant_cycle_model 29 28) Scenarios.scenario_A = Ok r
    /\ Cycle.predicted_cycle_length r = 29%Z
    /\ Cycle.predicted_start_date r = of_ymd 2023 3 27.
Proof.
  eexists. split; [reflexivity|]. split; [reflexivity|].
  apply (proj1 (proj2 C4_predicted_start_is_last_start_plus_own_length)
           Scenarios.sqrt_milli Scenarios.now_2023_03_10 Scenarios.now_2023_03_10
           (Scenarios.constant_cycle_model 29 28)).
  reflexivity.
Defined.


(** ** The PCOS risk predictor *)

Section PCOSFacts.

Import PCOS.

Lemma Qle_bool_false (a b : Q) : Qle_bool a b = false <-> b < a.
Proof.
  split; intro H.
  - apply Qnot_le_lt. intro Hle. apply Qle_bool_iff in Hle. congruence.
  - destruct (Qle_bool a b) eqn:E; [|reflexivity].
    apply Qle_bool_iff in E. exfalso. apply (Qlt_not_le _ _ H E).
Qed.

(** [_get_risk_level] as a cascade of comparisons. *)
Lemma get_risk_level_unfold (s : Q) :
  _get_risk_level s =
  if Qle_bool 0.0 s && Qltb s 0.3 then "low"
  else if Qle_bool 0.3 s && Qltb s 0.6 then "moderate"
  else if Qle_bool 0.6 s && Qltb s 0.8 then "high"
  else "very_high".
Proof.
  unfold _get_risk_level, Constants.PCOS_RISK_LEVELS. cbn [find fst snd].
  destruct (Qle_bool 0.0 s && Qltb s 0.3); [reflexivity|].
  destruct (Qle_bool 0.3 s && Qltb s 0.6); [reflexivity|].
  destruct (Qle_bool 0.6 s && Qltb s 0.8); [reflexivity|].
  destruct (Qle_bool 0.8 s && Qltb s 1.0); reflexivity.
Qed.



Lemma calculate_confidence_bounds (rf_proba gb_proba : Q) :
  0 <= _calculate_confidence rf_proba gb_proba <= 1.
Proof.
  unfold _calculate_confidence. cbv zeta.
  match goal with
  | |- _ <= clip ?c _ _ <= _ =>
      destruct (clip_bounds c 0.0 1.0) as [Hlo Hhi]; [lra|]
  end.
  split; lra.
Qed.

Lemma mapM_ok {A B} (f : A -> result B) (l : list A) : forall k,
  mapM f l = Ok k -> Forall2 (fun x y => f x = Ok y) l k.
Proof.
  induction l as [|x l IH]; intros k H; cbn in H.
  - injection H as <-. constructor.
  - inv_bind H. inv_bind H. injection H as <-.
    constructor; [assumption | now apply IH].
Qed.

Context (utcnow : datetime).

(** What [predict] has computed when it returns a single result. *)
Lemma predict_single_inv (self self' : PCOSRiskModel) (X : DataFrame) (r : RiskResult) :
  predict utcnow self X = (Ok (Single r), self') ->
  exists ensemble row p1 p2,
    model self = Some ensemble
    /\ random_forest ensemble row = Ok p1
    /\ gradient_boosting ensemble row = Ok p2
    /\ risk_score r = (p1 + p2) / 2
    /\ risk_level r = _get_risk_level (risk_score r)
    /\ confidence r = _calculate_confidence p1 p2.
Proof.
  unfold predict. intros H.
  destruct (is_trained self); [|discriminate].
  destruct (model self) as [ens|]; [|discriminate].
  destruct (engineer_features self X) as [Xe s1].
  injection H as H _. apply rewrap_ok in H.
  unfold predict_engineered in H.
  inv_bind H. inv_bind H. inv_bind H. inv_bind H.
  rename a1 into rf_proba, a2 into gb_proba, a0 into X_scaled.
  apply mapM_ok in Ha1, Ha2.
  destruct Ha1 as [|row p1 rows ps1 Hp1 Hrest1]; [discriminate|].
  destruct gb_proba as [|p2 ps2]; [discriminate|].
  apply Forall2_cons_1 in Ha2. destruct Ha2 as [Hp2 Hrest2].
  cbn [zip_with] in H.
  destruct (zip_with _ ps1 ps2) as [|? ?]; cbn in H.
  - injection H as <-. exists ens, row, p1, p2. cbn. repeat split; assumption.
  - inv_bind H. discriminate.
Qed.

(** What [predict] has computed for each entry of a batch. *)
Lemma predict_batch_inv (self self' : PCOSRiskModel) (X : DataFrame)
    (results : list BatchItem) :
  predict utcnow self X = (Ok (Predictions results), self') ->
  Forall (fun item =>
            exists ensemble row p1 p2,
              model self = Some ensemble
              /\ random_forest ensemble row = Ok p1
              /\ gradient_boosting ensemble row = Ok p2
              /\ item_risk_score item = (p1 + p2) / 2
              /\ item_risk_level item = _get_risk_level (item_risk_score item)
              /\ item_confidence item = _calculate_confidence p1 p2) results.
Proof.
  unfold predict. intros H.
  destruct (is_trained self); [|discriminate].
  destruct (model self) as [ens|]; [|discriminate].
  destruct (engineer_features self X) as [Xe s1].
  injection H as H _. apply rewrap_ok in H.
  unfold predict_engineered in H.
  inv_bind H. inv_bind H. inv_bind H. inv_bind H.
  rename a1 into rf_proba, a2 into gb_proba, a0 into X_scaled.
  apply mapM_ok in Ha1, Ha2.
  assert (Hitems : exists results',
             mapM (fun '(i, score) =>
                     rf_i ← getidx rf_proba i;
                     gb_i ← getidx gb_proba i;
                     mret {| item_risk_score := score;
                             item_risk_level := _get_risk_level score;
                             item_confidence := _calculate_confidence rf_i gb_i |})
                  (imap pair (zip_with (fun a b => (a + b) / 2) rf_proba gb_proba))
             = Ok results' /\ results' = results).
  { destruct (zip_with _ rf_proba gb_proba) as [|s0 [|s1' ss]] eqn:Hz.
    - cbn in H. injection H as <-. exists []. split; reflexivity.
    - inv_bind H. inv_bind H. discriminate.
    - inv_bind H. injection H as <-. eexists. split; [eassumption | reflexivity]. }
  destruct Hitems as (results' & Hmap & <-).
  apply mapM_ok in Hmap.
  apply Forall_lookup. intros j item Hj.
  destruct (Forall2_lookup_r _ _ _ _ _ Hmap Hj) as ([i score] & Hpair & Hitem).
  apply list_lookup_imap_Some in Hpair. destruct Hpair as (score' & Hscore & Heq).
  injection Heq as -> ->.
  apply bind_ok in Hitem as (rf_j & Hrf_j & Hitem).
  apply bind_ok in Hitem as (gb_j & Hgb_j & Hitem).
  cbv [mret result_ret] in Hitem. injection Hitem as <-.
  unfold getidx in Hrf_j, Hgb_j.
  destruct (rf_proba !! j) as [p1|] eqn:Hp1; [|discriminate].
  destruct (gb_proba !! j) as [p2|] eqn:Hp2; [|discriminate].
  injection Hrf_j as <-. injection Hgb_j as <-.
  rewrite lookup_zip_with, Hp1, Hp2 in Hscore. cbn in Hscore. injection Hscore as <-.
  destruct (Forall2_lookup_r _ _ _ _ _ Ha1 Hp1) as (row & Hrow & Hrf).
  pose proof (Forall2_lookup_lr _ _ _ _ _ _ Ha2 Hrow Hp2) as Hgb.
  exists ens, row, p1, p2. cbn. repeat split; assumption.
Qed.

End PCOSFacts.

(** ** Claims about the PCOS risk predictor *)




(** C6. The confidence of every result of either predictor lies in
    [0, 1]: for the cycle predictor it is a number (never missing) clipped
    to [0, 1], whatever the two regressors answer, and for the PCOS
    predictor, single or batch, it is the clipped value of
    [_calculate_confidence]. *)
Theorem C6_confidence_in_unit_interval :
  (forall sqrt now utcnow self cycles r,
      Cycle.predict sqrt now utcnow self cycles = Ok r ->
      exists c, Cycle.confidence r = Fin c /\ 0 <= c <= 1)
  /\ (forall utcnow self self' X r,
        PCOS.predict utcnow self X = (Ok (PCOS.Single r), self') ->
        0 <= PCOS.confidence r <= 1)
  /\ (forall utcnow self self' X results,
        PCOS.predict utcnow self X = (Ok (PCOS.Predictions results), self') ->
        Forall (fun item => 0 <= PCOS.item_confidence item <= 1) results)
  /\ (forall rf_proba gb_proba : Q,
        0 <= PCOS._calculate_confidence rf_proba gb_proba <= 1)
  /\ (forall rf_pred lr_pred regularity : Q,
        0 <= clip ((Cycle.model_agreement rf_pred lr_pred + regularity) / 2) 0.0 1.0 <= 1).
Proof.
  assert (Hclip : forall x : Q, 0 <= clip x 0.0 1.0 <= 1).
  { intros x. destruct (clip_bounds x 0.0 1.0) as [Hlo Hhi]; [lra|]. split; lra. }
  split; [|split; [|split; [|split]]].
  - intros sqrt now utcnow self cycles r H.
    destruct (predict_inv _ _ _ _ _ _ H)
      as (ens & f & f_reg & X & rf & lr & c & rest
          & _ & _ & Hf & Hreg & _ & _ & _ & _ & _ & Hconf).
    destruct (engineer_features_regularity _ _ _ _ _ Hf Hreg) as (q & -> & _).
    rewrite Hconf. cbn [lift1 lift2]. eexists. split; [reflexivity|]. apply Hclip.
  - intros utcnow self self' X r H.
    destruct (predict_single_inv utcnow _ _ _ _ H)
      as (ens & row & p1 & p2 & _ & _ & _ & _ & _ & ->).
    apply calculate_confidence_bounds.
  - intros utcnow self self' X results H.
    eapply Forall_impl; [exact (predict_batch_inv utcnow _ _ _ _ H)|].
    intros item (ens & row & p1 & p2 & _ & _ & _ & _ & _ & ->).
    apply calculate_confidence_bounds.
  - exact calculate_confidence_bounds.
  - intros rf lr reg. apply Hclip.
Qed.

(** Regressors answering 10 and -30 disagree by four times the larger
    output: the raw agreement is -3 and the returned confidence is 0. *)
Lemma C6_witness_disagreeing_models :
  Cycle.model_agreement 10 (-30) == -3
  /\ (exists r,
        Cycle.predict Scenarios.sqrt_milli Scenarios.now_2023_03_10 Scenarios.now_2023_03_10
          (Scenarios.constant_cycle_model 10 (-30)) Scenarios.scenario_A = Ok r
        /\ exists c, Cycle.confidence r = Fin c /\ 0 <= c <= 1)
  /\ (exists r self',
        PCOS.predict Scenarios.now_2023_03_10 (Scenarios.constant_pcos_model 0 1)
          Scenarios.profile_B_counted = (Ok (PCOS.Single r), self')
        /\ 0 <= PCOS.confidence r <= 1).
Proof.
  split; [vm_compute; reflexivity|]. split.
  - eexists. split; [reflexivity|].
    apply (proj1 C6_confidence_in_unit_interval
             Scenarios.sqrt_milli Scenarios.now_2023_03_10 Scenarios.now_2023_03_10
             (Scenarios.constant_cycle_model 10 (-30)) Scenarios.scenario_A).
    reflexivity.
  - eexists. eexists. split; [reflexivity|].
    eapply (proj1 (proj2 C6_confidence_in_unit_interval)
              Scenarios.now_2023_03_10 (Scenarios.constant_pcos_model 0 1)
              _ Scenarios.profile_B_counted).
    reflexivity.
Defined.

(** ** The declared feature columns and the predictor's state *)

Section PCOSState.

Import PCOS.

Context (utcnow : datetime).

(** [predict] never touches the model, the scaler, the trained flag or
    the version. *)
Lemma predict_preserves_model_and_scaler (self : PCOSRiskModel) (X : DataFrame) :
  let self' := (predict utcnow self X).2 in
  model self' = model self
  /\ scaler self' = scaler self
  /\ is_trained self' = is_trained self
  /\ model_version self' = model_version self.
Proof.
  unfold predict, engineer_features.
  destruct (is_trained self) eqn:Ht; [|cbn; auto].
  destruct (model self) eqn:Hm; [|cbn; auto].
  destruct (engineer_columns X); cbn; auto.
Qed.

(** Whenever feature engineering goes through, the call leaves the five
    derived names appended to the declared feature columns. *)
Lemma predict_appends_new_features (self : PCOSRiskModel) (ensemble : Ensemble)
    (X X_engineered : DataFrame) :
  is_trained self = true ->
  model self = Some ensemble ->
  engineer_columns X = Ok X_engineered ->
  feature_columns (predict utcnow self X).2 = feature_columns self ++ new_features
  /\ (predict utcnow self X).2 <> self.
Proof.
  intros Ht Hm He.
  assert (Hcols : feature_columns (predict utcnow self X).2
                  = feature_columns self ++ new_features).
  { unfold predict, engineer_features. rewrite Ht, Hm, He. reflexivity. }
  split; [exact Hcols|].
  intros Heq. rewrite Heq in Hcols.
  apply (f_equal (@length string)) in Hcols.
  rewrite length_app in Hcols. cbn in Hcols. lia.
Qed.

(** The state is left as it was when the model is not trained or when
    feature engineering fails. *)
Lemma predict_keeps_state_on_engineering_failure (self : PCOSRiskModel)
    (X : DataFrame) (e : exn) :
  engineer_columns X = Raise e ->
  (predict utcnow self X).2 = self.
Proof.
  intros He. unfold predict, engineer_features. rewrite He.
  destruct (is_trained self); [|reflexivity].
  destruct (model self); reflexivity.
Qed.

Lemma dedup_nil (l : list string) : dedup l = [] -> l = [].
Proof.
  induction l as [|x t IH]; [reflexivity|].
  cbn [dedup]. destruct (existsb (String.eqb x) t) eqn:E; [|discriminate].
  intros H. apply IH in H. subst t. discriminate E.
Qed.

(** A frame without a declared column is refused by [preprocess_data]. *)
Lemma preprocess_data_missing_column (self : PCOSRiskModel) (data : DataFrame)
    (c : string) :
  In c (feature_columns self) ->
  existsb (String.eqb c) (columns data) = false ->
  exists msg, preprocess_data self data = Raise (ValueError msg).
Proof.
  intros Hin Hmiss. unfold preprocess_data.
  destruct (dedup _) as [|m ms] eqn:Hd.
  - apply dedup_nil in Hd.
    assert (Hc : In c (List.filter
                         (fun c => negb (existsb (String.eqb c) (columns data)))
                         (feature_columns self))).
    { apply filter_In. split; [exact Hin | now rewrite Hmiss]. }
    rewrite Hd in Hc. destruct Hc.
  - eexists. reflexivity.
Qed.

End PCOSState.

(** C7 on scenario B.  Feature engineering gives bmi_category 1,
    cycle_irregular 0, period_category 1, lifestyle_risk 0 and age_group 1,
    but the prediction does not succeed: the declared feature columns
    include [symptom_count], which the profile does not have, and
    [predict] raises before any model is consulted, whatever the models and
    the scaler are. *)
Theorem C7_scenario_B_prediction_raises :
  (exists d,
      PCOS.engineer_columns Scenarios.profile_B = Ok d
      /\ PCOS.lookup_col d "bmi_category" = Some (PCOS.NumCol [Fin 1])
      /\ PCOS.lookup_col d "cycle_irregular" = Some (PCOS.NumCol [Fin 0])
      /\ PCOS.lookup_col d "period_category" = Some (PCOS.NumCol [Fin 1])
      /\ PCOS.lookup_col d "lifestyle_risk" = Some (PCOS.NumCol [Fin 0])
      /\ PCOS.lookup_col d "age_group" = Some (PCOS.NumCol [Fin 1]))
  /\ (forall utcnow ensemble scaler version,
        (PCOS.predict utcnow
           {| PCOS.model := Some ensemble;
              PCOS.scaler := scaler;
              PCOS.feature_columns := Constants.FEATURE_COLUMNS_pcos_risk;
              PCOS.is_trained := true;
              PCOS.model_version := version |}
           Scenarios.profile_B).1
        = Raise (RuntimeError
            "Prediction failed: Data preprocessing failed: Missing required columns: {'symptom_count'}")).
Proof.
  split.
  - eexists. split; [reflexivity|]. repeat split; reflexivity.
  - intros utcnow ensemble scaler version. reflexivity.
Qed.

(** Scenario B is refused by every trained predictor whose declared
    columns include [symptom_count]. *)
Lemma scenario_B_needs_symptom_count (utcnow : datetime) (self : PCOS.PCOSRiskModel)
    (ensemble : PCOS.Ensemble) :
  PCOS.is_trained self = true ->
  PCOS.model self = Some ensemble ->
  In "symptom_count" (PCOS.feature_columns self) ->
  exists msg, (PCOS.predict utcnow self Scenarios.profile_B).1 = Raise (RuntimeError msg).
Proof.
  intros Ht Hm Hin.
  unfold PCOS.predict. rewrite Ht, Hm.
  destruct (PCOS.engineer_features self Scenarios.profile_B) as [Xe self'] eqn:He.
  unfold PCOS.engineer_features in He.
  change (PCOS.engineer_columns Scenarios.profile_B)
    with (Ok (A:=PCOS.DataFrame)
            (Scenarios.profile_B
             ++ [("bmi_category", PCOS.NumCol [Fin 1]);
                 ("cycle_irregular", PCOS.NumCol [Fin 0]);
                 ("period_category", PCOS.NumCol [Fin 1]);
                 ("lifestyle_risk", PCOS.NumCol [Fin 0]);
                 ("age_group", PCOS.NumCol [Fin 1])])) in He.
  injection He as <- <-.
  cbn [fst]. unfold PCOS.predict_engineered.
  match goal with
  | |- context [PCOS.preprocess_data ?s ?d] =>
      destruct (preprocess_data_missing_column s d "symptom_count") as [msg Hmsg]
  end.
  { cbn [PCOS.feature_columns PCOS.set_feature_columns].
    apply in_or_app. now left. }
  { reflexivity. }
  rewrite Hmsg. eexists. reflexivity.
Qed.

(** Where scenario B is accepted, its risk level is the bucket of the
    classifiers' average and nothing else: no risk factor is flagged, and
    the level is low or very_high as the classifiers answer. *)
Lemma scenario_B_level_follows_classifiers :
  (exists r self',
      PCOS.predict Scenarios.now_2023_03_10 (Scenarios.eight_column_pcos_model 0.1 0.2)
        Scenarios.profile_B = (Ok (PCOS.Single r), self')
      /\ PCOS.risk_level r = "low" /\ PCOS.factors r = [])
  /\ (exists r self',
        PCOS.predict Scenarios.now_2023_03_10 (Scenarios.eight_column_pcos_model 0.9 0.9)
          Scenarios.profile_B = (Ok (PCOS.Single r), self')
        /\ PCOS.risk_level r = "very_high" /\ PCOS.factors r = []).
Proof.
  split; eexists; eexists; (split; [reflexivity|]); split; reflexivity.
Qed.

(** C8 on two successive calls with the same input, starting from the
    initial column configuration: each call leaves the five derived names
    appended to the declared feature columns, so the predictor is not the
    same after a call, and the second call runs against fourteen declared
    columns where the first ran against nine. *)
Theorem C8_predict_appends_to_feature_columns :
  forall utcnow p1 p2,
    let self0 := Scenarios.constant_pcos_model p1 p2 in
    let self1 := (PCOS.predict utcnow self0 Scenarios.profile_B_counted).2 in
    let self2 := (PCOS.predict utcnow self1 Scenarios.profile_B_counted).2 in
    PCOS.feature_columns self0 = Constants.FEATURE_COLUMNS_pcos_risk
    /\ PCOS.feature_columns self1
       = Constants.FEATURE_COLUMNS_pcos_risk ++ PCOS.new_features
    /\ PCOS.feature_columns self2
       = Constants.FEATURE_COLUMNS_pcos_risk ++ PCOS.new_features ++ PCOS.new_features
    /\ self1 <> self0
    /\ self2 <> self1
    /\ is_ok (PCOS.predict utcnow self0 Scenarios.profile_B_counted).1 = true.
Proof.
  intros utcnow p1 p2 self0 self1 self2.
  assert (H1 : PCOS.feature_columns self1
               = Constants.FEATURE_COLUMNS_pcos_risk ++ PCOS.new_features)
    by reflexivity.
  assert (H2 : PCOS.feature_columns self2
               = Constants.FEATURE_COLUMNS_pcos_risk ++ PCOS.new_features
                   ++ PCOS.new_features)
    by reflexivity.
  split; [reflexivity|]. split; [exact H1|]. split; [exact H2|].
  split; [|split].
  - intros Heq. rewrite Heq in H1. discriminate H1.
  - intros Heq. rewrite Heq, H1 in H2. discriminate H2.
  - reflexivity.
Qed.

(** ** The validator *)

Section ValidationFacts.

Import Validation.

Context (fromisoformat : string -> option datetime)
        (int_of_str : string -> option Z)
        (float_of_str : string -> option Q)
        (str : value -> string).













End ValidationFacts.

(** ** Claim about the validator *)




(** * Further properties of the cycle model *)

(** ** Sorting of the history *)

Section SortedHistory.

Import Cycle CycleOrder.

Lemma dt_leb_date_le (a b : CycleRecord) :
  dt_leb (start_date a) (start_date b) = true <-> date_le a b.
Proof. unfold dt_leb, date_le, date_key. apply Z.leb_le. Qed.

Lemma insert_sorted_perm (r : CycleRecord) (l : list CycleRecord) :
  insert_sorted r l ≡ₚ r :: l.
Proof.
  induction l as [|x t IH]; cbn [insert_sorted]; [reflexivity|].
  destruct (dt_leb _ _); [reflexivity|].
  rewrite IH. apply perm_swap.
Qed.

Lemma sort_values_perm (l : list CycleRecord) : sort_values l ≡ₚ l.
Proof.
  induction l as [|x t IH]; [reflexivity|].
  change (sort_values (x :: t)) with (insert_sorted x (sort_values t)).
  now rewrite insert_sorted_perm, IH.
Qed.

Lemma insert_sorted_strongly_sorted (r : CycleRecord) (l : list CycleRecord) :
  StronglySorted date_le l -> StronglySorted date_le (insert_sorted r l).
Proof.
  induction 1 as [|x t Ht IH Hx]; cbn [insert_sorted].
  - repeat constructor.
  - destruct (dt_leb (start_date r) (start_date x)) eqn:E.
    + apply dt_leb_date_le in E.
      constructor; [now constructor|].
      constructor; [exact E|].
      eapply Forall_impl; [exact Hx|]. intros y Hy. unfold date_le in *. lia.
    + assert (Hxr : date_le x r).
      { unfold date_le, date_key. unfold dt_leb in E. apply Z.leb_gt in E. lia. }
      constructor; [exact IH|].
      rewrite insert_sorted_perm. constructor; assumption.
Qed.

Lemma sort_values_strongly_sorted (l : list CycleRecord) :
  StronglySorted date_le (sort_values l).
Proof.
  induction l as [|x t IH]; [constructor|].
  change (sort_values (x :: t)) with (insert_sorted x (sort_values t)).
  now apply insert_sorted_strongly_sorted.
Qed.

(** With distinct start dates the sorted history does not depend on the
    order in which the records are given. *)
Lemma sort_values_order_independent (l1 l2 : list CycleRecord) :
  l1 ≡ₚ l2 -> distinct_dates l1 -> sort_values l1 = sort_values l2.
Proof.
  intros Hperm Hdistinct.
  apply (StronglySorted_unique_strong date_le).
  - intros x1 x2 H1 H2 H12 H21.
    rewrite sort_values_perm in H1. rewrite sort_values_perm, <- Hperm in H2.
    assert (Hkey : date_key x1 = date_key x2) by (unfold date_le in *; lia).
    apply list_elem_of_lookup in H1, H2.
    destruct H1 as [i Hi], H2 as [j Hj].
    assert (Hij : i = j).
    { eapply NoDup_lookup; [exact Hdistinct| |].
      - rewrite list_lookup_fmap, Hi. reflexivity.
      - rewrite list_lookup_fmap, Hj. cbn. now rewrite Hkey. }
    subst j. congruence.
  - apply sort_values_strongly_sorted.
  - apply sort_values_strongly_sorted.
  - now rewrite !sort_values_perm.
Qed.

End SortedHistory.

Lemma sorted_dates (l : list Cycle.CycleRecord) :
  StronglySorted CycleOrder.date_le l ->
  StronglySorted (fun a b => dt_leb a b = true) (map Cycle.start_date l).
Proof.
  induction 1 as [|x t Ht IH Hx]; cbn [map]; constructor.
  - exact IH.
  - rewrite Forall_fmap. eapply Forall_impl; [exact Hx|].
    intros y Hy. cbn. now apply dt_leb_date_le.
Qed.

Lemma process_cycle_data_cons (c : Cycle.CycleRecord) (rest : list Cycle.CycleRecord) :
  Cycle.process_cycle_data (c :: rest) =
  Ok {| Cycle.col_start_date := map Cycle.start_date (Cycle.sort_values (c :: rest));
        Cycle.col_cycle_length :=
          if negb (Cycle.in_columns Cycle.cycle_length (Cycle.sort_values (c :: rest)))
          then map (Cycle.fillna 28)
                   (Cycle.diff_days None
                      (map Cycle.start_date (Cycle.sort_values (c :: rest))))
          else map (fun r => Cycle.of_field (Cycle.cycle_length r))
                   (Cycle.sort_values (c :: rest));
        Cycle.col_period_length :=
          if negb (Cycle.in_columns Cycle.period_length (Cycle.sort_values (c :: rest)))
          then map (fun _ => Fin 5) (Cycle.sort_values (c :: rest))
          else map (fun r => Cycle.fillna 5 (Cycle.of_field (Cycle.period_length r)))
                   (Cycle.sort_values (c :: rest)) |}.
Proof. reflexivity. Qed.

(** X5. [process_cycle_data] returns, for every non-empty history, a frame
    with as many rows as records whose start dates are those of the
    history in ascending order, and whose period lengths are never
    missing. *)
Theorem process_cycle_data_sorts_and_fills :
  forall c rest, exists df,
    Cycle.process_cycle_data (c :: rest) = Ok df
    /\ Cycle.col_start_date df ≡ₚ map Cycle.start_date (c :: rest)
    /\ StronglySorted (fun a b => dt_leb a b = true) (Cycle.col_start_date df)
    /\ length (Cycle.col_start_date df) = S (length rest)
    /\ length (Cycle.col_cycle_length df) = S (length rest)
    /\ length (Cycle.col_period_length df) = S (length rest)
    /\ Forall (fun p => p <> NaN) (Cycle.col_period_length df).
Proof.
  intros c rest.
  assert (Hsorted : length (Cycle.sort_values (c :: rest)) = S (length rest))
    by apply sort_values_length.
  rewrite process_cycle_data_cons. eexists. split; [reflexivity|].
  cbn [Cycle.col_start_date Cycle.col_cycle_length Cycle.col_period_length].
  split; [now rewrite sort_values_perm|].
  split.
  { apply sorted_dates, sort_values_strongly_sorted. }
  split; [now rewrite length_map|].
  split.
  { destruct (negb _); rewrite ?length_map; [|exact Hsorted].
    rewrite <- Hsorted, <- (length_map Cycle.start_date).
    generalize (map Cycle.start_date (Cycle.sort_values (c :: rest))).
    intros ds. generalize (@None datetime).
    induction ds as [|d ds IH]; intros prev; cbn; [reflexivity | now rewrite IH]. }
  split.
  { destruct (negb _); now rewrite length_map. }
  destruct (negb _); apply Forall_fmap, Forall_forall; intros r _; cbn.
  - discriminate.
  - destruct (Cycle.period_length r); discriminate.
Qed.

(** ** The order of the records does not matter *)

Lemma bind_ext {A B} (r : result A) (k1 k2 : A -> result B) :
  (forall a, k1 a = k2 a) -> mbind k1 r = mbind k2 r.
Proof. intros H. destruct r; cbn; [apply H | reflexivity]. Qed.

Lemma max_by_start_order_independent (c1 c2 : Cycle.CycleRecord)
    (rest1 rest2 : list Cycle.CycleRecord) :
  c1 :: rest1 ≡ₚ c2 :: rest2 ->
  CycleOrder.distinct_dates (c1 :: rest1) ->
  Cycle.max_by_start c1 rest1 = Cycle.max_by_start c2 rest2.
Proof.
  intros Hperm Hdistinct.
  destruct (max_by_start_latest c1 rest1) as [Hin1 Hmax1].
  destruct (max_by_start_latest c2 rest2) as [Hin2 Hmax2].
  set (m1 := Cycle.max_by_start c1 rest1) in *.
  set (m2 := Cycle.max_by_start c2 rest2) in *.
  apply list_elem_of_In in Hin1, Hin2.
  assert (Hin2' : m2 ∈ c1 :: rest1) by now rewrite Hperm.
  assert (Hin1' : m1 ∈ c2 :: rest2) by now rewrite <- Hperm.
  assert (H12 : CycleOrder.date_le m1 m2).
  { apply dt_leb_date_le, Hmax2. now apply list_elem_of_In. }
  assert (H21 : CycleOrder.date_le m2 m1).
  { apply dt_leb_date_le, Hmax1. now apply list_elem_of_In. }
  assert (Hkey : CycleOrder.date_key m1 = CycleOrder.date_key m2)
    by (unfold CycleOrder.date_le in *; lia).
  apply list_elem_of_lookup in Hin1, Hin2'.
  destruct Hin1 as [i Hi], Hin2' as [j Hj].
  assert (Hij : i = j).
  { eapply NoDup_lookup; [exact Hdistinct| |].
    - rewrite list_lookup_fmap, Hi. reflexivity.
    - rewrite list_lookup_fmap, Hj. cbn. now rewrite Hkey. }
  subst j. congruence.
Qed.

(** X6. For a history whose records start on distinct dates, the
    engineered features and the whole prediction do not depend on the
    order in which the records are given. *)
Theorem prediction_independent_of_record_order :
  forall sqrt now utcnow self l1 l2,
    l1 ≡ₚ l2 ->
    CycleOrder.distinct_dates l1 ->
    Cycle.engineer_features sqrt now l1 = Cycle.engineer_features sqrt now l2
    /\ Cycle.predict sqrt now utcnow self l1 = Cycle.predict sqrt now utcnow self l2.
Proof.
  intros sqrt now utcnow self l1 l2 Hperm Hdistinct.
  assert (Hfeatures : Cycle.engineer_features sqrt now l1
                      = Cycle.engineer_features sqrt now l2).
  { destruct l1 as [|c1 rest1], l2 as [|c2 rest2].
    - reflexivity.
    - apply Permutation_nil_l in Hperm. discriminate.
    - apply Permutation_nil_r in Hperm. discriminate.
    - unfold Cycle.engineer_features. rewrite !process_cycle_data_cons.
      rewrite (sort_values_order_independent _ _ Hperm Hdistinct). reflexivity. }
  split; [exact Hfeatures|].
  unfold Cycle.predict. rewrite Hfeatures.
  destruct (Cycle.is_trained self); [|reflexivity].
  destruct (Cycle.model self) as [ensemble|]; [|reflexivity].
  f_equal.
  do 13 (apply bind_ext; intros ?).
  destruct l1 as [|c1 rest1], l2 as [|c2 rest2].
  - reflexivity.
  - apply Permutation_nil_l in Hperm. discriminate.
  - apply Permutation_nil_r in Hperm. discriminate.
  - rewrite (max_by_start_order_independent _ _ _ _ Hperm Hdistinct). reflexivity.
Qed.

Lemma prediction_independent_of_record_order_witness :
  Cycle.engineer_features Scenarios.sqrt_milli Scenarios.now_2023_03_10
    Scenarios.scenario_A
  = Cycle.engineer_features Scenarios.sqrt_milli Scenarios.now_2023_03_10
      (reverse Scenarios.scenario_A)
  /\ Cycle.predict Scenarios.sqrt_milli Scenarios.now_2023_03_10
       Scenarios.now_2023_03_10 (Scenarios.constant_cycle_model 29 28)
       Scenarios.scenario_A
     = Cycle.predict Scenarios.sqrt_milli Scenarios.now_2023_03_10
         Scenarios.now_2023_03_10 (Scenarios.constant_cycle_model 29 28)
         (reverse Scenarios.scenario_A).
Proof.
  apply prediction_independent_of_record_order.
  - symmetry. apply reverse_Permutation.
  - unfold CycleOrder.distinct_dates.
    refine (bool_decide_unpack (NoDup _) _). vm_compute. exact I.
Defined.

(** ** Fertile window and phases *)

Section WindowFacts.

Import Cycle.

Lemma round_int (x : Q) : 0 <= x -> (Py.int x <= Py.round x <= Py.int x + 1)%Z.
Proof.
  intros Hx. unfold Py.int, Py.round. cbv zeta.
  case_Qltb; [exfalso; lra|].
  repeat case_Qltb; try lia.
  destruct (Z.even (Qfloor x)); lia.
Qed.

Lemma _predict_cycle_phases_inv (start : datetime) (n : Z) (p : Phases) :
  _predict_cycle_phases start n = Ok p ->
  phase_start (menstrual p) = start
  /\ ordinal (phase_end (menstrual p)) = (ordinal start + 5)%Z
  /\ ordinal (phase_start (follicular p)) = (ordinal start + 6)%Z
  /\ ordinal (phase_end (follicular p)) = (ordinal start + 13)%Z
  /\ ordinal (phase_start (ovulation p)) = (ordinal start + (n - 14 - 1))%Z
  /\ ordinal (phase_end (ovulation p)) = (ordinal start + (n - 14 + 1))%Z
  /\ ordinal (phase_start (luteal p)) = (ordinal start + (n - 14 + 2))%Z
  /\ ordinal (phase_end (luteal p)) = (ordinal start + n)%Z.
Proof.
  unfold _predict_cycle_phases. intros H.
  apply bind_ok in H as (d1 & H1 & H). apply bind_ok in H as (d2 & H2 & H).
  apply bind_ok in H as (d3 & H3 & H). apply bind_ok in H as (d4 & H4 & H).
  apply bind_ok in H as (d5 & H5 & H). apply bind_ok in H as (d6 & H6 & H).
  apply bind_ok in H as (d7 & H7 & H).
  cbv [mret result_ret] in H. injection H as <-.
  cbn [menstrual follicular ovulation luteal phase_start phase_end].
  apply add_days_ok in H1, H2, H3, H4, H5, H6, H7.
  repeat split; tauto.
Qed.

Context (sqrt : Q -> Q) (now utcnow : datetime).

(** The dates of a result: all are computed from the truncated ensemble
    length, the reported length being the rounded one. *)
Lemma predict_inv_dates (self : CyclePredictionModel) (cycles : list CycleRecord)
    (r : Prediction) :
  predict sqrt now utcnow self cycles = Ok r ->
  exists x : Q,
    21 <= x <= 45
    /\ predicted_cycle_length r = Py.round x
    /\ add_days (predicted_start_date r) (Py.int x - 14) = Ok (fw_peak (fertile_window r))
    /\ add_days (fw_peak (fertile_window r)) (-5) = Ok (fw_start (fertile_window r))
    /\ add_days (fw_peak (fertile_window r)) 1 = Ok (fw_end (fertile_window r))
    /\ _predict_cycle_phases (predicted_start_date r) (Py.int x)
       = Ok (cycle_phase_predictions r).
Proof.
  unfold predict. intros H. apply rewrap_ok in H.
  destruct (is_trained self); [|discriminate].
  destruct (model self) as [ens|]; [|discriminate].
  do 11 (apply bind_ok in H as (? & _ & H)).
  apply bind_ok in H as (rf_pred & _ & H).
  apply bind_ok in H as (lr_pred & _ & H).
  destruct cycles as [|c rest]; [discriminate|].
  apply bind_ok in H as (predicted_start & _ & H).
  apply bind_ok in H as (ovulation_date & Hov & H).
  apply bind_ok in H as (fertile_start & Hfs & H).
  apply bind_ok in H as (fertile_end & Hfe & H).
  apply bind_ok in H as (phases & Hph & H).
  cbv [mret result_ret] in H. injection H as <-.
  exists (ensemble_length rf_pred lr_pred).
  split; [apply ensemble_length_bounds|].
  cbn. repeat split; assumption.
Qed.

End WindowFacts.

(** X1. In every result of the cycle predictor the fertile window starts 5
    days before its peak and ends 1 day after it, and the peak lies 14 days
    before the end of a cycle of the truncated ensemble length: counted
    from the predicted start date, it is the reported (rounded) length
    minus 14, or minus 15 when the rounding went up. *)
Theorem fertile_window_from_truncated_length :
  forall sqrt now utcnow self cycles r,
    Cycle.predict sqrt now utcnow self cycles = Ok r ->
    let n := Cycle.predicted_cycle_length r in
    let start := ordinal (Cycle.predicted_start_date r) in
    let w := Cycle.fertile_window r in
    (ordinal (Cycle.fw_peak w) = start + n - 14
     \/ ordinal (Cycle.fw_peak w) = start + n - 15)%Z
    /\ (start + 7 <= ordinal (Cycle.fw_peak w) <= start + 31)%Z
    /\ ordinal (Cycle.fw_start w) = (ordinal (Cycle.fw_peak w) - 5)%Z
    /\ ordinal (Cycle.fw_end w) = (ordinal (Cycle.fw_peak w) + 1)%Z.
Proof.
  intros sqrt now utcnow self cycles r H n start w.
  destruct (predict_inv_dates _ _ _ _ _ _ H)
    as (x & [Hlo Hhi] & Hn & Hpeak & Hstart & Hend & _).
  apply add_days_ok in Hpeak, Hstart, Hend.
  destruct Hpeak as [Hpeak _], Hstart as [Hstart _], Hend as [Hend _].
  assert (Hx : 0 <= x) by lra.
  pose proof (round_int x Hx) as Hr.
  pose proof (int_bounds x 21 45 ltac:(lia) Hlo Hhi) as Hi.
  subst n start w. rewrite Hn.
  repeat split; lia.
Qed.

(** Both regressors answering 28.6: the reported length is 29, the dates
    are those of a 28-day cycle. *)
Lemma fertile_window_from_truncated_length_witness :
  exists r,
    Cycle.predict Scenarios.sqrt_milli Scenarios.now_2023_03_10 Scenarios.now_2023_03_10
      (Scenarios.constant_cycle_model 28.6 28.6) Scenarios.scenario_A = Ok r
    /\ Cycle.predicted_cycle_length r = 29%Z
    /\ ordinal (Cycle.fw_peak (Cycle.fertile_window r))
       = (ordinal (Cycle.predicted_start_date r) + 29 - 15)%Z
    /\ ((ordinal (Cycle.fw_peak (Cycle.fertile_window r))
         = ordinal (Cycle.predicted_start_date r) + Cycle.predicted_cycle_length r - 14
         \/ ordinal (Cycle.fw_peak (Cycle.fertile_window r))
            = ordinal (Cycle.predicted_start_date r) + Cycle.predicted_cycle_length r - 15)%Z
        /\ (ordinal (Cycle.predicted_start_date r) + 7
            <= ordinal (Cycle.fw_peak (Cycle.fertile_window r))
            <= ordinal (Cycle.predicted_start_date r) + 31)%Z
        /\ ordinal (Cycle.fw_start (Cycle.fertile_window r))
           = (ordinal (Cycle.fw_peak (Cycle.fertile_window r)) - 5)%Z
        /\ ordinal (Cycle.fw_end (Cycle.fertile_window r))
           = (ordinal (Cycle.fw_peak (Cycle.fertile_window r)) + 1)%Z).
Proof.
  eexists. split; [reflexivity|]. split; [reflexivity|]. split; [reflexivity|].
  apply (fertile_window_from_truncated_length
           Scenarios.sqrt_milli Scenarios.now_2023_03_10 Scenarios.now_2023_03_10
           (Scenarios.constant_cycle_model 28.6 28.6) Scenarios.scenario_A).
  reflexivity.
Defined.

(** X2. The phases of every result are laid out from the predicted start
    date and the fertile-window peak: menstrual from the start to day 5,
    follicular from day 6 to day 13, ovulation from the day before the
    peak to the day after it, luteal from two days after the peak to
    fourteen days after it.  When the reported length is at most 28 the
    ovulation phase begins no later than the follicular phase ends; from
    30 on it begins after it. *)
Theorem cycle_phases_layout :
  forall sqrt now utcnow self cycles r,
    Cycle.predict sqrt now utcnow self cycles = Ok r ->
    let p := Cycle.cycle_phase_predictions r in
    let start := ordinal (Cycle.predicted_start_date r) in
    let peak := ordinal (Cycle.fw_peak (Cycle.fertile_window r)) in
    Cycle.phase_start (Cycle.menstrual p) = Cycle.predicted_start_date r
    /\ ordinal (Cycle.phase_end (Cycle.menstrual p)) = (start + 5)%Z
    /\ ordinal (Cycle.phase_start (Cycle.follicular p)) = (start + 6)%Z
    /\ ordinal (Cycle.phase_end (Cycle.follicular p)) = (start + 13)%Z
    /\ ordinal (Cycle.phase_start (Cycle.ovulation p)) = (peak - 1)%Z
    /\ ordinal (Cycle.phase_end (Cycle.ovulation p)) = (peak + 1)%Z
    /\ ordinal (Cycle.phase_start (Cycle.luteal p)) = (peak + 2)%Z
    /\ ordinal (Cycle.phase_end (Cycle.luteal p)) = (peak + 14)%Z
    /\ ((Cycle.predicted_cycle_length r <= 28)%Z ->
        (ordinal (Cycle.phase_start (Cycle.ovulation p))
         <= ordinal (Cycle.phase_end (Cycle.follicular p)))%Z)
    /\ ((30 <= Cycle.predicted_cycle_length r)%Z ->
        (ordinal (Cycle.phase_end (Cycle.follicular p))
         < ordinal (Cycle.phase_start (Cycle.ovulation p)))%Z).
Proof.
  intros sqrt now utcnow self cycles r H p start peak.
  destruct (predict_inv_dates _ _ _ _ _ _ H)
    as (x & [Hlo Hhi] & Hn & Hpeak & _ & _ & Hphases).
  apply add_days_ok in Hpeak. destruct Hpeak as [Hpeak _].
  apply _predict_cycle_phases_inv in Hphases.
  destruct Hphases as (Hm & Hme & Hfs & Hfe & Hos & Hoe & Hls & Hle).
  assert (Hx : 0 <= x) by lra.
  pose proof (round_int x Hx) as Hr.
  subst p start peak. rewrite Hn.
  repeat split; try assumption; try lia.
Qed.

(** Both regressors answering 28: the ovulation phase begins on day 13,
    the day the follicular phase ends. *)
Lemma cycle_phases_layout_witness :
  exists r,
    Cycle.predict Scenarios.sqrt_milli Scenarios.now_2023_03_10 Scenarios.now_2023_03_10
      (Scenarios.constant_cycle_model 28 28) Scenarios.scenario_A = Ok r
    /\ ordinal (Cycle.phase_start (Cycle.ovulation (Cycle.cycle_phase_predictions r)))
       = ordinal (Cycle.phase_end (Cycle.follicular (Cycle.cycle_phase_predictions r)))
    /\ ordinal (Cycle.phase_end (Cycle.luteal (Cycle.cycle_phase_predictions r)))
       = (ordinal (Cycle.fw_peak (Cycle.fertile_window r)) + 14)%Z.
Proof.
  eexists. split; [reflexivity|]. split; [reflexivity|].
  apply (cycle_phases_layout
           Scenarios.sqrt_milli Scenarios.now_2023_03_10 Scenarios.now_2023_03_10
           (Scenarios.constant_cycle_model 28 28) Scenarios.scenario_A).
  reflexivity.
Defined.

(** ** Training data *)

Section TrainingFacts.

Import Cycle CycleTraining.

Lemma mapM_exists {A B} (f : A -> result B) (P : A -> B -> Prop) (l : list A) :
  (forall x, In x l -> exists y, f x = Ok y /\ P x y) ->
  exists k, mapM f l = Ok k /\ Forall2 P l k.
Proof.
  induction l as [|x l IH]; intros H.
  - exists []. split; [reflexivity | constructor].
  - destruct (H x (or_introl eq_refl)) as (y & Hy & HP).
    destruct IH as (k & Hk & HF); [intros z Hz; apply H; now right|].
    exists (y :: k). split; [|now constructor].
    cbn. rewrite Hy. cbn. rewrite Hk. reflexivity.
Qed.

Context (sqrt : Q -> Q) (now : datetime).

(** The features of a history of at least two records fill the whole
    feature array. *)
Lemma feature_array_full (history : list CycleRecord) :
  (2 <= length history)%nat ->
  exists features row,
    engineer_features sqrt now history = Ok features
    /\ feature_array features = Ok row
    /\ length row = 9%nat.
Proof.
  intros Hlen.
  destruct (engineer_features_full sqrt now history Hlen)
    as (df & f & _ & Hf & _ & Hkeys).
  destruct (mapM_exists (getitem f) (fun _ _ => True) feature_names)
    as (row & Hrow & HF).
  { intros k Hk. destruct (Hkeys k Hk) as [v Hv].
    exists v. split; [|exact I]. unfold getitem. now rewrite Hv. }
  exists f, row. split; [exact Hf|]. split; [exact Hrow|].
  apply Forall2_length in HF. rewrite <- HF. reflexivity.
Qed.

Lemma samples_of_ok (cycles : list CycleRecord) :
  exists l,
    samples_of sqrt now cycles = Ok l
    /\ map snd l = map target_of (drop 2 cycles)
    /\ Forall (fun s => length s.1 = 9%nat) l.
Proof.
  unfold samples_of.
  edestruct (mapM_exists
               (fun i =>
                  target_cycle ← getidx cycles i;
                  features ← engineer_features sqrt now (take i cycles);
                  row ← feature_array features;
                  mret (row, target_of target_cycle))
               (fun i (s : list num * Z) =>
                  length s.1 = 9%nat
                  /\ exists c, cycles !! i = Some c /\ s.2 = target_of c)
               (seq 2 (length cycles - 2))) as (l & Hl & HF).
  { intros i Hi. apply in_seq in Hi.
    destruct (lookup_lt_is_Some_2 cycles i) as [c Hc]; [lia|].
    destruct (feature_array_full (take i cycles)) as (f & row & Hf & Hrow & Hlen).
    { rewrite length_take. lia. }
    exists (row, target_of c). unfold getidx. rewrite Hc.
    cbn [mbind result_bind Py.bind]. rewrite Hf.
    cbn [mbind result_bind Py.bind]. rewrite Hrow.
    cbn [mbind result_bind Py.bind mret result_ret fst snd].
    split; [reflexivity|]. split; [exact Hlen|]. exists c. split; reflexivity. }
  exists l. split; [exact Hl|]. split.
  - apply list_eq. intros j.
    rewrite !list_lookup_fmap, lookup_drop.
    destruct (l !! j) as [s|] eqn:Hs.
    + destruct (Forall2_lookup_r _ _ _ _ _ HF Hs) as (i & Hi & _ & c & Hc & Hsc).
      apply lookup_seq in Hi. destruct Hi as [-> _].
      rewrite Hc. cbn. now rewrite Hsc.
    + apply Forall2_length in HF. rewrite length_seq in HF.
      apply lookup_ge_None in Hs.
      rewrite (proj2 (lookup_ge_None cycles (2 + j))); [reflexivity | lia].
  - apply Forall_lookup. intros j s Hs.
    destruct (Forall2_lookup_r _ _ _ _ _ HF Hs) as (i & _ & Hlen & _). exact Hlen.
Qed.

Lemma user_samples_ok (user_cycles : list (list CycleRecord)) :
  exists samples,
    mapM (fun cycles =>
            if (length cycles <? 3)%nat then mret []
            else samples_of sqrt now cycles) user_cycles = Ok samples
    /\ map snd (concat samples) = map target_of (concat (map (drop 2) user_cycles))
    /\ Forall (fun s => length s.1 = 9%nat) (concat samples).
Proof.
  induction user_cycles as [|cycles rest IH].
  - exists []. repeat split; constructor.
  - destruct IH as (samples & Hs & Hsnd & Hlen).
    assert (Hone : exists l,
               (if (length cycles <? 3)%nat then mret []
                else samples_of sqrt now cycles) = Ok l
               /\ map snd l = map target_of (drop 2 cycles)
               /\ Forall (fun s => length s.1 = 9%nat) l).
    { destruct (Nat.ltb_spec (length cycles) 3) as [Hshort|_].
      - exists []. split; [reflexivity|]. split; [|constructor].
        rewrite drop_ge by lia. reflexivity.
      - apply samples_of_ok. }
    destruct Hone as (l & Hl & Hlsnd & Hllen).
    exists (l :: samples). split; [|split].
    + cbn [mapM]. rewrite Hl. cbn [mbind result_bind Py.bind].
      rewrite Hs. reflexivity.
    + cbn [concat map]. rewrite !map_app, Hlsnd, Hsnd. reflexivity.
    + cbn [concat]. apply Forall_app. split; assumption.
Qed.

End TrainingFacts.

(** X3. [prepare_training_data] yields one sample for every cycle that has
    at least two earlier cycles of the same user: the targets are the
    lengths (28 when absent) of those cycles, in order, each with a
    nine-entry feature row; it never fails on a feature lookup, and raises
    only when no user has three cycles. *)
Theorem prepare_training_data_samples :
  forall sqrt now user_cycles,
    let targets :=
      map CycleTraining.target_of (concat (map (drop 2) user_cycles)) in
    (targets = [] ->
     CycleTraining.prepare_training_data sqrt now user_cycles
     = Raise (ValueError
         "Training data preparation failed: No training data could be prepared"))
    /\ (targets <> [] ->
        exists X,
          CycleTraining.prepare_training_data sqrt now user_cycles = Ok (X, targets)
          /\ length X = length targets
          /\ Forall (fun row => length row = 9%nat) X).
Proof.
  intros sqrt now user_cycles targets.
  destruct (user_samples_ok sqrt now user_cycles) as (samples & Hs & Hsnd & Hlen).
  unfold CycleTraining.prepare_training_data. rewrite Hs. cbn [mbind result_bind Py.bind].
  fold targets in Hsnd.
  split.
  - intros Hnil. rewrite Hnil in Hsnd.
    destruct (concat samples); [reflexivity | discriminate].
  - intros Hsome.
    destruct (concat samples) as [|s all] eqn:Hall.
    { cbn in Hsnd. congruence. }
    exists (map fst (s :: all)). cbn [rewrap mret result_ret].
    rewrite Hsnd. split; [reflexivity|].
    split.
    + rewrite <- Hsnd, !length_map. reflexivity.
    + apply Forall_fmap. exact Hlen.
Qed.

Lemma prepare_training_data_samples_witness :
  CycleTraining.prepare_training_data Scenarios.sqrt_milli Scenarios.now_2023_03_10
    [take 2 Scenarios.scenario_A]
  = Raise (ValueError
      "Training data preparation failed: No training data could be prepared")
  /\ exists X,
       CycleTraining.prepare_training_data Scenarios.sqrt_milli Scenarios.now_2023_03_10
         [Scenarios.scenario_A; take 2 Scenarios.scenario_A] = Ok (X, [27%Z])
       /\ length X = 1%nat
       /\ Forall (fun row => length row = 9%nat) X.
Proof.
  split.
  - apply (proj1 (prepare_training_data_samples
                    Scenarios.sqrt_milli Scenarios.now_2023_03_10
                    [take 2 Scenarios.scenario_A])).
    reflexivity.
  - apply (proj2 (prepare_training_data_samples
                    Scenarios.sqrt_milli Scenarios.now_2023_03_10
                    [Scenarios.scenario_A; take 2 Scenarios.scenario_A])).
    discriminate.
Defined.

(** ** Feature importance *)

Section ImportanceFacts.

Import CycleTraining.

Lemma insert_desc_perm (x : string * Q) (l : list (string * Q)) :
  insert_desc x l ≡ₚ x :: l.
Proof.
  induction l as [|y t IH]; cbn [insert_desc]; [reflexivity|].
  destruct (Qle_bool _ _); [reflexivity|].
  rewrite IH. apply perm_swap.
Qed.

Lemma sorted_desc_perm (l : list (string * Q)) : sorted_desc l ≡ₚ l.
Proof.
  induction l as [|x t IH]; [reflexivity|].
  change (sorted_desc (x :: t)) with (insert_desc x (sorted_desc t)).
  now rewrite insert_desc_perm, IH.
Qed.

Lemma insert_desc_sorted (x : string * Q) (l : list (string * Q)) :
  StronglySorted (fun a b => b.2 <= a.2) l ->
  StronglySorted (fun a b => b.2 <= a.2) (insert_desc x l).
Proof.
  induction 1 as [|y t Ht IH Hy]; cbn [insert_desc].
  - repeat constructor.
  - destruct (Qle_bool y.2 x.2) eqn:E.
    + apply Qle_bool_iff in E.
      constructor; [now constructor|].
      constructor; [exact E|].
      eapply Forall_impl; [exact Hy|]. intros z Hz. cbn in *. lra.
    + apply Qle_bool_false in E.
      constructor; [exact IH|].
      rewrite insert_desc_perm. constructor; [cbn; lra | exact Hy].
Qed.

Lemma sorted_desc_sorted (l : list (string * Q)) :
  StronglySorted (fun a b => b.2 <= a.2) (sorted_desc l).
Proof.
  induction l as [|x t IH]; [constructor|].
  change (sorted_desc (x :: t)) with (insert_desc x (sorted_desc t)).
  now apply insert_desc_sorted.
Qed.

End ImportanceFacts.

(** X4. [get_feature_importance] of a trained cycle model pairs the nine
    feature names, in the order of the feature array, with the importances
    the random forest reports (as many as it reports, at most nine), and
    lists the pairs by decreasing importance; an untrained model gives the
    empty dict. *)
Theorem get_feature_importance_sorted :
  forall self rf_importance,
    let out := CycleTraining.get_feature_importance self rf_importance in
    (Cycle.is_trained self = true -> Cycle.model self <> None ->
     out ≡ₚ zip CycleTraining.feature_names rf_importance
     /\ StronglySorted (fun a b => b.2 <= a.2) out
     /\ length out = Nat.min 9 (length rf_importance))
    /\ ((Cycle.is_trained self = false \/ Cycle.model self = None) -> out = []).
Proof.
  intros self rf_importance out. subst out.
  unfold CycleTraining.get_feature_importance.
  split.
  - intros Ht Hm. rewrite Ht.
    destruct (Cycle.model self); [|congruence].
    split; [apply sorted_desc_perm|]. split; [apply sorted_desc_sorted|].
    rewrite sorted_desc_perm, length_zip. reflexivity.
  - intros [Ht|Hm].
    + rewrite Ht. reflexivity.
    + rewrite Hm. destruct (Cycle.is_trained self); reflexivity.
Qed.

Lemma get_feature_importance_sorted_witness :
  CycleTraining.get_feature_importance (Scenarios.constant_cycle_model 28 28)
    [0.1; 0.4; 0.2]
  = [("cycle_regularity", 0.4); ("avg_period_length", 0.2); ("avg_cycle_length", 0.1)]
  /\ (CycleTraining.get_feature_importance (Scenarios.constant_cycle_model 28 28)
        [0.1; 0.4; 0.2]
      ≡ₚ zip CycleTraining.feature_names [0.1; 0.4; 0.2]
      /\ StronglySorted (fun a b => b.2 <= a.2)
           (CycleTraining.get_feature_importance (Scenarios.constant_cycle_model 28 28)
              [0.1; 0.4; 0.2])
      /\ length (CycleTraining.get_feature_importance
                   (Scenarios.constant_cycle_model 28 28) [0.1; 0.4; 0.2])
         = Nat.min 9 3).
Proof.
  split; [reflexivity|].
  apply (proj1 (get_feature_importance_sorted
                  (Scenarios.constant_cycle_model 28 28) [0.1; 0.4; 0.2])).
  - reflexivity.
  - discriminate.
Defined.

(** ** The inference coordinator *)

Section HandlerFacts.

Import Handler.

Lemma last_n_length {A} (n : nat) (l : list A) :
  length (last_n n l) = Nat.min n (length l).
Proof. unfold last_n. rewrite length_drop. lia. Qed.

Lemma last_n_short {A} (n : nat) (l : list A) :
  (length l <= n)%nat -> last_n n l = l.
Proof.
  intros H. unfold last_n. replace (length l - n)%nat with 0%nat by lia. reflexivity.
Qed.

Lemma last_n_idempotent {A} (n : nat) (l : list A) :
  last_n n (last_n n l) = last_n n l.
Proof. apply last_n_short. rewrite last_n_length. lia. Qed.

End HandlerFacts.

(** X7. [_generate_cycle_insights] reads only the six last entries of the
    history it is given (in the order given): a history of fewer than three
    cycles gets no insight, any other gets one statement about regularity,
    followed by at most one about the trend, and none about the trend when
    it has exactly three cycles. *)
Theorem cycle_insights_from_last_six :
  forall sqrt history,
    let insights := Handler._generate_cycle_insights sqrt history in
    insights = Handler._generate_cycle_insights sqrt (Handler.last_n 6 history)
    /\ ((length history < 3)%nat -> insights = [])
    /\ ((3 <= length history)%nat ->
        exists regularity trend,
          insights = regularity :: trend
          /\ In regularity ["Your cycles are very regular";
                            "Your cycles show moderate regularity";
                            "Your cycles show some irregularity"]
          /\ (trend = []
              \/ trend = ["Your recent cycles have been getting longer"]
              \/ trend = ["Your recent cycles have been getting shorter"])
          /\ (length history = 3%nat -> trend = [])).
Proof.
  intros sqrt history insights. subst insights.
  split; [|split].
  - unfold Handler._generate_cycle_insights.
    rewrite last_n_idempotent, last_n_length.
    destruct (Nat.leb_spec 3 (length history)) as [H3|H3].
    + destruct (Nat.leb_spec 3 (Nat.min 6 (length history))); [reflexivity | lia].
    + destruct (Nat.leb_spec 3 (Nat.min 6 (length history))); [lia | reflexivity].
  - intros Hlt. unfold Handler._generate_cycle_insights.
    destruct (Nat.leb_spec 3 (length history)); [lia | reflexivity].
  - intros Hge. unfold Handler._generate_cycle_insights.
    destruct (Nat.leb_spec 3 (length history)); [|lia].
    cbv zeta.
    set (lengths := Handler.inject_all
                      (map CycleTraining.target_of (Handler.last_n 6 history))).
    assert (Hlen : length lengths = Nat.min 6 (length history)).
    { unfold lengths, Handler.inject_all. now rewrite !length_map, last_n_length. }
    match goal with
    | |- exists regularity trend, ?a ++ ?b = _ /\ _ =>
        assert (Ha : exists m, a = [m]
                   /\ In m ["Your cycles are very regular";
                            "Your cycles show moderate regularity";
                            "Your cycles show some irregularity"]);
        [|assert (Hb : (b = []
                        \/ b = ["Your recent cycles have been getting longer"]
                        \/ b = ["Your recent cycles have been getting shorter"])
                       /\ (length history = 3%nat -> b = []))]
    end.
    { destruct (Qle_bool _ 2); [eexists; split; [reflexivity | cbn; tauto]|].
      destruct (Qle_bool _ 5); eexists; (split; [reflexivity | cbn; tauto]). }
    { split.
      - destruct (4 <=? length lengths)%nat; [|now left].
        destruct (Qltb _ _); [right; now left|].
        destruct (Qltb _ _); [right; now right | now left].
      - intros H3. rewrite Hlen, H3. reflexivity. }
    destruct Ha as (m & -> & Hm). destruct Hb as [Hb Hb3].
    eexists. eexists. split; [reflexivity|]. split; [exact Hm|]. split; assumption.
Qed.

Lemma cycle_insights_from_last_six_witness :
  Handler._generate_cycle_insights Scenarios.sqrt_milli (take 2 Scenarios.scenario_A) = []
  /\ exists regularity trend,
       Handler._generate_cycle_insights Scenarios.sqrt_milli Scenarios.scenario_A
       = regularity :: trend
       /\ In regularity ["Your cycles are very regular";
                         "Your cycles show moderate regularity";
                         "Your cycles show some irregularity"]
       /\ (trend = []
           \/ trend = ["Your recent cycles have been getting longer"]
           \/ trend = ["Your recent cycles have been getting shorter"])
       /\ (length Scenarios.scenario_A = 3%nat -> trend = []).
Proof.
  split.
  - apply (proj1 (proj2 (cycle_insights_from_last_six
                           Scenarios.sqrt_milli (take 2 Scenarios.scenario_A)))).
    cbn. lia.
  - apply (proj2 (proj2 (cycle_insights_from_last_six
                           Scenarios.sqrt_milli Scenarios.scenario_A))).
    cbn. lia.
Defined.

(** X8. Every risk level [_get_risk_level] can return has its own entry in
    the recommendation templates: for any score, the template lookup of
    [predict_pcos_risk] finds the three sentences of the score's own level
    and never takes the fall-back to the moderate entry. *)
Theorem recommendations_for_every_level :
  forall risk_score : Q,
    exists r,
      Handler.assoc Handler.RECOMMENDATION_TEMPLATES_pcos_risk
        (PCOS._get_risk_level risk_score) = Some r
      /\ Handler.recommendations (PCOS._get_risk_level risk_score) = Ok r
      /\ length r = 3%nat.
Proof.
  intros s. rewrite get_risk_level_unfold.
  destruct (Qle_bool 0.0 s && Qltb s 0.3);
    [eexists; repeat split; reflexivity|].
  destruct (Qle_bool 0.3 s && Qltb s 0.6);
    [eexists; repeat split; reflexivity|].
  destruct (Qle_bool 0.6 s && Qltb s 0.8);
    eexists; repeat split; reflexivity.
Qed.

(** * Further properties of the PCOS model *)

(** ** Columns of the engineered frame *)

Section EngineeredColumns.

Import PCOS.

Lemma lookup_setcol (df : DataFrame) (k k' : string) (s : Series) :
  lookup_col (setcol df k s) k' =
  if String.eqb k k' then Some s else lookup_col df k'.
Proof.
  induction df as [|[c s'] rest IH]; cbn [setcol lookup_col].
  - destruct (String.eqb k k'); reflexivity.
  - destruct (String.eqb_spec c k) as [->|Hck]; cbn [lookup_col].
    + destruct (String.eqb k k'); reflexivity.
    + rewrite IH. destruct (String.eqb_spec c k') as [->|Hck']; [|reflexivity].
      destruct (String.eqb_spec k k') as [->|_]; [congruence | reflexivity].
Qed.

Ltac strip_setcol H :=
  repeat (rewrite lookup_setcol in H; cbn [String.eqb Ascii.eqb Bool.eqb] in H).

Lemma getcol_ok (df : DataFrame) (k : string) (s : Series) :
  getcol df k = Ok s -> lookup_col df k = Some s.
Proof. unfold getcol. destruct (lookup_col df k); congruence. Qed.

(** What [engineer_features] computes when its [try] block completes. *)
Lemma engineer_columns_inv (data d : DataFrame) :
  engineer_columns data = Ok d ->
  exists bmi cl pl ex st sl age,
    lookup_col data "bmi" = Some bmi
    /\ lookup_col data "cycle_length" = Some cl
    /\ lookup_col data "period_length" = Some pl
    /\ lookup_col data "exercise_frequency" = Some ex
    /\ lookup_col data "stress_level" = Some st
    /\ lookup_col data "sleep_quality" = Some sl
    /\ lookup_col data "age" = Some age
    /\ d = setcol (setcol (setcol (setcol (setcol data
             "bmi_category" (cut [0; 18.5; 25; 30; 100] bmi))
             "cycle_irregular"
               (int_col (astype_int (zip_with orb (lt_const cl 21) (gt_const cl 35)))))
             "period_category" (cut [0; 3; 7; 15] pl))
             "lifestyle_risk"
               (int_col (zip_with Z.add
                           (zip_with Z.add (astype_int (lt_const ex 2))
                                           (astype_int (gt_const st 3)))
                           (astype_int (lt_const sl 3)))))
             "age_group" (cut [0; 18; 25; 35; 100] age).
Proof.
  unfold engineer_columns. intros H.
  apply bind_ok in H as (bmi & Hbmi & H).
  apply bind_ok in H as (cl & Hcl & H).
  apply bind_ok in H as (cl' & Hcl' & H).
  apply bind_ok in H as (pl & Hpl & H).
  apply bind_ok in H as (ex & Hex & H).
  apply bind_ok in H as (st & Hst & H).
  apply bind_ok in H as (sl & Hsl & H).
  apply bind_ok in H as (age & Hage & H).
  cbv [mret result_ret] in H. injection H as <-.
  apply getcol_ok in Hbmi, Hcl, Hcl', Hpl, Hex, Hst, Hsl, Hage.
  strip_setcol Hcl. strip_setcol Hcl'. strip_setcol Hpl. strip_setcol Hex.
  strip_setcol Hst. strip_setcol Hsl. strip_setcol Hage.
  assert (cl' = cl) by congruence. subst cl'.
  exists bmi, cl, pl, ex, st, sl, age. repeat split; assumption.
Qed.

Lemma engineer_columns_ok (data : DataFrame) (bmi cl pl ex st sl age : Series) :
  lookup_col data "bmi" = Some bmi ->
  lookup_col data "cycle_length" = Some cl ->
  lookup_col data "period_length" = Some pl ->
  lookup_col data "exercise_frequency" = Some ex ->
  lookup_col data "stress_level" = Some st ->
  lookup_col data "sleep_quality" = Some sl ->
  lookup_col data "age" = Some age ->
  exists d, engineer_columns data = Ok d.
Proof.
  intros Hbmi Hcl Hpl Hex Hst Hsl Hage.
  unfold engineer_columns, getcol.
  rewrite ?lookup_setcol. cbn [String.eqb Ascii.eqb Bool.eqb].
  rewrite Hbmi. cbn [mbind result_bind Py.bind].
  rewrite ?lookup_setcol. cbn [String.eqb Ascii.eqb Bool.eqb].
  rewrite Hcl. cbn [mbind result_bind Py.bind].
  rewrite ?lookup_setcol. cbn [String.eqb Ascii.eqb Bool.eqb].
  rewrite Hpl. cbn [mbind result_bind Py.bind].
  rewrite ?lookup_setcol. cbn [String.eqb Ascii.eqb Bool.eqb].
  rewrite Hex, Hst, Hsl. cbn [mbind result_bind Py.bind].
  rewrite ?lookup_setcol. cbn [String.eqb Ascii.eqb Bool.eqb].
  rewrite Hage. cbn [mbind result_bind Py.bind].
  eexists. reflexivity.
Qed.

End EngineeredColumns.

(** X9. Feature engineering of a profile frame completes exactly when the
    frame has the seven columns bmi, cycle_length, period_length,
    exercise_frequency, stress_level, sleep_quality and age; otherwise the
    frame comes back as it was given and the declared feature columns are
    not touched.  When it completes, the five derived columns are present
    and every other column is as in the input. *)
Theorem engineer_features_needs_seven_columns :
  forall self data,
    let needed := ["bmi"; "cycle_length"; "period_length"; "exercise_frequency";
                   "stress_level"; "sleep_quality"; "age"] in
    (is_ok (PCOS.engineer_columns data) = true
     <-> forall k, In k needed -> PCOS.lookup_col data k <> None)
    /\ (is_ok (PCOS.engineer_columns data) = false ->
        PCOS.engineer_features self data = (data, self))
    /\ (forall d, PCOS.engineer_columns data = Ok d ->
        (forall k, In k PCOS.new_features -> PCOS.lookup_col d k <> None)
        /\ (forall k, ~ In k PCOS.new_features ->
              PCOS.lookup_col d k = PCOS.lookup_col data k)).
Proof.
  intros self data needed. split; [|split].
  - split.
    + destruct (PCOS.engineer_columns data) as [d|e] eqn:He; [|discriminate].
      intros _ k Hk.
      destruct (engineer_columns_inv data d He)
        as (bmi & cl & pl & ex & st & sl & age & H1 & H2 & H3 & H4 & H5 & H6 & H7 & _).
      cbn in Hk.
      repeat (destruct Hk as [<-|Hk]; [congruence|]). destruct Hk.
    + intros Hall.
      assert (Hget : forall k, In k needed -> exists s, PCOS.lookup_col data k = Some s).
      { intros k Hk. specialize (Hall k Hk).
        destruct (PCOS.lookup_col data k); [eauto | congruence]. }
      destruct (Hget "bmi") as [bmi Hbmi]; [cbn; tauto|].
      destruct (Hget "cycle_length") as [cl Hcl]; [cbn; tauto|].
      destruct (Hget "period_length") as [pl Hpl]; [cbn; tauto|].
      destruct (Hget "exercise_frequency") as [ex Hex]; [cbn; tauto|].
      destruct (Hget "stress_level") as [st Hst]; [cbn; tauto|].
      destruct (Hget "sleep_quality") as [sl Hsl]; [cbn; tauto|].
      destruct (Hget "age") as [age Hage]; [cbn; tauto|].
      destruct (engineer_columns_ok data _ _ _ _ _ _ _ Hbmi Hcl Hpl Hex Hst Hsl Hage)
        as [d ->].
      reflexivity.
  - intros Hfail. unfold PCOS.engineer_features.
    destruct (PCOS.engineer_columns data); [discriminate | reflexivity].
  - intros d He.
    destruct (engineer_columns_inv data d He)
      as (bmi & cl & pl & ex & st & sl & age & _ & _ & _ & _ & _ & _ & _ & ->).
    split.
    + intros k Hk. cbn in Hk. rewrite !lookup_setcol.
      repeat (destruct Hk as [<-|Hk]; [cbn; discriminate|]). destruct Hk.
    + intros k Hk. rewrite !lookup_setcol.
      repeat match goal with
        | |- context [String.eqb ?a k] =>
            destruct (String.eqb_spec a k) as [<-|_];
            [exfalso; apply Hk; cbn; tauto|]
        end.
      reflexivity.
Qed.

Lemma engineer_features_needs_seven_columns_witness :
  (forall k, In k ["bmi"; "cycle_length"; "period_length"; "exercise_frequency";
                   "stress_level"; "sleep_quality"; "age"] ->
             PCOS.lookup_col Scenarios.profile_B k <> None)
  /\ PCOS.engineer_features (Scenarios.constant_pcos_model 0.2 0.3)
       [("age", Scenarios.one 25)]
     = ([("age", Scenarios.one 25)], Scenarios.constant_pcos_model 0.2 0.3).
Proof.
  split.
  - apply (proj1 (proj1 (engineer_features_needs_seven_columns
                           (Scenarios.constant_pcos_model 0.2 0.3)
                           Scenarios.profile_B))).
    reflexivity.
  - apply (proj1 (proj2 (engineer_features_needs_seven_columns
                           (Scenarios.constant_pcos_model 0.2 0.3)
                           [("age", Scenarios.one 25)]))).
    reflexivity.
Defined.

(** ** Derived categories *)

Ltac decide_Q :=
  repeat match goal with
    | |- context [Qltb ?a ?b] =>
        first [ rewrite (proj2 (Qltb_lt a b)) by lra
              | rewrite (proj2 (Qltb_ge a b)) by lra ]
    | |- context [Qle_bool ?a ?b] =>
        first [ rewrite (proj2 (Qle_bool_iff a b)) by lra
              | rewrite (proj2 (Qle_bool_false a b)) by lra ]
    end.

(** [pd.cut] with five increasing edges: the label of the right-closed
    interval that holds the value, nothing outside the edges. *)
Lemma cut_from_five (b0 b1 b2 b3 b4 x : Q) :
  b0 < b1 -> b1 < b2 -> b2 < b3 -> b3 < b4 ->
  (x <= b0 /\ PCOS.cut_from 0 [b0; b1; b2; b3; b4] x = NaN)
  \/ (b0 < x /\ x <= b1 /\ PCOS.cut_from 0 [b0; b1; b2; b3; b4] x = Fin 0)
  \/ (b1 < x /\ x <= b2 /\ PCOS.cut_from 0 [b0; b1; b2; b3; b4] x = Fin 1)
  \/ (b2 < x /\ x <= b3 /\ PCOS.cut_from 0 [b0; b1; b2; b3; b4] x = Fin 2)
  \/ (b3 < x /\ x <= b4 /\ PCOS.cut_from 0 [b0; b1; b2; b3; b4] x = Fin 3)
  \/ (b4 < x /\ PCOS.cut_from 0 [b0; b1; b2; b3; b4] x = NaN).
Proof.
  intros H01 H12 H23 H34. cbn [PCOS.cut_from].
  destruct (Qlt_le_dec b0 x) as [L0|G0].
  2:{ left. split; [exact G0|]. decide_Q. reflexivity. }
  destruct (Qlt_le_dec b1 x) as [L1|G1].
  2:{ right; left. split; [exact L0|]. split; [exact G1|]. decide_Q. reflexivity. }
  destruct (Qlt_le_dec b2 x) as [L2|G2].
  2:{ right; right; left. split; [exact L1|]. split; [exact G2|]. decide_Q. reflexivity. }
  destruct (Qlt_le_dec b3 x) as [L3|G3].
  2:{ do 3 right; left. split; [exact L2|]. split; [exact G3|]. decide_Q. reflexivity. }
  destruct (Qlt_le_dec b4 x) as [L4|G4].
  2:{ do 4 right; left. split; [exact L3|]. split; [exact G4|]. decide_Q. reflexivity. }
  do 5 right. split; [exact L4|]. decide_Q. reflexivity.
Qed.

Lemma cut_from_five_iff (b0 b1 b2 b3 b4 x : Q) :
  b0 < b1 -> b1 < b2 -> b2 < b3 -> b3 < b4 ->
  let c := PCOS.cut_from 0 [b0; b1; b2; b3; b4] x in
  (c = Fin 0 <-> b0 < x /\ x <= b1)
  /\ (c = Fin 1 <-> b1 < x /\ x <= b2)
  /\ (c = Fin 2 <-> b2 < x /\ x <= b3)
  /\ (c = Fin 3 <-> b3 < x /\ x <= b4)
  /\ (c = NaN <-> x <= b0 \/ b4 < x).
Proof.
  intros H01 H12 H23 H34 c. subst c.
  destruct (cut_from_five b0 b1 b2 b3 b4 x H01 H12 H23 H34)
    as [(A & ->)|[(A & B & ->)|[(A & B & ->)|[(A & B & ->)|[(A & B & ->)|(A & ->)]]]]];
    repeat split; intros; try discriminate; try tauto;
    try (exfalso; lra); try (now left); try (now right).
  all: try (destruct H; exfalso; lra).
Qed.

Lemma lookup_cut (bins : list Q) (s : PCOS.Series) (i : nat) (x : Q) :
  PCOS.values s !! i = Some (Fin x) ->
  PCOS.values (PCOS.cut bins s) !! i = Some (PCOS.cut_from 0 bins x).
Proof.
  intros H. unfold PCOS.cut. cbn [PCOS.values].
  rewrite list_lookup_fmap, H. reflexivity.
Qed.

(** X10. The derived categories are cut on right-closed intervals: for
    every row of an engineered frame, bmi_category is 0 for a bmi in
    (0, 18.5], 1 in (18.5, 25], 2 in (25, 30], 3 in (30, 100], and
    age_group is 0 for an age in (0, 18], 1 in (18, 25], 2 in (25, 35],
    3 in (35, 100]; a value at or below 0 or above 100 gets no category
    (a missing value). *)
Theorem derived_categories_right_closed :
  forall data d,
    PCOS.engineer_columns data = Ok d ->
    exists bmi age bmi_category age_group,
      PCOS.lookup_col data "bmi" = Some bmi
      /\ PCOS.lookup_col data "age" = Some age
      /\ PCOS.lookup_col d "bmi_category" = Some bmi_category
      /\ PCOS.lookup_col d "age_group" = Some age_group
      /\ (forall i x,
            PCOS.values bmi !! i = Some (Fin x) ->
            exists c,
              PCOS.values bmi_category !! i = Some c
              /\ (c = Fin 0 <-> 0 < x /\ x <= 18.5)
              /\ (c = Fin 1 <-> 18.5 < x /\ x <= 25)
              /\ (c = Fin 2 <-> 25 < x /\ x <= 30)
              /\ (c = Fin 3 <-> 30 < x /\ x <= 100)
              /\ (c = NaN <-> x <= 0 \/ 100 < x))
      /\ (forall i x,
            PCOS.values age !! i = Some (Fin x) ->
            exists c,
              PCOS.values age_group !! i = Some c
              /\ (c = Fin 0 <-> 0 < x /\ x <= 18)
              /\ (c = Fin 1 <-> 18 < x /\ x <= 25)
              /\ (c = Fin 2 <-> 25 < x /\ x <= 35)
              /\ (c = Fin 3 <-> 35 < x /\ x <= 100)
              /\ (c = NaN <-> x <= 0 \/ 100 < x)).
Proof.
  intros data d He.
  destruct (engineer_columns_inv data d He)
    as (bmi & cl & pl & ex & st & sl & age & Hbmi & _ & _ & _ & _ & _ & Hage & ->).
  exists bmi, age, (PCOS.cut [0; 18.5; 25; 30; 100] bmi),
         (PCOS.cut [0; 18; 25; 35; 100] age).
  split; [exact Hbmi|]. split; [exact Hage|].
  split; [rewrite !lookup_setcol; reflexivity|].
  split; [rewrite !lookup_setcol; reflexivity|].
  split.
  - intros i x Hx. eexists. split; [apply lookup_cut, Hx|].
    apply (cut_from_five_iff 0 18.5 25 30 100 x); lra.
  - intros i x Hx. eexists. split; [apply lookup_cut, Hx|].
    apply (cut_from_five_iff 0 18 25 35 100 x); lra.
Qed.

Lemma derived_categories_right_closed_witness :
  exists bmi age bmi_category age_group,
    PCOS.lookup_col Scenarios.profile_B "bmi" = Some bmi
    /\ PCOS.lookup_col Scenarios.profile_B "age" = Some age
    /\ PCOS.lookup_col (Scenarios.profile_B
         ++ [("bmi_category", PCOS.NumCol [Fin 1]);
             ("cycle_irregular", PCOS.NumCol [Fin 0]);
             ("period_category", PCOS.NumCol [Fin 1]);
             ("lifestyle_risk", PCOS.NumCol [Fin 0]);
             ("age_group", PCOS.NumCol [Fin 1])]) "bmi_category" = Some bmi_category
    /\ PCOS.lookup_col (Scenarios.profile_B
         ++ [("bmi_category", PCOS.NumCol [Fin 1]);
             ("cycle_irregular", PCOS.NumCol [Fin 0]);
             ("period_category", PCOS.NumCol [Fin 1]);
             ("lifestyle_risk", PCOS.NumCol [Fin 0]);
             ("age_group", PCOS.NumCol [Fin 1])]) "age_group" = Some age_group
    /\ (forall i x,
          PCOS.values bmi !! i = Some (Fin x) ->
          exists c,
            PCOS.values bmi_category !! i = Some c
            /\ (c = Fin 0 <-> 0 < x /\ x <= 18.5)
            /\ (c = Fin 1 <-> 18.5 < x /\ x <= 25)
            /\ (c = Fin 2 <-> 25 < x /\ x <= 30)
            /\ (c = Fin 3 <-> 30 < x /\ x <= 100)
            /\ (c = NaN <-> x <= 0 \/ 100 < x))
    /\ (forall i x,
          PCOS.values age !! i = Some (Fin x) ->
          exists c,
            PCOS.values age_group !! i = Some c
            /\ (c = Fin 0 <-> 0 < x /\ x <= 18)
            /\ (c = Fin 1 <-> 18 < x /\ x <= 25)
            /\ (c = Fin 2 <-> 25 < x /\ x <= 35)
            /\ (c = Fin 3 <-> 35 < x /\ x <= 100)
            /\ (c = NaN <-> x <= 0 \/ 100 < x)).
Proof.
  apply (derived_categories_right_closed Scenarios.profile_B).
  reflexivity.
Defined.

(** ** Risk factors *)

Section FactorFacts.

Import PCOS.

Lemma sample_get_present (df : DataFrame) (i : nat) (k : string) (dflt : Q)
    (s : Series) (v : num) :
  lookup_col df k = Some s ->
  values s !! i = Some v ->
  sample_get df i k dflt = v.
Proof. intros Hs Hv. unfold sample_get. now rewrite Hs, Hv. Qed.

Lemma sample_get_absent (df : DataFrame) (i : nat) (k : string) (dflt : Q) :
  lookup_col df k = None -> sample_get df i k dflt = Fin dflt.
Proof. intros Hs. unfold sample_get. now rewrite Hs. Qed.

Lemma sample_get_cases (df : DataFrame) (i : nat) (k : string) (dflt : Q) :
  (exists cells v, lookup_col df k = Some cells
                   /\ values cells !! i = Some (Fin v)
                   /\ sample_get df i k dflt = Fin v)
  \/ sample_get df i k dflt = NaN
  \/ sample_get df i k dflt = Fin dflt.
Proof.
  unfold sample_get.
  destruct (lookup_col df k) as [cells|]; [|now right; right].
  destruct (values cells !! i) as [[v|]|] eqn:Hv.
  - left. exists cells, v. repeat split; reflexivity || assumption.
  - right; left. reflexivity.
  - right; left. reflexivity.
Qed.

(** A test that fails on a missing value and on the default passes only
    on a value read from the frame. *)
Lemma flag_needs_cell (df : DataFrame) (i : nat) (k : string) (dflt : Q)
    (test : num -> bool) :
  test NaN = false -> test (Fin dflt) = false ->
  test (sample_get df i k dflt) = true ->
  exists cells v, lookup_col df k = Some cells /\ values cells !! i = Some (Fin v).
Proof.
  intros Hnan Hdflt Ht.
  destruct (sample_get_cases df i k dflt) as [(cells & v & L & V & _)|[E|E]].
  - now exists cells, v.
  - rewrite E in Ht. congruence.
  - rewrite E in Ht. congruence.
Qed.

Lemma in_flag (b : bool) (t tag : string) :
  In tag (if b then [t] else []) -> tag = t /\ b = true.
Proof. destruct b; cbn; [intros [<-|[]]; auto | intros []]. Qed.

Lemma sublist_flag (b : bool) (t : string) (l1 l2 : list string) :
  sublist l1 l2 -> sublist ((if b then [t] else []) ++ l1) (t :: l2).
Proof.
  intros H. destruct b; cbn [app].
  - now apply sublist_skip.
  - now apply sublist_cons.
Qed.

End FactorFacts.

(** X11. The engineered flags agree with the reported risk factors: for
    every row of an engineered frame, lifestyle_risk is the number of the
    factors low_exercise, high_stress and poor_sleep reported for the row,
    and cycle_irregular is 1 exactly when irregular_cycles is reported. *)
Theorem lifestyle_risk_counts_reported_factors :
  forall data d i ex st sl cl e s q c,
    PCOS.engineer_columns data = Ok d ->
    PCOS.lookup_col data "exercise_frequency" = Some ex ->
    PCOS.lookup_col data "stress_level" = Some st ->
    PCOS.lookup_col data "sleep_quality" = Some sl ->
    PCOS.lookup_col data "cycle_length" = Some cl ->
    PCOS.values ex !! i = Some e ->
    PCOS.values st !! i = Some s ->
    PCOS.values sl !! i = Some q ->
    PCOS.values cl !! i = Some c ->
    let factors := PCOS._get_risk_factors d i in
    let lifestyle :=
      List.filter (fun tag => existsb (String.eqb tag)
                                ["low_exercise"; "high_stress"; "poor_sleep"])
                  factors in
    (exists col,
        PCOS.lookup_col d "lifestyle_risk" = Some col
        /\ PCOS.values col !! i = Some (Fin (inject_Z (Z.of_nat (length lifestyle)))))
    /\ (exists col flag,
          PCOS.lookup_col d "cycle_irregular" = Some col
          /\ PCOS.values col !! i = Some (Fin (inject_Z flag))
          /\ (flag = 1%Z <-> In "irregular_cycles" factors)
          /\ (flag = 0%Z \/ flag = 1%Z)).
Proof.
  intros data d i ex st sl cl e s q c He Hex Hst Hsl Hcl He' Hs' Hq' Hc' factors lifestyle.
  destruct (engineer_columns_inv data d He)
    as (bmi & cl0 & pl & ex0 & st0 & sl0 & age
        & Hbmi & Hcl0 & Hpl & Hex0 & Hst0 & Hsl0 & Hage & Hd).
  assert (cl0 = cl) by congruence. assert (ex0 = ex) by congruence.
  assert (st0 = st) by congruence. assert (sl0 = sl) by congruence.
  subst cl0 ex0 st0 sl0.
  assert (Gex : PCOS.sample_get d i "exercise_frequency" 3 = e).
  { eapply sample_get_present; [|exact He']. rewrite Hd, !lookup_setcol. exact Hex. }
  assert (Gst : PCOS.sample_get d i "stress_level" 2 = s).
  { eapply sample_get_present; [|exact Hs']. rewrite Hd, !lookup_setcol. exact Hst. }
  assert (Gsl : PCOS.sample_get d i "sleep_quality" 3 = q).
  { eapply sample_get_present; [|exact Hq']. rewrite Hd, !lookup_setcol. exact Hsl. }
  assert (Gcl : PCOS.sample_get d i "cycle_length" 28 = c).
  { eapply sample_get_present; [|exact Hc']. rewrite Hd, !lookup_setcol. exact Hcl. }
  subst factors lifestyle. unfold PCOS._get_risk_factors.
  rewrite Gex, Gst, Gsl, Gcl.
  split.
  - eexists. split; [rewrite Hd, !lookup_setcol; reflexivity|].
    unfold PCOS.int_col, PCOS.astype_int, PCOS.lt_const, PCOS.gt_const.
    cbn [PCOS.values].
    rewrite list_lookup_fmap, !lookup_zip_with, !list_lookup_fmap, He', Hs', Hq'.
    cbn [fmap option_fmap option_map mbind option_bind].
    destruct (num_ltb (Fin 25) _), (num_ltb (Fin 35) c || num_ltb c (Fin 21)),
             (PCOS.num_eqb _ 1), (num_ltb e (Fin 2)), (num_ltb (Fin 3) s),
             (num_ltb q (Fin 3)); reflexivity.
  - eexists. eexists. split; [rewrite Hd, !lookup_setcol; reflexivity|].
    unfold PCOS.int_col, PCOS.astype_int, PCOS.lt_const, PCOS.gt_const.
    cbn [PCOS.values].
    rewrite list_lookup_fmap, list_lookup_fmap, lookup_zip_with, !list_lookup_fmap, Hc'.
    cbn [fmap option_fmap option_map mbind option_bind].
    split; [reflexivity|].
    rewrite (orb_comm (num_ltb c (Fin 21))).
    destruct (num_ltb (Fin 25) _), (num_ltb (Fin 35) c || num_ltb c (Fin 21)),
             (PCOS.num_eqb _ 1), (num_ltb e (Fin 2)), (num_ltb (Fin 3) s),
             (num_ltb q (Fin 3)); cbn;
      (split; [split; [intros; tauto || discriminate | intros H;
               repeat (destruct H as [H|H]; try discriminate H); try reflexivity;
               try destruct H] | tauto]).
Qed.

Lemma lifestyle_risk_counts_reported_factors_witness :
  let data := [("age", Scenarios.one 31); ("bmi", Scenarios.one 27.5);
               ("cycle_length", Scenarios.one 40); ("period_length", Scenarios.one 5);
               ("exercise_frequency", Scenarios.one 1);
               ("stress_level", Scenarios.one 4);
               ("family_history", PCOS.BoolCol [true]);
               ("sleep_quality", Scenarios.one 3)] in
  let d := match PCOS.engineer_columns data with
           | Ok d => d
           | Raise _ => data
           end in
  let factors := PCOS._get_risk_factors d 0 in
  let lifestyle :=
    List.filter (fun tag => existsb (String.eqb tag)
                              ["low_exercise"; "high_stress"; "poor_sleep"])
                factors in
  (exists col,
      PCOS.lookup_col d "lifestyle_risk" = Some col
      /\ PCOS.values col !! 0%nat = Some (Fin (inject_Z (Z.of_nat (length lifestyle)))))
  /\ (exists col flag,
        PCOS.lookup_col d "cycle_irregular" = Some col
        /\ PCOS.values col !! 0%nat = Some (Fin (inject_Z flag))
        /\ (flag = 1%Z <-> In "irregular_cycles" factors)
        /\ (flag = 0%Z \/ flag = 1%Z)).
Proof.
  intros data d.
  apply (lifestyle_risk_counts_reported_factors data d 0%nat
           (Scenarios.one 1) (Scenarios.one 4) (Scenarios.one 3) (Scenarios.one 40)
           (Fin 1) (Fin 4) (Fin 3) (Fin 40)); reflexivity.
Defined.

(** X12. A risk factor is reported only from a value that is present: each
    of the six tags is tied to one column, the default read for an absent
    column never raises its tag, and the tags come in the fixed order
    elevated_bmi, irregular_cycles, family_history, low_exercise,
    high_stress, poor_sleep, each at most once. *)
Theorem risk_factors_only_from_present_columns :
  forall df i,
    let tag_column := [("elevated_bmi", "bmi"); ("irregular_cycles", "cycle_length");
                       ("family_history", "family_history");
                       ("low_exercise", "exercise_frequency");
                       ("high_stress", "stress_level");
                       ("poor_sleep", "sleep_quality")] in
    sublist (PCOS._get_risk_factors df i) (map fst tag_column)
    /\ (forall tag, In tag (PCOS._get_risk_factors df i) ->
         exists column cells v,
           In (tag, column) tag_column
           /\ PCOS.lookup_col df column = Some cells
           /\ PCOS.values cells !! i = Some (Fin v)).
Proof.
  intros df i tag_column. subst tag_column. unfold PCOS._get_risk_factors. split.
  - cbn [map fst].
    repeat apply sublist_flag.
    match goal with |- sublist (if ?b then _ else _) _ => destruct b end;
      repeat constructor.
  - intros tag Hin.
    repeat (apply in_app_or in Hin as [Hin|Hin]);
      apply in_flag in Hin as [-> Hb].
    + exists "bmi".
      destruct (flag_needs_cell df i "bmi" 0 (fun x => num_ltb (Fin 25) x))
        as (cells & v & L & V); [reflexivity | reflexivity | exact Hb |].
      exists cells, v. cbn. tauto.
    + exists "cycle_length".
      destruct (flag_needs_cell df i "cycle_length" 28
                  (fun x => num_ltb (Fin 35) x || num_ltb x (Fin 21)))
        as (cells & v & L & V); [reflexivity | reflexivity | exact Hb |].
      exists cells, v. cbn. tauto.
    + exists "family_history".
      destruct (flag_needs_cell df i "family_history" 0 (fun x => PCOS.num_eqb x 1))
        as (cells & v & L & V); [reflexivity | reflexivity | exact Hb |].
      exists cells, v. cbn. tauto.
    + exists "exercise_frequency".
      destruct (flag_needs_cell df i "exercise_frequency" 3 (fun x => num_ltb x (Fin 2)))
        as (cells & v & L & V); [reflexivity | reflexivity | exact Hb |].
      exists cells, v. cbn. tauto.
    + exists "stress_level".
      destruct (flag_needs_cell df i "stress_level" 2 (fun x => num_ltb (Fin 3) x))
        as (cells & v & L & V); [reflexivity | reflexivity | exact Hb |].
      exists cells, v. cbn. tauto.
    + exists "sleep_quality".
      destruct (flag_needs_cell df i "sleep_quality" 3 (fun x => num_ltb x (Fin 3)))
        as (cells & v & L & V); [reflexivity | reflexivity | exact Hb |].
      exists cells, v. cbn. tauto.
Qed.

(** ** Confidence of the PCOS ensemble *)

Lemma Qabs_cases (t : Q) : (0 <= t /\ Qabs t == t) \/ (t <= 0 /\ Qabs t == - t).
Proof.
  destruct (Qlt_le_dec t 0) as [H|H].
  - right. split; [lra|]. apply Qabs_neg. lra.
  - left. split; [exact H|]. now apply Qabs_pos.
Qed.

Lemma clip_inside (x lo hi : Q) : lo <= x <= hi -> clip x lo hi = x.
Proof.
  intros [Hlo Hhi]. unfold clip.
  rewrite (proj2 (Qltb_ge x lo) Hlo). cbv zeta.
  now rewrite (proj2 (Qltb_ge hi x) Hhi).
Qed.

(** On two probabilities the clip of [_calculate_confidence] is idle. *)
Lemma calculate_confidence_unclipped (p1 p2 : Q) :
  0 <= p1 <= 1 -> 0 <= p2 <= 1 ->
  PCOS._calculate_confidence p1 p2
  == ((1 - Qabs (p1 - p2)) + Qabs ((p1 + p2) / 2 - 0.5) * 2) / 2.
Proof.
  intros H1 H2. unfold PCOS._calculate_confidence. cbv zeta.
  assert (E : (p1 + p2) / 2 == (p1 + p2) * (1 # 2)) by reflexivity.
  set (a := Qabs (p1 - p2)). set (b := Qabs ((p1 + p2) / 2 - 0.5)).
  assert (Ha : 0 <= a <= 1).
  { subst a. destruct (Qabs_cases (p1 - p2)) as [[? ->]|[? ->]]; lra. }
  assert (Hb : 0 <= b /\ b * 2 <= 1).
  { subst b. destruct (Qabs_cases ((p1 + p2) / 2 - 0.5)) as [[? ->]|[? ->]]; lra. }
  assert (E2 : (1 - a + b * 2) / 2 == (1 - a + b * 2) * (1 # 2)) by reflexivity.
  rewrite clip_inside; [reflexivity | lra].
Qed.

(** X14. On two probabilities the clip of the PCOS confidence is idle: the
    confidence is ((1 - |rf - gb|) + |(rf + gb) / 2 - 0.5| * 2) / 2, the
    same whichever classifier gives which answer.  It is 1 when both
    classifiers answer 0 or both answer 1, it is 0 when one answers 0 and
    the other 1, and it is at least 1/2 whenever the two agree. *)
Theorem confidence_of_two_probabilities :
  forall p1 p2 : Q,
    0 <= p1 <= 1 -> 0 <= p2 <= 1 ->
    let c := PCOS._calculate_confidence p1 p2 in
    c == ((1 - Qabs (p1 - p2)) + Qabs ((p1 + p2) / 2 - 0.5) * 2) / 2
    /\ c == PCOS._calculate_confidence p2 p1
    /\ ((p1 == 0 /\ p2 == 0) \/ (p1 == 1 /\ p2 == 1) -> c == 1)
    /\ ((p1 == 0 /\ p2 == 1) \/ (p1 == 1 /\ p2 == 0) -> c == 0)
    /\ (p1 == p2 -> 1 # 2 <= c).
Proof.
  intros p1 p2 H1 H2 c. subst c.
  split; [apply calculate_confidence_unclipped; assumption|].
  rewrite (calculate_confidence_unclipped p1 p2 H1 H2).
  rewrite (calculate_confidence_unclipped p2 p1 H2 H1).
  assert (E : (p1 + p2) / 2 == (p1 + p2) * (1 # 2)) by reflexivity.
  assert (E' : (p2 + p1) / 2 == (p2 + p1) * (1 # 2)) by reflexivity.
  destruct (Qabs_cases (p1 - p2)) as [[A1 A2]|[A1 A2]];
  destruct (Qabs_cases (p2 - p1)) as [[B1 B2]|[B1 B2]];
  destruct (Qabs_cases ((p1 + p2) / 2 - 0.5)) as [[C1 C2]|[C1 C2]];
  destruct (Qabs_cases ((p2 + p1) / 2 - 0.5)) as [[D1 D2]|[D1 D2]];
  rewrite A2, B2, C2, D2;
  match goal with
  | |- ?x / 2 == ?z / 2 /\ _ =>
      assert (Ex : x / 2 == x * (1 # 2)) by reflexivity;
      assert (Ez : z / 2 == z * (1 # 2)) by reflexivity
  end;
  (split; [lra|]);
  (split; [intros [[? ?]|[? ?]]; lra|]);
  (split; [intros [[? ?]|[? ?]]; lra|]);
  intros; lra.
Qed.

Lemma confidence_of_two_probabilities_witness :
  PCOS._calculate_confidence 1 1 == 1
  /\ PCOS._calculate_confidence 0 1 == 0
  /\ PCOS._calculate_confidence 0.2 0.9 == PCOS._calculate_confidence 0.9 0.2
  /\ 1 # 2 <= PCOS._calculate_confidence 0.7 0.7.
Proof.
  split; [|split; [|split]].
  - apply (proj1 (proj2 (proj2 (confidence_of_two_probabilities 1 1
                                  ltac:(lra) ltac:(lra))))).
    right. split; reflexivity.
  - apply (proj1 (proj2 (proj2 (proj2 (confidence_of_two_probabilities 0 1
                                         ltac:(lra) ltac:(lra)))))).
    left. split; reflexivity.
  - apply (proj1 (proj2 (confidence_of_two_probabilities 0.2 0.9
                           ltac:(lra) ltac:(lra)))).
  - apply (proj2 (proj2 (proj2 (proj2 (confidence_of_two_probabilities 0.7 0.7
                                         ltac:(lra) ltac:(lra)))))).
    reflexivity.
Defined.

(** ** The preprocessed matrix *)

Section PreprocessFacts.

Import PCOS.

Lemma columns_lookup (df : DataFrame) (c : string) :
  existsb (String.eqb c) (columns df) = true <-> lookup_col df c <> None.
Proof.
  induction df as [|[k s] rest IH]; cbn [columns map existsb lookup_col fst].
  - split; [discriminate | congruence].
  - rewrite (String.eqb_sym c k).
    destruct (String.eqb k c); cbn [orb]; [split; [discriminate | reflexivity]|].
    exact IH.
Qed.

Lemma is_ok_rewrap {A} (w : exn -> exn) (r : result A) :
  is_ok (rewrap w r) = is_ok r.
Proof. now destruct r. Qed.

Lemma length_insert_q (x : Q) (l : list Q) : length (insert_q x l) = S (length l).
Proof.
  induction l as [|y t IH]; [reflexivity|].
  cbn [insert_q]. destruct (Qle_bool x y); cbn [length]; [reflexivity | now rewrite IH].
Qed.

Lemma length_sort_q (l : list Q) : length (sort_q l) = length l.
Proof.
  induction l as [|x t IH]; [reflexivity|].
  cbn [sort_q foldr]. fold (sort_q t). now rewrite length_insert_q, IH.
Qed.

(** The median of a column with a present value is a number. *)
Lemma median_present (l : list num) (q : Q) :
  In (Fin q) l -> exists m, median l = Fin m.
Proof.
  intros Hin. unfold median.
  assert (Hlen : (0 < length (sort_q (Cycle.dropna l)))%nat).
  { rewrite length_sort_q.
    induction l as [|[x|] t IH]; cbn [Cycle.dropna]; [destruct Hin | cbn; lia |].
    destruct Hin as [Hd|Hin]; [discriminate | now apply IH]. }
  set (xs := sort_q (Cycle.dropna l)) in *.
  destruct (length xs) as [|n] eqn:Hn; [lia|].
  destruct (Nat.even (S n)) eqn:Hev.
  - assert (H2 : (2 <= S n)%nat) by (destruct n; [discriminate Hev | lia]).
    assert (Hdiv : (S n / 2 < S n)%nat) by (apply Nat.div_lt; lia).
    destruct (lookup_lt_is_Some_2 xs (S n / 2 - 1)) as [a ->]; [lia|].
    destruct (lookup_lt_is_Some_2 xs (S n / 2)) as [b ->]; [lia|].
    eexists. reflexivity.
  - assert (Hdiv : (S n / 2 < S n)%nat) by (apply Nat.div_lt; lia).
    destruct (lookup_lt_is_Some_2 xs (S n / 2)) as [a ->]; [lia|].
    eexists. reflexivity.
Qed.

(** What [preprocess_data] has computed when it returns. *)
Lemma preprocess_data_inv (self : PCOSRiskModel) (data : DataFrame)
    (rows : list (list num)) :
  preprocess_data self data = Ok rows ->
  exists selected,
    Forall2 (fun c s => lookup_col data c = Some s) (feature_columns self) selected
    /\ rows = map (fun i =>
                     map (fun col => default NaN (col !! i))
                         (map (fun s => match s with
                                        | NumCol l => map (fillna_with (median l)) l
                                        | BoolCol l => map of_bool l
                                        end) selected))
                  (seq 0 (nrows data)).
Proof.
  unfold preprocess_data. intros H. apply rewrap_ok in H.
  destruct (dedup _) as [|m ms]; [|discriminate].
  apply bind_ok in H as (selected & Hsel & H).
  cbv [mret result_ret] in H. injection H as <-.
  exists selected. split; [|reflexivity].
  apply mapM_ok in Hsel.
  eapply Forall2_impl; [exact Hsel|].
  intros c s Hc. now apply getcol_ok.
Qed.

Lemma preprocess_data_rows (self : PCOSRiskModel) (data : DataFrame)
    (rows : list (list num)) :
  preprocess_data self data = Ok rows -> length rows = nrows data.
Proof.
  intros H. destruct (preprocess_data_inv self data rows H) as (sel & _ & ->).
  now rewrite length_map, length_seq.
Qed.

Lemma preprocess_data_width (self : PCOSRiskModel) (data : DataFrame)
    (rows : list (list num)) :
  preprocess_data self data = Ok rows ->
  Forall (fun row => length row = length (feature_columns self)) rows.
Proof.
  intros H. destruct (preprocess_data_inv self data rows H) as (sel & Hsel & ->).
  apply Forall_fmap, Forall_true. intros i. cbn [compose].
  rewrite !length_map. symmetry. exact (Forall2_length _ _ _ Hsel).
Qed.

(** [preprocess_data] answers exactly for the frames that have every
    declared column. *)
Lemma preprocess_data_ok_iff (self : PCOSRiskModel) (data : DataFrame) :
  is_ok (preprocess_data self data) = true
  <-> forall c, In c (feature_columns self) -> lookup_col data c <> None.
Proof.
  unfold preprocess_data. rewrite is_ok_rewrap.
    destruct (dedup _) as [|m ms] eqn:Hd.
    + apply dedup_nil in Hd. split.
      * intros _ c Hc. apply columns_lookup.
        destruct (existsb (String.eqb c) (columns data)) eqn:E; [reflexivity|].
        assert (Hin : In c (List.filter
                              (fun c => negb (existsb (String.eqb c) (columns data)))
                              (feature_columns self))).
        { apply filter_In. split; [exact Hc | now rewrite E]. }
        rewrite Hd in Hin. destruct Hin.
      * intros Hall.
        destruct (mapM_exists (getcol data) (fun _ _ => True)
                    (feature_columns self)) as (sel & -> & _); [|reflexivity].
        intros c Hc. specialize (Hall c Hc). unfold getcol.
        destruct (lookup_col data c) as [s|]; [|congruence].
        exists s. split; [reflexivity | exact I].
    + split; [discriminate|]. intros Hall. exfalso.
      destruct (List.filter _ _) as [|x xs] eqn:Hf; [discriminate Hd|].
      assert (Hx : In x (List.filter
                           (fun c => negb (existsb (String.eqb c) (columns data)))
                           (feature_columns self))) by (rewrite Hf; now left).
      apply filter_In in Hx as [Hx Hmiss].
      apply (Hall x Hx). 
      destruct (lookup_col data x) eqn:El; [|reflexivity].
      assert (Hp : existsb (String.eqb x) (columns data) = true).
      { apply columns_lookup. congruence. }
      rewrite Hp in Hmiss. discriminate.
Qed.

End PreprocessFacts.

(** X13. [preprocess_data] answers exactly for the frames that have every
    declared column.  The matrix it returns has one row for each row of
    the frame and one cell for each declared column, in the declared order;
    a present value is kept, a missing one is replaced by the median of the
    present values of its column, so a column with one present value has
    no missing cell left. *)
Theorem preprocess_data_shape_and_fill :
  forall self data,
    (is_ok (PCOS.preprocess_data self data) = true
     <-> forall c, In c (PCOS.feature_columns self) -> PCOS.lookup_col data c <> None)
    /\ (forall rows,
          PCOS.preprocess_data self data = Ok rows ->
          length rows = PCOS.nrows data
          /\ Forall (fun row => length row = length (PCOS.feature_columns self)) rows
          /\ (forall i j row c s v,
                rows !! i = Some row ->
                PCOS.feature_columns self !! j = Some c ->
                PCOS.lookup_col data c = Some s ->
                PCOS.values s !! i = Some v ->
                row !! j = Some (PCOS.fillna_with (PCOS.median (PCOS.values s)) v)
                /\ (forall q, v = Fin q -> row !! j = Some (Fin q))
                /\ ((exists q, In (Fin q) (PCOS.values s)) ->
                    exists q, row !! j = Some (Fin q)))).
Proof.
  intros self data. split.
  - apply preprocess_data_ok_iff.
  - intros rows H.
    destruct (preprocess_data_inv self data rows H) as (sel & Hsel & ->).
    split; [now rewrite length_map, length_seq|]. split.
    + apply (preprocess_data_width self data). exact H.
    + intros i j row c s v Hrow Hc Hs Hv.
      rewrite list_lookup_fmap in Hrow.
      destruct (seq 0 (PCOS.nrows data) !! i) as [i'|] eqn:Hi; [|discriminate].
      apply lookup_seq in Hi as [-> _]. cbn in Hrow. injection Hrow as <-.
      destruct (Forall2_lookup_l _ _ _ _ _ Hsel Hc) as (s' & Hs' & Hlk).
      assert (s' = s) by congruence. subst s'.
      rewrite !list_lookup_fmap, Hs'. cbn [fmap option_fmap option_map].
      assert (Hcell : default NaN
                (match s with
                 | PCOS.NumCol l => map (PCOS.fillna_with (PCOS.median l)) l
                 | PCOS.BoolCol l => map PCOS.of_bool l
                 end !! i)
              = PCOS.fillna_with (PCOS.median (PCOS.values s)) v).
      { destruct s as [l|l]; cbn [PCOS.values] in Hv |- *.
        - rewrite list_lookup_fmap, Hv. reflexivity.
        - rewrite Hv. cbn [default].
          rewrite list_lookup_fmap in Hv.
          destruct (l !! i) as [b|]; [|discriminate]. injection Hv as <-. reflexivity. }
      rewrite Hcell. split; [reflexivity|]. split.
      * intros q ->. reflexivity.
      * intros (q & Hq). destruct v as [x|]; cbn [PCOS.fillna_with]; [now exists x|].
        destruct (median_present _ _ Hq) as (m & ->). now exists m.
Qed.

Lemma preprocess_data_shape_and_fill_witness :
  let self := Scenarios.eight_column_pcos_model 0.2 0.3 in
  let data := [("age", PCOS.NumCol [Fin 25; NaN; Fin 35]);
               ("bmi", PCOS.NumCol [Fin 22.5; Fin 28; Fin 24.5]);
               ("cycle_length", PCOS.NumCol [Fin 28; Fin 35; Fin 26]);
               ("period_length", PCOS.NumCol [Fin 5; Fin 4; Fin 6]);
               ("exercise_frequency", PCOS.NumCol [Fin 3; Fin 1; Fin 5]);
               ("stress_level", PCOS.NumCol [Fin 2; Fin 4; Fin 1]);
               ("family_history", PCOS.BoolCol [false; true; false]);
               ("sleep_quality", PCOS.NumCol [Fin 3; Fin 2; Fin 4])] in
  let rows := [[Fin 25; Fin 22.5; Fin 28; Fin 5; Fin 3; Fin 2; Fin 3; Fin 0];
               [Fin ((25 + 35) / 2); Fin 28; Fin 35; Fin 4; Fin 1; Fin 4; Fin 2; Fin 1];
               [Fin 35; Fin 24.5; Fin 26; Fin 6; Fin 5; Fin 1; Fin 4; Fin 0]] in
  length rows = PCOS.nrows data
  /\ Forall (fun row => length row = length (PCOS.feature_columns self)) rows
  /\ (forall i j row c s v,
        rows !! i = Some row ->
        PCOS.feature_columns self !! j = Some c ->
        PCOS.lookup_col data c = Some s ->
        PCOS.values s !! i = Some v ->
        row !! j = Some (PCOS.fillna_with (PCOS.median (PCOS.values s)) v)
        /\ (forall q, v = Fin q -> row !! j = Some (Fin q))
        /\ ((exists q, In (Fin q) (PCOS.values s)) ->
            exists q, row !! j = Some (Fin q))).
Proof.
  intros self data rows.
  apply (proj2 (preprocess_data_shape_and_fill self data) rows).
  reflexivity.
Defined.

(** ** Single and batch results *)

Section OutputFacts.

Import PCOS Frames.

Lemma frame_of_rows_spec (n : nat) (df : DataFrame) :
  frame_of_rows n df = true <->
  df <> [] /\ Forall (fun cs => length (values cs.2) = n) df.
Proof.
  unfold frame_of_rows. rewrite andb_true_iff, forallb_forall, Forall_forall.
  split; intros [Hne Hall]; split.
  - destruct df; [discriminate | discriminate].
  - intros cs Hcs. apply Nat.eqb_eq, Hall. now apply list_elem_of_In.
  - destruct df; [congruence | reflexivity].
  - intros cs Hcs. apply Nat.eqb_eq, Hall. now apply list_elem_of_In.
Qed.

Lemma frame_of_rows_nrows (n : nat) (df : DataFrame) :
  frame_of_rows n df = true -> nrows df = n.
Proof.
  intros [Hne Hall]%frame_of_rows_spec. destruct df as [|[c s] rest]; [congruence|].
  apply Forall_cons_1 in Hall as [H _]. exact H.
Qed.

Lemma frame_of_rows_lookup (n : nat) (df : DataFrame) (k : string) (s : Series) :
  frame_of_rows n df = true -> lookup_col df k = Some s -> length (values s) = n.
Proof.
  intros [_ Hall]%frame_of_rows_spec. induction Hall as [|[c s'] rest Hc _ IH]; cbn [lookup_col].
  - discriminate.
  - destruct (String.eqb c k); [intros [= <-]; exact Hc | exact IH].
Qed.

Lemma frame_of_rows_setcol (n : nat) (df : DataFrame) (k : string) (s : Series) :
  frame_of_rows n df = true -> length (values s) = n ->
  frame_of_rows n (setcol df k s) = true.
Proof.
  intros [Hne Hall]%frame_of_rows_spec Hs. apply frame_of_rows_spec. split.
  - destruct df as [|[c s'] rest]; [congruence|].
    cbn [setcol]. destruct (String.eqb c k); discriminate.
  - clear Hne. induction Hall as [|[c s'] rest Hc Hrest IH]; cbn [setcol].
    + constructor; [exact Hs | constructor].
    + destruct (String.eqb c k); constructor;
        first [exact Hs | exact Hc | exact Hrest | exact IH].
Qed.

Lemma length_cut (bins : list Q) (s : Series) :
  length (values (cut bins s)) = length (values s).
Proof. unfold cut. cbn [values]. now rewrite length_map. Qed.

(** Feature engineering keeps the number of rows. *)
Lemma engineer_features_rows (self : PCOSRiskModel) (n : nat) (X : DataFrame) :
  frame_of_rows n X = true -> nrows (engineer_features self X).1 = n.
Proof.
  intros HX. unfold engineer_features.
  destruct (engineer_columns X) as [d|e] eqn:He; cbn [fst];
    [|now apply frame_of_rows_nrows].
  destruct (engineer_columns_inv X d He)
    as (bmi & cl & pl & ex & st & sl & age
        & Hbmi & Hcl & Hpl & Hex & Hst & Hsl & Hage & ->).
  apply frame_of_rows_nrows.
  pose proof (frame_of_rows_lookup n X _ _ HX Hbmi).
  pose proof (frame_of_rows_lookup n X _ _ HX Hcl).
  pose proof (frame_of_rows_lookup n X _ _ HX Hpl).
  pose proof (frame_of_rows_lookup n X _ _ HX Hex).
  pose proof (frame_of_rows_lookup n X _ _ HX Hst).
  pose proof (frame_of_rows_lookup n X _ _ HX Hsl).
  pose proof (frame_of_rows_lookup n X _ _ HX Hage).
  repeat apply frame_of_rows_setcol; try exact HX;
    rewrite ?length_cut; try assumption;
    unfold int_col, astype_int, lt_const, gt_const; cbn [values];
    rewrite ?length_map, ?length_zip_with, ?length_map; lia.
Qed.

Lemma mapM_length {A B} (f : A -> result B) (l : list A) (k : list B) :
  mapM f l = Ok k -> length k = length l.
Proof. intros H. apply mapM_ok in H. symmetry. exact (Forall2_length _ _ _ H). Qed.

End OutputFacts.

(** X15. Whether [predict] answers with one result or with a list depends
    only on the number of rows of the frame: when the scaler keeps the
    number of rows, a frame of one row gets the single result (with its
    risk factors), and a frame of any other number of rows gets a list
    with one entry for each row and no result of its own. *)
Theorem predict_single_exactly_for_one_row :
  forall utcnow self X n out self',
    Frames.frame_of_rows n X = true ->
    (forall M M', PCOS.scaler self M = Ok M' -> length M' = length M) ->
    PCOS.predict utcnow self X = (Ok out, self') ->
    match out with
    | PCOS.Single r =>
        n = 1%nat
        /\ PCOS.factors r = PCOS._get_risk_factors (PCOS.engineer_features self X).1 0
    | PCOS.Predictions results => n <> 1%nat /\ length results = n
    end.
Proof.
  intros utcnow self X n out self' HX Hscaler H.
  pose proof (engineer_features_rows self n X HX) as Hrows.
  assert (Hs1 : PCOS.scaler (PCOS.engineer_features self X).2 = PCOS.scaler self).
  { unfold PCOS.engineer_features. now destruct (PCOS.engineer_columns X). }
  unfold PCOS.predict in H.
  destruct (PCOS.is_trained self); [|discriminate].
  destruct (PCOS.model self) as [ens|]; [|discriminate].
  destruct (PCOS.engineer_features self X) as [Xe s1]. cbn [fst snd] in Hrows, Hs1.
  injection H as H _. apply rewrap_ok in H.
  unfold PCOS.predict_engineered in H.
  apply bind_ok in H as (X_processed & Hpre & H).
  apply bind_ok in H as (X_scaled & Hsc & H).
  apply bind_ok in H as (rf_proba & Hrf & H).
  apply bind_ok in H as (gb_proba & Hgb & H).
  apply preprocess_data_rows in Hpre. rewrite Hs1 in Hsc. apply Hscaler in Hsc.
  apply mapM_length in Hrf, Hgb.
  assert (Hlen : length (zip_with (fun a b => (a + b) / 2) rf_proba gb_proba) = n).
  { rewrite length_zip_with. lia. }
  destruct (zip_with _ rf_proba gb_proba) as [|s0 [|s1' ss]] eqn:Hz.
  - cbn in H. injection H as <-. cbn in Hlen. split; [lia | exact Hlen].
  - apply bind_ok in H as (rf0 & _ & H). apply bind_ok in H as (gb0 & _ & H).
    cbv [mret result_ret] in H. injection H as <-. cbn in Hlen.
    split; [lia | reflexivity].
  - apply bind_ok in H as (results & Hres & H).
    cbv [mret result_ret] in H. injection H as <-.
    apply mapM_length in Hres. rewrite length_imap in Hres.
    cbn [length] in Hlen, Hres. split; lia.
Qed.

Lemma predict_single_exactly_for_one_row_witness :
  exists results,
    (PCOS.predict Scenarios.now_2023_03_10 (Scenarios.eight_column_pcos_model 0.2 0.9)
       [("age", PCOS.NumCol [Fin 25; Fin 30]);
        ("bmi", PCOS.NumCol [Fin 22.5; Fin 28]);
        ("cycle_length", PCOS.NumCol [Fin 28; Fin 35]);
        ("period_length", PCOS.NumCol [Fin 5; Fin 4]);
        ("exercise_frequency", PCOS.NumCol [Fin 3; Fin 1]);
        ("stress_level", PCOS.NumCol [Fin 2; Fin 4]);
        ("family_history", PCOS.BoolCol [false; true]);
        ("sleep_quality", PCOS.NumCol [Fin 3; Fin 2])]).1
    = Ok (PCOS.Predictions results)
    /\ 2%nat <> 1%nat /\ length results = 2%nat.
Proof.
  eexists. split; [reflexivity|].
  refine (predict_single_exactly_for_one_row
            Scenarios.now_2023_03_10 (Scenarios.eight_column_pcos_model 0.2 0.9)
            [("age", PCOS.NumCol [Fin 25; Fin 30]);
             ("bmi", PCOS.NumCol [Fin 22.5; Fin 28]);
             ("cycle_length", PCOS.NumCol [Fin 28; Fin 35]);
             ("period_length", PCOS.NumCol [Fin 5; Fin 4]);
             ("exercise_frequency", PCOS.NumCol [Fin 3; Fin 1]);
             ("stress_level", PCOS.NumCol [Fin 2; Fin 4]);
             ("family_history", PCOS.BoolCol [false; true]);
             ("sleep_quality", PCOS.NumCol [Fin 3; Fin 2])]
            2%nat (PCOS.Predictions _) _ _ _ _).
  - reflexivity.
  - intros M M' [= <-]. reflexivity.
  - reflexivity.
Defined.

(** ** A scaler fitted on the declared columns *)

(** X16. A predictor whose scaler accepts no empty matrix and no matrix
    with more columns than the predictor declares, and whose declared
    columns include the seven inputs of feature engineering (the state
    [_initialize_default_model] leaves, its scaler being fitted on as many
    columns as are declared), never returns a prediction: feature
    engineering declares five more columns before the matrix is built, so
    the scaler is given five columns too many, and a frame on which
    feature engineering does not complete lacks a declared column.  The
    predictor is in such a state again after the call, so no later call
    returns either. *)
Theorem predict_never_returns_with_fitted_scaler :
  forall utcnow self X,
    Fitted.fitted_on_declared self ->
    is_ok (PCOS.predict utcnow self X).1 = false
    /\ Fitted.fitted_on_declared (PCOS.predict utcnow self X).2.
Proof.
  intros utcnow self X [Hscaler Hdecl]. split.
  - destruct (PCOS.predict utcnow self X) as [[out|e] self'] eqn:H; [|reflexivity].
    exfalso. unfold PCOS.predict in H.
    destruct (PCOS.is_trained self); [|discriminate].
    destruct (PCOS.model self) as [ens|]; [|discriminate].
    unfold PCOS.engineer_features in H.
    destruct (PCOS.engineer_columns X) as [d|err] eqn:He.
    + injection H as H _. apply rewrap_ok in H.
      unfold PCOS.predict_engineered in H.
      apply bind_ok in H as (X_processed & Hpre & H).
      apply bind_ok in H as (X_scaled & Hsc & _).
      apply preprocess_data_width in Hpre.
      cbn [PCOS.scaler PCOS.feature_columns PCOS.set_feature_columns] in Hsc, Hpre.
      apply Hscaler in Hsc as [Hne Hw].
      destruct X_processed as [|row rows]; [congruence|].
      apply Forall_cons_1 in Hpre as [Hrow _]. apply Forall_cons_1 in Hw as [Hrow' _].
      rewrite length_app in Hrow. cbn in Hrow. lia.
    + injection H as H _. apply rewrap_ok in H.
      unfold PCOS.predict_engineered in H.
      apply bind_ok in H as (X_processed & Hpre & _).
      assert (Hok : is_ok (PCOS.preprocess_data self X) = true) by now rewrite Hpre.
      pose proof (proj1 (preprocess_data_ok_iff self X) Hok) as Hall.
      assert (Hget : forall k, In k Fitted.engineered_inputs ->
                       exists s, PCOS.lookup_col X k = Some s).
      { intros k Hk. specialize (Hall k (Hdecl k Hk)).
        destruct (PCOS.lookup_col X k); [eauto | congruence]. }
      destruct (Hget "bmi") as [bmi Hbmi]; [cbn; tauto|].
      destruct (Hget "cycle_length") as [cl Hcl]; [cbn; tauto|].
      destruct (Hget "period_length") as [pl Hpl]; [cbn; tauto|].
      destruct (Hget "exercise_frequency") as [ex Hex]; [cbn; tauto|].
      destruct (Hget "stress_level") as [st Hst]; [cbn; tauto|].
      destruct (Hget "sleep_quality") as [sl Hsl]; [cbn; tauto|].
      destruct (Hget "age") as [age Hage]; [cbn; tauto|].
      destruct (engineer_columns_ok X _ _ _ _ _ _ _ Hbmi Hcl Hpl Hex Hst Hsl Hage)
        as [d Hd].
      congruence.
  - unfold PCOS.predict, PCOS.engineer_features.
    destruct (PCOS.is_trained self); [|split; assumption].
    destruct (PCOS.model self) as [ens|]; [|split; assumption].
    destruct (PCOS.engineer_columns X) as [d|err]; [|split; assumption].
    cbn [snd]. split.
    + cbn [PCOS.scaler PCOS.feature_columns PCOS.set_feature_columns].
      intros M M' HM. destruct (Hscaler M M' HM) as [Hne Hw]. split; [exact Hne|].
      eapply Forall_impl; [exact Hw|]. intros row Hrow.
      rewrite length_app. cbn beta in Hrow |- *. lia.
    + cbn [PCOS.feature_columns PCOS.set_feature_columns].
      intros c Hc. apply in_or_app. left. now apply Hdecl.
Qed.

Lemma predict_never_returns_with_fitted_scaler_witness :
  is_ok (PCOS.predict Scenarios.now_2023_03_10 (Fitted.default_pcos_model 0.2 0.3)
           Scenarios.profile_B_counted).1 = false
  /\ Fitted.fitted_on_declared
       (PCOS.predict Scenarios.now_2023_03_10 (Fitted.default_pcos_model 0.2 0.3)
          Scenarios.profile_B_counted).2.
Proof.
  apply (predict_never_returns_with_fitted_scaler
           Scenarios.now_2023_03_10 (Fitted.default_pcos_model 0.2 0.3)
           Scenarios.profile_B_counted).
  split.
  - intros M M' H. cbn [PCOS.scaler Fitted.default_pcos_model PCOS.feature_columns] in *.
    unfold Fitted.fitted_scaler in H.
    destruct M as [|row rows]; [discriminate|]. split; [discriminate|].
    destruct (forallb _ (row :: rows)) eqn:E; [|discriminate].
    apply Forall_forall. intros r Hr.
    rewrite forallb_forall in E.
    assert (Hlen : Nat.eqb (length r) (length Constants.FEATURE_COLUMNS_pcos_risk) = true)
      by (apply E; now apply list_elem_of_In).
    apply Nat.eqb_eq in Hlen. rewrite Hlen. reflexivity.
  - intros c Hc. cbn in Hc |- *. tauto.
Defined.

(** * Further properties of the validator *)

Section AcceptedRecords.

Import Validation.

Context (fromisoformat : string -> option datetime)
        (int_of_str : string -> option Z)
        (float_of_str : string -> option Q)
        (str : value -> string).

Lemma required_errors_nil (label : string) (fields : list string) (rec : record) :
  required_errors label fields rec = []
  <-> forall field, In field fields -> missing rec field = false.
Proof.
  unfold required_errors. split.
  - intros H field Hin.
    apply map_eq_nil in H.
    destruct (missing rec field) eqn:Hm; [|reflexivity].
    assert (Hf : In field (List.filter (missing rec) fields))
      by (apply filter_In; split; assumption).
    rewrite H in Hf. destruct Hf.
  - intros H.
    assert (Hf : List.filter (missing rec) fields = []).
    { induction fields as [|f t IH]; [reflexivity|].
      cbn [List.filter]. rewrite (H f (or_introl eq_refl)).
      apply IH. intros g Hg. apply H. now right. }
    now rewrite Hf.
Qed.

Lemma in_range_spec (lo hi n : Z) :
  in_range (lo, hi) (inject_Z n) = true <-> (lo <= n <= hi)%Z.
Proof.
  unfold in_range. cbn [fst snd].
  rewrite andb_true_iff, !Qle_bool_iff, <- !Zle_Qle. reflexivity.
Qed.

(** A cycle record raises no error exactly when its start date is a
    string that parses and the integer of its cycle length is in range. *)
Lemma cycle_errors_nil_iff (label : string) (cycle : record) :
  cycle_errors fromisoformat int_of_str label cycle = []
  <-> exists s d v n,
        cycle !! "start_date" = Some (VStr s)
        /\ fromisoformat (replace_Z s) = Some d
        /\ cycle !! "cycle_length" = Some v
        /\ to_int int_of_str v = Ok n
        /\ (21 <= n <= 45)%Z.
Proof.
  unfold cycle_errors. split.
  - intros H.
    apply app_eq_nil in H as [Hreq H]. apply app_eq_nil in H as [Hdate Hlen].
    pose proof (proj1 (required_errors_nil _ _ _) Hreq) as Hfields.
    pose proof (Hfields "start_date" (or_introl eq_refl)) as Hs.
    pose proof (Hfields "cycle_length" (or_intror (or_introl eq_refl))) as Hl.
    unfold missing in Hs, Hl.
    destruct (cycle !! "start_date") as [vd|]; [|discriminate].
    destruct (cycle !! "cycle_length") as [vl|]; [|discriminate].
    destruct (parse_date fromisoformat vd) as [d|e] eqn:Hp; [|discriminate].
    assert (Hstr : exists s, vd = VStr s /\ fromisoformat (replace_Z s) = Some d).
    { unfold parse_date in Hp. destruct vd; try discriminate.
      destruct (fromisoformat (replace_Z s)) eqn:E; [|discriminate].
      injection Hp as ->. eauto. }
    destruct Hstr as (s & -> & Hd).
    assert (Hint : exists n, to_int int_of_str vl = Ok n
                             /\ in_range valid_range_cycle_length (inject_Z n) = true).
    { destruct vl; try discriminate Hl;
        (destruct (to_int int_of_str _) as [n|e] eqn:Hn; [|discriminate Hlen]);
        (destruct (in_range valid_range_cycle_length (inject_Z n)) eqn:Hr;
           [|discriminate Hlen]); eauto. }
    destruct Hint as (n & Hn & Hr).
    exists s, d, vl, n. repeat split; try assumption; try reflexivity;
      apply (in_range_spec 21 45 n) in Hr; lia.
  - intros (s & d & v & n & Hs & Hd & Hl & Hn & Hr).
    assert (Hreq : required_errors label required_fields_cycle_prediction cycle = []).
    { apply required_errors_nil. intros field Hin. unfold missing.
      cbn in Hin. destruct Hin as [<-|[<-|[]]].
      - now rewrite Hs.
      - rewrite Hl. destruct v; try reflexivity. discriminate Hn. }
    rewrite Hreq, Hs, Hl. cbn [parse_date app]. rewrite Hd, Hn.
    assert (Hin : in_range valid_range_cycle_length (inject_Z n) = true)
      by (apply (in_range_spec 21 45 n); exact Hr).
    rewrite Hin. destruct v; reflexivity.
Qed.

Lemma concat_imap_nil {A B} (f : nat -> A -> list B) (l : list A) :
  concat (imap f l) = [] <-> forall i x, l !! i = Some x -> f i x = [].
Proof.
  revert f. induction l as [|a t IH]; intros f; cbn [imap concat].
  - split; [intros _ i x Hi; discriminate Hi | reflexivity].
  - split.
    + intros H. apply app_eq_nil in H as [Ha Ht].
      intros [|i] x Hi; cbn in Hi.
      * injection Hi as <-. exact Ha.
      * exact (proj1 (IH (f ∘ S)) Ht i x Hi).
    + intros H. rewrite (H 0%nat a eq_refl). cbn [app].
      apply (IH (f ∘ S)). intros i x Hi. exact (H (S i) x Hi).
Qed.

(** [int()] of a float lies in 21..45 exactly for the floats of [21, 46). *)
Lemma int_in_cycle_range (q : Q) :
  (21 <= Py.int q <= 45)%Z <-> 21 <= q /\ q < 46.
Proof.
  unfold Py.int.
  pose proof (Qfloor_le q) as Hfl. pose proof (Qlt_floor q) as Hlf.
  pose proof (Qceiling_lt q) as Hcl.
  destruct (Qltb q 0) eqn:E; [apply Qltb_lt in E | apply Qltb_ge in E].
  - split.
    + intros [Hlo _]. exfalso.
      assert (H : inject_Z 21 <= inject_Z (Qceiling q)) by (rewrite <- Zle_Qle; lia).
      rewrite inject_Z_plus in Hcl || idtac.
      assert (H1 : inject_Z (Qceiling q - 1) == inject_Z (Qceiling q) - 1).
      { unfold Z.sub. rewrite inject_Z_plus. reflexivity. }
      rewrite H1 in Hcl. change (inject_Z 21) with 21 in H. lra.
    + intros [Hlo _]. exfalso. lra.
  - assert (H1 : inject_Z (Qfloor q + 1) == inject_Z (Qfloor q) + 1).
    { rewrite inject_Z_plus. reflexivity. }
    rewrite H1 in Hlf. split.
    + intros [Hlo Hhi].
      assert (Ha : inject_Z 21 <= inject_Z (Qfloor q)) by (rewrite <- Zle_Qle; lia).
      assert (Hb : inject_Z (Qfloor q) <= inject_Z 45) by (rewrite <- Zle_Qle; lia).
      change (inject_Z 21) with 21 in Ha. change (inject_Z 45) with 45 in Hb.
      split; lra.
    + intros [Hlo Hhi]. split.
      * change 21%Z with (Qfloor 21). now apply Qfloor_resp_le.
      * assert (Hlt : inject_Z (Qfloor q) < inject_Z 46).
        { change (inject_Z 46) with 46. lra. }
        rewrite <- Zlt_Qlt in Hlt. lia.
Qed.

End AcceptedRecords.

(** X17. [validate_cycle_input] accepts a history exactly when it reports no
    error, and that is exactly when the history is not empty and every
    record has a [start_date] that is a string [fromisoformat] parses and a
    [cycle_length] whose [int()] lies between 21 and 45.  A length that is
    not an integer is truncated before it is compared: with a date that
    parses, a float length is accepted exactly from 21 up to, but not
    including, 46. *)
Theorem cycle_validation_accepts_exactly :
  forall fromisoformat int_of_str data,
    let out := Validation.validate_cycle_input fromisoformat int_of_str data in
    (out.1 = true <-> out.2 = [])
    /\ (out.1 = true <->
        data <> []
        /\ forall cycle, In cycle data ->
             exists s d v n,
               cycle !! "start_date" = Some (Validation.VStr s)
               /\ fromisoformat (Validation.replace_Z s) = Some d
               /\ cycle !! "cycle_length" = Some v
               /\ Validation.to_int int_of_str v = Ok n
               /\ (21 <= n <= 45)%Z)
    /\ (forall s d q,
          fromisoformat (Validation.replace_Z s) = Some d ->
          ((Validation.validate_cycle_input fromisoformat int_of_str
              [<["start_date" := Validation.VStr s]>
                 (<["cycle_length" := Validation.VFloat q]> ∅)]).1 = true
           <-> 21 <= q /\ q < 46)).
Proof.
  intros fromisoformat int_of_str data out. subst out.
  assert (Hmain : forall data,
            (Validation.validate_cycle_input fromisoformat int_of_str data).1 = true
            <-> data <> []
                /\ forall cycle, In cycle data ->
                     exists s d v n,
                       cycle !! "start_date" = Some (Validation.VStr s)
                       /\ fromisoformat (Validation.replace_Z s) = Some d
                       /\ cycle !! "cycle_length" = Some v
                       /\ Validation.to_int int_of_str v = Ok n
                       /\ (21 <= n <= 45)%Z).
  { clear data. intros data. unfold Validation.validate_cycle_input.
    destruct data as [|c0 rest].
    - cbn [fst]. split; [discriminate | intros [H _]; congruence].
    - cbv zeta. cbn [fst].
      set (errors := concat (imap _ (c0 :: rest))).
      assert (Hnil : Nat.eqb (length errors) 0 = true <-> errors = []).
      { destruct errors; cbn; split; congruence. }
      rewrite Hnil. subst errors. rewrite concat_imap_nil. split.
      + intros H. split; [discriminate|]. intros cycle Hin.
        apply list_elem_of_In, list_elem_of_lookup in Hin as [i Hi].
        exact (proj1 (cycle_errors_nil_iff _ _ _ _) (H i cycle Hi)).
      + intros [_ H] i cycle Hi.
        apply cycle_errors_nil_iff, H.
        apply list_elem_of_In, list_elem_of_lookup. eauto. }
  split; [|split].
  - unfold Validation.validate_cycle_input. destruct data as [|c0 rest].
    + cbn [fst snd]. split; discriminate.
    + cbv zeta. cbn [fst snd].
      destruct (concat _); cbn; split; congruence.
  - apply Hmain.
  - intros s d q Hd. rewrite Hmain. rewrite <- int_in_cycle_range. split.
    + intros [_ H].
      destruct (H _ (or_introl eq_refl)) as (s' & d' & v & n & _ & _ & Hl & Hn & Hr).
      assert (Hv : Some v = Some (Validation.VFloat q))
        by (rewrite <- Hl; reflexivity).
      injection Hv as ->. cbn [Validation.to_int] in Hn. injection Hn as <-. exact Hr.
    + intros Hr. split; [discriminate|]. intros cycle [<-|[]].
      exists s, d, (Validation.VFloat q), (Py.int q).
      split; [reflexivity|]. split; [exact Hd|].
      split; [reflexivity|].
      split; [reflexivity | exact Hr].
Qed.

Lemma cycle_validation_accepts_exactly_witness :
  (Validation.validate_cycle_input Scenarios.parse_known Scenarios.no_int
     [<["start_date" := Validation.VStr "2023-01-01"]>
        (<["cycle_length" := Validation.VFloat 45.9]> ∅)]).1 = true
  <-> 21 <= 45.9 /\ 45.9 < 46.
Proof.
  apply (proj2 (proj2 (cycle_validation_accepts_exactly
                         Scenarios.parse_known Scenarios.no_int [])) 
           "2023-01-01" (of_ymd 2023 1 1) 45.9).
  reflexivity.
Defined.
